(** * openphacts-irs: the SPARQL-to-ElasticSearch indexer

    A shallow embedding of [populate_elasticsearch.py]: the bounded cache
    [SlidingWindowDictionary], the qualified names and the checks of the
    configuration of [Session], the query builder [Indexer.sparql], the row
    projection [Indexer.binding_as_doc] with its helpers [skolemize],
    [merge_bodies] and [update_script_for], followed by the properties
    proved about them.

    Python values are modelled as follows.
    - [str] is [string]; a [uuid.UUID] is identified with its canonical
      text [str(u)].
    - a [dict] is an association list in insertion order whose keys are
      unique; [d[k] = v] on a present key replaces the value in place and on
      an absent key appends the pair.
    - a raised exception is the [Raise] branch of [result]; the state a
      failing call leaves behind is dropped, since nothing in the program
      catches these exceptions.
    - library functions whose value the program does not fix ([uuid.uuid5],
      [uuid.uuid4], [urllib.parse.unquote], the iteration order of a [set])
      are the fields of [PyLib]. *)

From Stdlib Require Import List String Ascii ZArith Lia Bool Permutation Sorted.
From Stdlib Require Import DecimalString DecimalNat.
Import ListNotations.

Open Scope string_scope.
Open Scope list_scope.

(** ** Exceptions *)

Inductive exn : Type :=
| KeyError (key : string)
| TypeError
| AttributeError
| Exception (msg : string).

Inductive result (A : Type) : Type :=
| Ok (a : A)
| Raise (e : exn).

Arguments Ok {A} a.
Arguments Raise {A} e.

Definition bind {A B : Type} (r : result A) (f : A -> result B) : result B :=
  match r with
  | Ok a => f a
  | Raise e => Raise e
  end.

Notation "x <- r ;; k" := (bind r (fun x => k))
  (at level 61, r at next level, right associativity).
Notation "' p <- r ;; k" := (bind r (fun x => match x with p => k end))
  (at level 61, p pattern, r at next level, right associativity).

Definition is_ok {A : Type} (r : result A) : bool :=
  match r with Ok _ => true | Raise _ => false end.

(** ** Python strings *)

Module PyStr.

(** [s.startswith(p)] *)
Definition startswith (s p : string) : bool := String.prefix p s.

(** ["sep".join(l)] *)
Definition join (sep : string) (l : list string) : string := String.concat sep l.

(** [s.split(c)] for a one-character separator: never the empty list. *)
Fixpoint split (c : ascii) (s : string) : list string :=
  match s with
  | EmptyString => [EmptyString]
  | String a s' =>
      if Ascii.eqb a c then EmptyString :: split c s'
      else match split c s' with
           | [] => [String a EmptyString]
           | w :: ws => String a w :: ws
           end
  end.

(** [s.split(c, 1)] when [c in s]: the text before the first [c] and the
    text after it; [None] when [c not in s]. *)
Fixpoint split_once (c : ascii) (s : string) : option (string * string) :=
  match s with
  | EmptyString => None
  | String a s' =>
      if Ascii.eqb a c then Some (EmptyString, s')
      else match split_once c s' with
           | Some (p, r) => Some (String a p, r)
           | None => None
           end
  end.

(** [s.replace(c, "")] for a one-character [c]. *)
Fixpoint remove_char (c : ascii) (s : string) : string :=
  match s with
  | EmptyString => EmptyString
  | String a s' =>
      if Ascii.eqb a c then remove_char c s' else String a (remove_char c s')
  end.

(** The characters [str.strip()] removes: space, \t, \n, \v, \f, \r. *)
Definition is_space (a : ascii) : bool :=
  let n := nat_of_ascii a in
  Nat.eqb n 32 || (Nat.leb 9 n && Nat.leb n 13).

Fixpoint lstrip (s : string) : string :=
  match s with
  | EmptyString => EmptyString
  | String a s' => if is_space a then lstrip s' else s
  end.

Fixpoint rstrip (s : string) : string :=
  match s with
  | EmptyString => EmptyString
  | String a s' =>
      match rstrip s' with
      | EmptyString => if is_space a then EmptyString else String a EmptyString
      | r => String a r
      end
  end.

(** [s.strip()] *)
Definition strip (s : string) : string := rstrip (lstrip s).

(** [sub in s] *)
Fixpoint contains (s sub : string) : bool :=
  String.prefix sub s ||
  match s with
  | EmptyString => false
  | String _ s' => contains s' sub
  end.

(** The one-character strings of [s]: what iterating a [str] yields. *)
Fixpoint chars (s : string) : list string :=
  match s with
  | EmptyString => []
  | String a s' => String a EmptyString :: chars s'
  end.



End PyStr.

(** ** Python dictionaries, in insertion order *)

Module PyDict.

Section Dict.
Context {V : Type}.

Definition t : Type := list (string * V).

(** [d.get(k)] *)
Fixpoint get (d : t) (k : string) : option V :=
  match d with
  | [] => None
  | (k', v) :: d' => if String.eqb k' k then Some v else get d' k
  end.

(** [k in d] *)
Definition mem (d : t) (k : string) : bool :=
  match get d k with Some _ => true | None => false end.

(** [d[k]], raising [KeyError] *)
Definition getitem (d : t) (k : string) : result V :=
  match get d k with
  | Some v => Ok v
  | None => Raise (KeyError k)
  end.

(** [d[k] = v]: a present key keeps its place, an absent one goes last. *)
Fixpoint set (d : t) (k : string) (v : V) : t :=
  match d with
  | [] => [(k, v)]
  | (k', v') :: d' =>
      if String.eqb k' k then (k', v) :: d' else (k', v') :: set d' k v
  end.

(** [list(d)]: the keys in insertion order *)
Definition keys (d : t) : list string := map fst d.

End Dict.

Arguments t V : clear implicits.

End PyDict.

(** ** Library functions and configuration values *)

(** What the program takes from Python's library without fixing its value.
    [uuid5 name] is [str(uuid.uuid5(uuid.NAMESPACE_URL, name))]; [uuid4 n] is
    the text of the [n]-th UUID that [uuid.uuid4()] draws; [unquote] is
    [urllib.parse.unquote]; [set_difference a b] is the list
    [list(set(a) - set(b))] and [set_union a b] the order in which
    [set(a) | set(b)] is iterated: Python fixes their elements, not their
    order. *)
Record PyLib : Type := {
  uuid5 : string -> string;
  uuid4 : nat -> string;
  unquote : string -> string;
  set_difference : list string -> list string -> list string;
  set_difference_NoDup : forall a b, NoDup (set_difference a b);
  set_difference_In :
    forall a b x, In x (set_difference a b) <-> In x a /\ ~ In x b;
  set_union : list string -> list string -> list string;
  set_union_NoDup : forall a b, NoDup (set_union a b);
  set_union_In : forall a b x, In x (set_union a b) <-> In x a \/ In x b
}.

(** A scalar read from the YAML configuration. *)
Inductive yaml : Type :=
| YNone
| YBool (b : bool)
| YInt (z : Z)
| YStr (s : string).

(** [bool(y)] *)
Definition truthy (y : yaml) : bool :=
  match y with
  | YNone => false
  | YBool b => b
  | YInt z => negb (Z.eqb z 0)
  | YStr s => negb (String.eqb s "")
  end.

(** [y == s] for a string [s] *)
Definition yaml_is (y : yaml) (s : string) : bool :=
  match y with
  | YStr s' => String.eqb s' s
  | _ => false
  end.

(** A property in its dictionary form, with the keys ["sparql"],
    ["variable"], ["jsonld"] and the optional ["required"]. *)
Record Property : Type := {
  p_sparql : string;
  p_variable : string;
  p_jsonld : string;
  p_required : option yaml
}.

(** A configured property: a bare qualified name, or a dictionary. *)
Inductive PropertySpec : Type :=
| Shorthand (qname : string)
| Detailed (p : Property).

(** The parts of the session configuration the indexer reads:
    [conf["prefixes"]], [conf["common_properties"]] and
    [conf["sparql"]["limit"]] (as ["%s"] prints it). *)
Record SessionConf : Type := {
  prefixes : PyDict.t string;
  common_properties : list PropertySpec;
  sparql_limit : option string
}.

(** [conf["indexes"][index][doc_type]]: the keys ["graph"], ["type"],
    ["subclasses"] and ["properties"]. *)
Record TypeConf : Type := {
  c_graph : option string;
  c_type : option string;
  c_subclasses : option yaml;
  c_properties : list PropertySpec
}.

(** SPARQL variable name for the resource, and for the rdf:type. *)
Definition ID : string := "id".
Definition TYPE : string := "type".

(** [is_property_required] *)
Definition is_property_required (prop : Property) : bool :=
  match p_required prop with
  | Some y => truthy y
  | None => false
  end.

(** [negate] *)
Definition negate {A : Type} (f : A -> bool) : A -> bool := fun a => negb (f a).

(** ** SlidingWindowDictionary *)

Module SlidingWindowDictionary.

Record t (V : Type) : Type := mk {
  max_size : Z;
  items : PyDict.t V
}.

Arguments mk {V} max_size items.
Arguments max_size {V} t.
Arguments items {V} t.

Section Methods.
Context {V : Type}.

(** [__init__] *)
Definition init (max_size : Z) : t V := mk max_size [].

(** [len(self)] *)
Definition len (d : t V) : Z := Z.of_nat (List.length (items d)).

(** [self.popitem(last=False)] *)
Definition popitem_first (l : PyDict.t V) : result ((string * V) * PyDict.t V) :=
  match l with
  | [] => Raise (KeyError "dictionary is empty")
  | kv :: rest => Ok (kv, rest)
  end.

(** The loop of [__setitem__]:
    [while len(self) >= self.max_size: self.popitem(last=False)], by
    recursion on the entries: each turn pops the first one, and popping
    from an empty dictionary raises (see [evict_loop] below). *)
Fixpoint evict (max_size : Z) (l : PyDict.t V) : result (PyDict.t V) :=
  if Z.geb (Z.of_nat (List.length l)) max_size then
    match l with
    | [] => Raise (KeyError "dictionary is empty")
    | _ :: rest => evict max_size rest
    end
  else Ok l.

(** [__setitem__] *)
Definition setitem (d : t V) (key : string) (value : V) : result (t V) :=
  l <- evict (max_size d) (items d) ;;
  Ok (mk (max_size d) (PyDict.set l key value)).

(** [self.get(key)], inherited from [OrderedDict]: it changes nothing. *)
Definition get (d : t V) (key : string) : option V := PyDict.get (items d) key.

End Methods.

End SlidingWindowDictionary.

(** ** Session *)

Module Session.

(** [Session.sparql_prefixes] *)
Definition sparql_prefixes (conf : SessionConf) : string :=
  PyStr.join (String "010" "")
    (map (fun pu => "PREFIX " ++ fst pu ++ ": <" ++ snd pu ++ ">")%string
         (prefixes conf)).

(** [Session.expand_qname] *)
Definition expand_qname (conf : SessionConf) (p : string) : result string :=
  match PyStr.split_once ":" p with
  | None => Raise (Exception ("Invalid property, no prefix: " ++ p))
  | Some (prefix, rest) =>
      match PyDict.get (prefixes conf) prefix with
      | None => Raise (Exception ("Unknown prefix: " ++ prefix))
      | Some base => Ok (base ++ rest)%string
      end
  end.



End Session.

(** ** Documents, rows and bulk messages *)

(** A value of a document: the text of ["@id"], or a list of texts. *)
Inductive value : Type :=
| VStr (s : string)
| VList (l : list string).

Definition Doc : Type := PyDict.t value.

(** A SPARQL JSON binding [{"type": ..., "value": ...}]; [b_value] is
    [None] when [b.get("value") is None]. *)
Record Binding : Type := {
  b_type : string;
  b_value : option string
}.

(** One item of [results.bindings]: variable to binding, [None] for a JSON
    null. *)
Definition Row : Type := PyDict.t (option Binding).

(** The [params] of an update: variable to value, [None] for Python's
    [None]. *)
Definition Params : Type := PyDict.t (option string).

(** The keys ["_index"], ["_type"] and ["_id"] of a bulk message. *)
Record Target : Type := {
  m_index : string;
  m_type : string;
  m_id : string
}.

(** A bulk message: with ["_source"] and no ["_op_type"] (the bulk helper
    then indexes, that is replaces, the document), or with
    ["_op_type": "update"], ["script"], ["params"] and ["upsert"]. *)
Inductive Msg : Type :=
| MsgIndex (target : Target) (source : Doc)
| MsgUpdate (target : Target) (script : string) (params : Params) (upsert : Doc).

(** ** Indexer *)

Module Indexer.

(** The fields of an [Indexer]; [uuid4_calls] counts the calls of
    [uuid.uuid4()] made so far. *)
Record t : Type := mk {
  cache : SlidingWindowDictionary.t Doc;
  session : SessionConf;
  index : string;
  doc_type : string;
  conf : TypeConf;
  indexed : list string;
  count : Z;
  properties : PyDict.t Property;
  blanknodes : PyDict.t string;
  uuid4_calls : nat
}.

(** [Indexer.__init__] *)
Definition init (session : SessionConf) (index doc_type : string)
    (conf : TypeConf) : t :=
  mk (SlidingWindowDictionary.init 1000) session index doc_type conf
     [] 0 [] [] 0.

Definition with_properties (st : t) (ps : PyDict.t Property) : t :=
  mk (cache st) (session st) (index st) (doc_type st) (conf st) (indexed st)
     (count st) ps (blanknodes st) (uuid4_calls st).

Definition with_blanknode (st : t) (bs : PyDict.t string) : t :=
  mk (cache st) (session st) (index st) (doc_type st) (conf st) (indexed st)
     (count st) (properties st) bs (S (uuid4_calls st)).

Definition with_count (st : t) (n : Z) : t :=
  mk (cache st) (session st) (index st) (doc_type st) (conf st) (indexed st)
     n (properties st) (blanknodes st) (uuid4_calls st).

Definition with_cache (st : t) (c : SlidingWindowDictionary.t Doc) : t :=
  mk c (session st) (index st) (doc_type st) (conf st) (indexed st)
     (count st) (properties st) (blanknodes st) (uuid4_calls st).

Definition with_indexed (st : t) (s : list string) : t :=
  mk (cache st) (session st) (index st) (doc_type st) (conf st) s
     (count st) (properties st) (blanknodes st) (uuid4_calls st).

(** [x in s] for a set of texts *)
Definition set_mem (x : string) (s : list string) : bool :=
  existsb (String.eqb x) s.

(** [s.add(x)] *)
Definition set_add (x : string) (s : list string) : list string :=
  if set_mem x s then s else x :: s.

(** *** Building the query *)

(** [list.sort(key=...)] with a Boolean key: a stable sort, [False] before
    [True]. *)
Fixpoint sort_insert {A : Type} (key : A -> bool) (x : A) (l : list A) : list A :=
  match l with
  | [] => [x]
  | y :: l' =>
      if negb (key y) && key x then y :: sort_insert key x l'
      else x :: y :: l'
  end.

Fixpoint sort_by {A : Type} (key : A -> bool) (l : list A) : list A :=
  match l with
  | [] => []
  | x :: l' => sort_insert key x (sort_by key l')
  end.

(** [Indexer.sort_properties] *)
Definition sort_properties (properties : list Property) : list Property :=
  sort_by (negate is_property_required) properties.

(** [Indexer.sparql_optional] *)
Definition sparql_optional (sparql : string) : string :=
  ("    OPTIONAL { " ++ PyStr.strip sparql ++ " }")%string.

(** [Indexer.sparql_property] *)
Definition sparql_property (prop : Property) : string :=
  let sparql :=
    ("    ?" ++ ID ++ " " ++ p_sparql prop ++ " ?" ++ p_variable prop ++ " .")%string in
  if negb (is_property_required prop) then sparql_optional sparql
  else sparql.

Section WithLib.
Context (L : PyLib).

(** [Indexer.variable_for_property_name]; the warning it prints is not
    modelled. *)
Definition variable_for_property_name (st : t) (prop : string) : result string :=
  let short := last (PyStr.split ":" prop) EmptyString in
  if negb (PyDict.mem (properties st) short) then Ok short
  else
    q <- Session.expand_qname (session st) prop ;;
    Ok (PyStr.remove_char "-" (uuid5 L q)).

(** [Indexer.expand_property] *)
Definition expand_property (st : t) (p : PropertySpec) : result (Property * t) :=
  p' <- match p with
        | Shorthand s =>
            variable <- variable_for_property_name st s ;;
            Ok {| p_sparql := s; p_variable := variable;
                  p_jsonld := variable; p_required := None |}
        | Detailed d => Ok d
        end ;;
  let name := p_variable p' in
  if PyDict.mem (properties st) name then
    Raise (Exception ("Duplicate property name " ++ name))
  else Ok (p', with_properties st (PyDict.set (properties st) name p')).

(** [map(self.expand_property, ps)], consumed from left to right. *)
Fixpoint expand_properties (st : t) (ps : list PropertySpec)
  : result (list Property * t) :=
  match ps with
  | [] => Ok ([], st)
  | p :: ps' =>
      '(p', st1) <- expand_property st p ;;
      '(rest, st2) <- expand_properties st1 ps' ;;
      Ok (p' :: rest, st2)
  end.

(** The lines [Indexer.sparql] appends for the type constraint. *)
Definition type_lines (conf : TypeConf) : list string :=
  match c_type conf with
  | None => []
  | Some rdf_type =>
      ("   { ?" ++ ID ++ " a " ++ rdf_type ++ " . }")%string ::
      match c_subclasses conf with
      | Some subclasses =>
          if truthy subclasses then
            ["   UNION {"; ("     ?" ++ ID ++ " a ?subClass . ")%string] ++
            (if yaml_is subclasses "owl" then
               ["     ?subClass a owl:Class . ";
                ("     ?subClass rdfs:subClassOf+ " ++ rdf_type ++ " .")%string]
             else
               [("     ?subClass rdfs:subClassOf " ++ rdf_type ++ " .")%string]) ++
            ["   }"]
          else []
      | None => []
      end
  end.

(** The lines [Indexer.sparql] appends before the property clauses. *)
Definition query_head (st : t) : list string :=
  [Session.sparql_prefixes (session st); "SELECT *"; "WHERE {"] ++
  (match c_graph (conf st) with
   | Some g => [(" GRAPH <" ++ g ++ "> {")%string]
   | None => []
   end) ++
  type_lines (conf st).

(** The lines [Indexer.sparql] appends after the property clauses. *)
Definition query_tail (st : t) : list string :=
  (match c_graph (conf st) with Some _ => [" }"] | None => [] end) ++
  ["}"] ++
  (match sparql_limit (session st) with
   | Some n => [("LIMIT " ++ n)%string]
   | None => []
   end).

(** The list [sparql] that [Indexer.sparql] joins, with the indexer once
    its properties are registered. *)
Definition sparql_lines (st : t) : result (list string * t) :=
  '(common, st1) <- expand_properties st (common_properties (session st)) ;;
  '(own, st2) <- expand_properties st1 (c_properties (conf st)) ;;
  let properties := common ++ own in
  match properties with
  | [] =>
      Raise (Exception ("No properties configured for " ++ index st ++ " " ++ doc_type st))
  | _ =>
      let properties := sort_properties properties in
      Ok (query_head st ++ map sparql_property properties ++ query_tail st, st2)
  end.

(** [Indexer.sparql]; what it prints is not modelled. *)
Definition sparql (st : t) : result (string * t) :=
  '(lines, st') <- sparql_lines st ;;
  Ok (PyStr.join (String "010" "") lines, st').

(** *** Projecting a row *)

(** [Indexer.skolemize] *)
Definition skolemize (st : t) (bnode : string) : result (string * t) :=
  let st' :=
    if negb (PyDict.mem (blanknodes st) bnode) then
      with_blanknode st
        (PyDict.set (blanknodes st) bnode (uuid4 L (uuid4_calls st)))
    else st in
  u <- PyDict.getitem (blanknodes st') bnode ;;
  Ok (("urn:uuid:" ++ u)%string, st').

(** [Indexer.unescape], for a binding that has a value. *)
Definition unescape (b : Binding) : result string :=
  match b_value b with
  | None => Raise TypeError
  | Some v => Ok (if String.eqb (b_type b) "uri" then unquote L v else v)
  end.

(** [Indexer.update_script_for], the lines of the script for the keys of
    [body] in their order. *)
Fixpoint script_lines (props : PyDict.t Property) (vars : list string)
  : result (list string) :=
  match vars with
  | [] => Ok []
  | var :: rest =>
      if PyStr.startswith var "@" then script_lines props rest
      else
        prop <- PyDict.getitem props var ;;
        let jsonld := p_jsonld prop in
        tl <- script_lines props rest ;;
        Ok ([("if (! ctx._source.containsKey('" ++ jsonld ++ "')) {")%string;
             ("  ctx._source['" ++ jsonld ++ "'] = [" ++ var ++ "] ")%string;
             "} else ";
             ("if (! ctx._source['" ++ jsonld ++ "'].contains(" ++ var ++ ")) {")%string;
             ("  ctx._source['" ++ jsonld ++ "'] += " ++ var)%string;
             "}"] ++ tl)
  end.

Definition update_script_for (st : t) (body : Doc) : result string :=
  lines <- script_lines (properties st) (PyDict.keys body) ;;
  Ok (PyStr.join (String "010" "") lines).

(** The value [Indexer.merge_bodies] gives the key [k]. In the source the
    list of [old] is extended in place and shared with the result; [old] is
    the document of the cache, which the only caller replaces by the result
    at once, so that the model returns the result and leaves [old] alone. A
    text in place of a list of [old] has no [extend]; a text in place of a
    list of [new] is read as the set of its characters. *)
Definition merge_value (old new : Doc) (k : string) : result value :=
  if String.eqb k "@id" then PyDict.getitem old k
  else
    old_v <- match PyDict.get old k with
             | None => Ok []
             | Some (VList l) => Ok l
             | Some (VStr _) => Raise AttributeError
             end ;;
    let new_v := match PyDict.get new k with
                 | None => []
                 | Some (VList l) => l
                 | Some (VStr s) => PyStr.chars s
                 end in
    Ok (VList (old_v ++ set_difference L new_v old_v)).

Fixpoint merge_keys (old new : Doc) (keys : list string) (body : Doc) : result Doc :=
  match keys with
  | [] => Ok body
  | k :: keys' =>
      v <- merge_value old new k ;;
      merge_keys old new keys' (PyDict.set body k v)
  end.

(** [Indexer.merge_bodies] *)
Definition merge_bodies (old new : Doc) : result Doc :=
  merge_keys old new (set_union L (PyDict.keys old) (PyDict.keys new)) [].

(** Lines 329 to 333 of [binding_as_doc]: the identifier of the entity. A
    row without [id] raises [KeyError], a JSON null in place of its binding
    [TypeError], as in the source. A binding of [id] with no value is
    outside the model (the SPARQL results format gives every binding a
    text): it raises here, also for a blank node, which the source would
    record under the key [None]. *)
Definition entity_uri (st : t) (node : Row) : result (string * t) :=
  b <- PyDict.getitem node ID ;;
  match b with
  | None => Raise TypeError
  | Some idb =>
      if String.eqb (b_type idb) "uri" then
        uri <- unescape idb ;; Ok (uri, st)
      else
        match b_value idb with
        | None => Raise TypeError
        | Some v => skolemize st v
        end
  end.

(** Lines 337 to 342: the types of the entity and the first parameter. A
    binding of [type] with no value is outside the model and raises here;
    the source would put [None] among the types. *)
Definition row_types (st : t) (node : Row) : result (list string * Params) :=
  let types := match c_type (conf st) with Some ty => [ty] | None => [] end in
  match PyDict.get node TYPE with
  | None => Ok (types, [])
  | Some None => Raise TypeError
  | Some (Some b) =>
      match b_value b with
      | None => Raise TypeError
      | Some v => Ok (types ++ [v], [("__type", Some v)])
      end
  end.

(** Lines 347 to 364: the loop over the variables of the row, which are
    the keys of [node] in their order. *)
Fixpoint project_vars (props : PyDict.t Property) (node : Row)
    (vars : list string) (body : Doc) (params : Params) : result (Doc * Params) :=
  match vars with
  | [] => Ok (body, params)
  | var :: rest =>
      if String.eqb var ID || String.eqb var TYPE then
        project_vars props node rest body params
      else
        jsonld <- (if String.eqb var "subClass" then Ok "rdfs:subClassOf"
                   else prop <- PyDict.getitem props var ;; Ok (p_jsonld prop)) ;;
        match PyDict.get node var with
        | Some (Some {| b_type := _; b_value := Some v |}) =>
            project_vars props node rest
              (PyDict.set body jsonld (VList [v])) (PyDict.set params var (Some v))
        | _ =>
            project_vars props node rest
              (PyDict.set body jsonld (VList [])) (PyDict.set params var None)
        end
  end.

(** Lines 335 to 364: the partial document and the parameters of a row. *)
Definition row_body (st : t) (uri : string) (node : Row) : result (Doc * Params) :=
  '(types, params) <- row_types st node ;;
  let body : Doc := [("@id", VStr uri)] in
  let body := match types with
              | [] => body
              | _ => PyDict.set body "@type" (VList types)
              end in
  project_vars (properties st) node (PyDict.keys node) body params.

(** Lines 366 to 407: the message for the document [body] of [uri]. *)
Definition reconcile (st : t) (uri : string) (body : Doc) (params : Params)
  : result (Msg * t) :=
  let target := {| m_index := index st; m_type := doc_type st; m_id := uri |} in
  let doc_uuid := uuid5 L uri in
  if negb (set_mem doc_uuid (indexed st)) then
    let st1 := with_indexed st (set_add doc_uuid (indexed st)) in
    c <- SlidingWindowDictionary.setitem (cache st1) doc_uuid body ;;
    Ok (MsgIndex target body, with_cache st1 c)
  else
    match SlidingWindowDictionary.get (cache st) doc_uuid with
    | Some ((_ :: _) as cached) =>
        body' <- merge_bodies cached body ;;
        c <- SlidingWindowDictionary.setitem (cache st) doc_uuid body' ;;
        Ok (MsgIndex target body', with_cache st c)
    | _ =>
        script <- update_script_for st body ;;
        Ok (MsgUpdate target script params body, st)
    end.

(** [Indexer.binding_as_doc]; the statistics it prints every
    [REPORT_EVERY] rows are not modelled. *)
Definition binding_as_doc (st : t) (node : Row) : result (Msg * t) :=
  let st := with_count st (count st + 1) in
  '(uri, st) <- entity_uri st node ;;
  '(body, params) <- row_body st uri node ;;
  reconcile st uri body params.

(** The loop of [Indexer.json_reader] over the items of
    [results.bindings]: the messages it yields, in order. *)
Fixpoint read_bindings (st : t) (bindings : list Row) : result (list Msg * t) :=
  match bindings with
  | [] => Ok ([], st)
  | binding :: rest =>
      '(n, st1) <- binding_as_doc st binding ;;
      '(ns, st2) <- read_bindings st1 rest ;;
      Ok (n :: ns, st2)
  end.

(** [Indexer.json_reader], for an endpoint that answers the query with
    [bindings]: the query is built, then the rows are read. *)
Definition json_reader (st : t) (bindings : list Row) : result (list Msg * t) :=
  '(_, st1) <- sparql st ;;
  read_bindings st1 bindings.

End WithLib.

End Indexer.

(** ** The checks of the configuration *)

Module Checks.

(** The configuration as [Session] reads it: [conf.get("prefixes")],
    [conf.get("common_properties")] ([None] for a missing key),
    [conf["indexes"]] (index to document type to its configuration) and
    [conf["sparql"].get("limit")]. A property given as a dictionary has
    its three texts; a missing or empty one is the empty text. *)
Record Conf : Type := {
  cf_prefixes : option (PyDict.t string);
  cf_common_properties : option (list PropertySpec);
  cf_indexes : PyDict.t (PyDict.t TypeConf);
  cf_limit : option string
}.

(** What an [Indexer] reads of it, with the defaults of [get]. *)
Definition session_conf (c : Conf) : SessionConf := {|
  prefixes := match cf_prefixes c with Some ps => ps | None => [] end;
  common_properties :=
    match cf_common_properties c with Some ps => ps | None => [] end;
  sparql_limit := cf_limit c
|}.

Section WithParsers.

(** [urllib.parse.urlparse], which returns or raises, and the text
    ["%s" % p] of a dictionary. *)
Context (urlparse : string -> result unit).
Context (repr : Property -> string).

(** [Session.check_property] *)
Definition check_property (c : Conf) (p : PropertySpec) : result unit :=
  match p with
  | Shorthand s =>
      q <- Session.expand_qname (session_conf c) s ;;
      urlparse q
  | Detailed d =>
      if String.eqb (p_sparql d) "" then
        Raise (Exception ("'sparql' missing for " ++ repr d))
      else if String.eqb (p_variable d) "" then
        Raise (Exception ("'variable' missing for " ++ repr d))
      else if String.eqb (p_jsonld d) "" then
        Raise (Exception ("'jsonld' missing for " ++ repr d))
      else Ok tt
  end.

Fixpoint check_properties (c : Conf) (ps : list PropertySpec) : result unit :=
  match ps with
  | [] => Ok tt
  | p :: ps' => _ <- check_property c p ;; check_properties c ps'
  end.

(** The body of the inner loop of [check_prefixes], for one document
    type. *)
Definition check_type (c : Conf) (type_conf : TypeConf) : result unit :=
  _ <- match c_type type_conf with
       | Some ty => q <- Session.expand_qname (session_conf c) ty ;; urlparse q
       | None => Ok tt
       end ;;
  check_properties c (c_properties type_conf).

Fixpoint check_types (c : Conf) (types : PyDict.t TypeConf) : result unit :=
  match types with
  | [] => Ok tt
  | (_, type_conf) :: rest => _ <- check_type c type_conf ;; check_types c rest
  end.

Fixpoint check_indexes (c : Conf) (indexes : PyDict.t (PyDict.t TypeConf))
  : result unit :=
  match indexes with
  | [] => Ok tt
  | (_, index_conf) :: rest =>
      _ <- check_types c index_conf ;; check_indexes c rest
  end.

(** [Session.check_prefixes]; the warning it prints for a prefix that
    ends neither in [#] nor in [/] is not modelled. *)
Definition check_prefixes (c : Conf) : result unit :=
  _ <- check_properties c
         (match cf_common_properties c with Some ps => ps | None => [] end) ;;
  check_indexes c (cf_indexes c).

(** The first loop of [check_required_properties]: whether some common
    property is a dictionary with a true ["required"]. *)
Definition common_required (ps : list PropertySpec) : bool :=
  existsb (fun p => match p with
                    | Shorthand _ => false
                    | Detailed d => is_property_required d
                    end) ps.

(** The innermost loop of [check_required_properties]:
    [is_property_required(p)] for each property of the type, whose
    [continue] goes on with this same loop; a property given as a text has
    no [get]. *)
Fixpoint scan_required (ps : list PropertySpec) : result unit :=
  match ps with
  | [] => Ok tt
  | Shorthand _ :: _ => Raise AttributeError
  | Detailed d :: ps' =>
      if is_property_required d then scan_required ps' else scan_required ps'
  end.

Fixpoint required_types (index : string) (types : PyDict.t TypeConf)
  : result unit :=
  match types with
  | [] => Ok tt
  | (doc_type, type_conf) :: rest =>
      match c_type type_conf with
      | Some _ => required_types index rest
      | None =>
          _ <- scan_required (c_properties type_conf) ;;
          Raise (Exception ("No type: or property with required:true for "
                            ++ index ++ " " ++ doc_type))
      end
  end.

Fixpoint required_indexes (indexes : PyDict.t (PyDict.t TypeConf)) : result unit :=
  match indexes with
  | [] => Ok tt
  | (index, index_conf) :: rest =>
      _ <- required_types index index_conf ;; required_indexes rest
  end.

(** [Session.check_required_properties] *)
Definition check_required_properties (c : Conf) : result unit :=
  match cf_common_properties c with
  | None => Raise (KeyError "common_properties")
  | Some ps =>
      if common_required ps then Ok tt
      else required_indexes (cf_indexes c)
  end.

(** [Session.check] *)
Definition check (c : Conf) : result unit :=
  _ <- check_prefixes c ;;
  check_required_properties c.

End WithParsers.


End Checks.

(** ** A sample library, for running the model *)

Module SampleLib.

(** [list(set(a) - set(b))], in the order of the last occurrences in [a]. *)
Definition difference (a b : list string) : list string :=
  filter (fun x => negb (Indexer.set_mem x b)) (nodup string_dec a).

(** [set(a) | set(b)], in the order of the last occurrences in [a + b]. *)
Definition union (a b : list string) : list string :=
  nodup string_dec (a ++ b).

Lemma set_mem_In (x : string) (s : list string) :
  Indexer.set_mem x s = true <-> In x s.
Proof.
  unfold Indexer.set_mem. rewrite existsb_exists. split.
  - intros [y [Hy He]]. apply String.eqb_eq in He. now subst.
  - intros H. exists x. split; [assumption | apply String.eqb_refl].
Qed.

Lemma difference_NoDup (a b : list string) : NoDup (difference a b).
Proof. unfold difference. apply NoDup_filter, NoDup_nodup. Qed.

Lemma difference_In (a b : list string) (x : string) :
  In x (difference a b) <-> In x a /\ ~ In x b.
Proof.
  unfold difference. rewrite filter_In, nodup_In, negb_true_iff.
  rewrite <- (set_mem_In x b).
  destruct (Indexer.set_mem x b); split; intros [H1 H2]; split;
    try assumption; try discriminate; try reflexivity.
  now elim H2.
Qed.

Lemma union_NoDup (a b : list string) : NoDup (union a b).
Proof. apply NoDup_nodup. Qed.

Lemma union_In (a b : list string) (x : string) :
  In x (union a b) <-> In x a \/ In x b.
Proof. unfold union. rewrite nodup_In. apply in_app_iff. Qed.

(** Stand-ins for the UUID functions: the name behind a tag for [uuid5],
    the number of the draw in decimal for [uuid4]; [unquote] leaves a text
    with no ["%"] as it is. *)
Definition lib : PyLib := {|
  uuid5 := fun name => ("5-" ++ name)%string;
  uuid4 := fun n => ("4-" ++ NilEmpty.string_of_uint (Nat.to_uint n))%string;
  unquote := fun s => s;
  set_difference := difference;
  set_difference_NoDup := difference_NoDup;
  set_difference_In := difference_In;
  set_union := union;
  set_union_NoDup := union_NoDup;
  set_union_In := union_In
|}.

End SampleLib.

(** ** Vocabulary of the statements *)

(** The clause of a required property, and of an optional one. *)
Definition required_clause (p : Property) : string :=
  ("    ?id " ++ p_sparql p ++ " ?" ++ p_variable p ++ " .")%string.

Definition optional_clause (p : Property) : string :=
  ("    OPTIONAL { ?id " ++ p_sparql p ++ " ?" ++ p_variable p ++ " . }")%string.

(** [spec_expands spec p]: [p] is the dictionary [expand_property] makes
    of the configured [spec]. *)
Definition spec_expands (spec : PropertySpec) (p : Property) : Prop :=
  match spec with
  | Shorthand s => p_sparql p = s /\ p_jsonld p = p_variable p /\ p_required p = None
  | Detailed d => p = d
  end.

(** The properties configured for an indexer: the common ones, then its
    own. *)
Definition configured (st : Indexer.t) : list PropertySpec :=
  common_properties (Indexer.session st) ++ c_properties (Indexer.conf st).

(** The union branch of the query for a subclass expansion: with the
    class-membership check and the one-or-more path when [owl], with the
    direct subclass edge otherwise. *)
Definition union_branch (owl : bool) (rdf_type : string) : list string :=
  ["   UNION {"; "     ?id a ?subClass . "] ++
  (if owl then
     ["     ?subClass a owl:Class . ";
      ("     ?subClass rdfs:subClassOf+ " ++ rdf_type ++ " .")%string]
   else [("     ?subClass rdfs:subClassOf " ++ rdf_type ++ " .")%string]) ++
  ["   }"].

(** The last segment of a qualified name, and the name that replaces it
    when it is taken. *)
Definition short_name (qname : string) : string :=
  last (PyStr.split ":" qname) EmptyString.

Definition fallback_name (L : PyLib) (expanded : string) : string :=
  PyStr.remove_char "-" (uuid5 L expanded).

Definition shorthand_property (qname variable : string) : Property :=
  {| p_sparql := qname; p_variable := variable;
     p_jsonld := variable; p_required := None |}.

(** The variables [binding_as_doc] does not project: [id] and [type]. *)
Definition reserved (var : string) : bool :=
  String.eqb var ID || String.eqb var TYPE.

(** The value a row binds a variable to: [None] for an absent variable, a
    JSON null and a binding with no value. *)
Definition bound_value (node : Row) (var : string) : option string :=
  match PyDict.get node var with
  | Some (Some b) => b_value b
  | _ => None
  end.

(** The list a document holds for a bound value: one element, or none. *)
Definition value_list (o : option string) : list string :=
  match o with
  | Some v => [v]
  | None => []
  end.

(** Whether a run succeeded and its last message is an update. *)
Definition ends_with_update (r : result (list Msg * Indexer.t)) : bool :=
  match r with
  | Ok (msgs, _) =>
      match last msgs (MsgIndex {| m_index := ""; m_type := ""; m_id := "" |} []) with
      | MsgUpdate _ _ _ _ => true
      | MsgIndex _ _ => false
      end
  | Raise _ => false
  end.

(** The raw key of a row whose identifier is not of type ["uri"]. *)
Definition blank_key (node : Row) : option string :=
  match PyDict.get node ID with
  | Some (Some b) => if String.eqb (b_type b) "uri" then None else b_value b
  | _ => None
  end.

(** The ["_id"] of a message. *)
Definition msg_id (m : Msg) : string :=
  match m with
  | MsgIndex target _ => m_id target
  | MsgUpdate target _ _ _ => m_id target
  end.

(** What holds of the blank nodes of an indexer during a run: every
    identifier recorded was drawn by an earlier call of [uuid4], and no two
    keys share one. *)
Definition blank_inv (L : PyLib) (st : Indexer.t) : Prop :=
  (forall k u,
      PyDict.get (Indexer.blanknodes st) k = Some u ->
      exists n, n < Indexer.uuid4_calls st /\ u = uuid4 L n) /\
  (forall k1 k2 u,
      PyDict.get (Indexer.blanknodes st) k1 = Some u ->
      PyDict.get (Indexer.blanknodes st) k2 = Some u -> k1 = k2).

(** The list a document holds under a key; empty when the key is absent. *)
Definition doc_list (d : Doc) (k : string) : list string :=
  match PyDict.get d k with
  | Some (VList l) => l
  | _ => []
  end.

(** [l] has no duplicate. *)
Fixpoint nodupb (l : list string) : bool :=
  match l with
  | [] => true
  | x :: l' => negb (Indexer.set_mem x l') && nodupb l'
  end.

(** The invariant of a document: ["@id"] is present and holds one text,
    every other key holds a list with no duplicate. *)
Definition wf_value (k : string) (v : value) : bool :=
  match v with
  | VStr _ => String.eqb k "@id"
  | VList l => negb (String.eqb k "@id") && nodupb l
  end.

Definition wf_doc (d : Doc) : bool :=
  PyDict.mem d "@id" && forallb (fun kv => wf_value (fst kv) (snd kv)) d.

(** The operations on a cache, and a run of them. [stamped_run] is the
    same run on a cache that keeps, next to every value, the position in
    the run of the insert at which its key entered the cache: an insert
    for a key that is in the cache after the eviction keeps the position
    the key has. *)
Module CacheOps.

Inductive op (V : Type) : Type :=
| Insert (key : string) (value : V)
| Lookup (key : string).

Arguments Insert {V} key value.
Arguments Lookup {V} key.

Definition is_insert {V : Type} (o : op V) : bool :=
  match o with
  | Insert _ _ => true
  | Lookup _ => false
  end.

Definition apply {V : Type} (d : SlidingWindowDictionary.t V) (o : op V)
  : result (SlidingWindowDictionary.t V) :=
  match o with
  | Insert k v => SlidingWindowDictionary.setitem d k v
  | Lookup k => match SlidingWindowDictionary.get d k with _ => Ok d end
  end.

Fixpoint run {V : Type} (d : SlidingWindowDictionary.t V) (ops : list (op V))
  : result (SlidingWindowDictionary.t V) :=
  match ops with
  | [] => Ok d
  | o :: ops' => d' <- apply d o ;; run d' ops'
  end.

Definition entered {V : Type} (now : nat)
    (d : SlidingWindowDictionary.t (V * nat)) (k : string) : nat :=
  match SlidingWindowDictionary.evict (SlidingWindowDictionary.max_size d)
          (SlidingWindowDictionary.items d) with
  | Ok l => match PyDict.get l k with
            | Some (_, b) => b
            | None => now
            end
  | Raise _ => now
  end.

Definition stamped_apply {V : Type} (now : nat)
    (d : SlidingWindowDictionary.t (V * nat)) (o : op V)
  : result (SlidingWindowDictionary.t (V * nat)) :=
  match o with
  | Insert k v => SlidingWindowDictionary.setitem d k (v, entered now d k)
  | Lookup k => Ok d
  end.

Fixpoint stamped_run {V : Type} (now : nat)
    (d : SlidingWindowDictionary.t (V * nat)) (ops : list (op V))
  : result (SlidingWindowDictionary.t (V * nat)) :=
  match ops with
  | [] => Ok d
  | o :: ops' => d' <- stamped_apply now d o ;; stamped_run (S now) d' ops'
  end.

Definition erase {V : Type} (d : SlidingWindowDictionary.t (V * nat))
  : SlidingWindowDictionary.t V :=
  SlidingWindowDictionary.mk (SlidingWindowDictionary.max_size d)
    (map (fun kv => (fst kv, fst (snd kv))) (SlidingWindowDictionary.items d)).

Definition stamps {V : Type} (d : SlidingWindowDictionary.t (V * nat)) : list nat :=
  map (fun kv => snd (snd kv)) (SlidingWindowDictionary.items d).

(** What the stamps of a cache say during the run [all], at position
    [now]: they grow along the cache, and each is the position, before
    [now], of an insert for the key that bears it. *)
Definition stamps_inv {V : Type} (all : list (op V)) (now : nat)
    (d : SlidingWindowDictionary.t (V * nat)) : Prop :=
  StronglySorted lt (stamps d) /\
  forall k v b,
    In (k, (v, b)) (SlidingWindowDictionary.items d) ->
    b < now /\ exists v0, nth_error all b = Some (Insert k v0).

End CacheOps.

(** The shape [merge_bodies] relies on: ["@id"] is present, and every
    other key holds a list. *)
Definition doc_shape (d : Doc) : Prop :=
  PyDict.mem d "@id" = true /\
  forall k v, PyDict.get d k = Some v -> String.eqb k "@id" = false ->
              exists l, v = VList l.

(** The entity a row is about, as far as the row says: its identifier
    decoded when it is of type ["uri"], its raw key otherwise. *)
Definition id_class (L : PyLib) (node : Row) : option (bool * string) :=
  match PyDict.get node ID with
  | Some (Some b) =>
      match b_value b with
      | Some v =>
          if String.eqb (b_type b) "uri" then Some (true, unquote L v)
          else Some (false, v)
      | None => None
      end
  | _ => None
  end.

(** The identifier the rows of a class get from the indexer [st] on. *)
Definition resolved (L : PyLib) (st : Indexer.t) (c : bool * string) : string :=
  if fst c then snd c
  else match PyDict.get (Indexer.blanknodes st) (snd c) with
       | Some u => ("urn:uuid:" ++ u)%string
       | None => ("urn:uuid:" ++ uuid4 L (Indexer.uuid4_calls st))%string
       end.

Definition entity_target (st : Indexer.t) (uri : string) : Target :=
  {| m_index := Indexer.index st; m_type := Indexer.doc_type st; m_id := uri |}.

(** Some row of [rows] has the key [k] in its document, and has the value
    [x] under it. *)
Definition contributes_key (st : Indexer.t) (uri : string) (rows : list Row)
    (k : string) : Prop :=
  exists r b p,
    In r rows /\ Indexer.row_body st uri r = Ok (b, p) /\ PyDict.mem b k = true.

Definition contributes (st : Indexer.t) (uri : string) (rows : list Row)
    (k x : string) : Prop :=
  exists r b p,
    In r rows /\ Indexer.row_body st uri r = Ok (b, p) /\ In x (doc_list b k).

(** The indexer [sti] holds in its cache the document [d] of the entity of
    class [c], made of the rows [done] read since the indexer [st]. *)
Definition resident (L : PyLib) (st : Indexer.t) (c : bool * string)
    (uri : string) (done : list Row) (sti : Indexer.t) (d : Doc) : Prop :=
  Indexer.conf sti = Indexer.conf st /\
  Indexer.properties sti = Indexer.properties st /\
  Indexer.index sti = Indexer.index st /\
  Indexer.doc_type sti = Indexer.doc_type st /\
  (1 <= SlidingWindowDictionary.max_size (Indexer.cache sti))%Z /\
  (if fst c then uri = snd c
   else exists u, PyDict.get (Indexer.blanknodes sti) (snd c) = Some u /\
                  uri = ("urn:uuid:" ++ u)%string) /\
  Indexer.set_mem (uuid5 L uri) (Indexer.indexed sti) = true /\
  SlidingWindowDictionary.get (Indexer.cache sti) (uuid5 L uri) = Some d /\
  doc_shape d /\
  forall k, String.eqb k "@id" = false ->
    (PyDict.mem d k = true <-> contributes_key st uri done k) /\
    (forall x, In x (doc_list d k) <-> contributes st uri done k x).

(** Whether a row is of the class [c]. *)
Definition is_class (L : PyLib) (c : bool * string) (r : Row) : bool :=
  match id_class L r with
  | Some c' => Bool.eqb (fst c') (fst c) && String.eqb (snd c') (snd c)
  | None => false
  end.

Definition is_replace (m : Msg) : bool :=
  match m with
  | MsgIndex _ _ => true
  | MsgUpdate _ _ _ _ => false
  end.

(** What the message of a row says when the entity of class [c] stays in
    the cache: a row of the entity is answered by a replacement (an update
    is the answer to an entity that is seen and no longer in the cache),
    and a row of another class is about another document. *)
Definition answered (L : PyLib) (st : Indexer.t) (c : bool * string)
    (r : Row) (m : Msg) : Prop :=
  if is_class L c r then is_replace m = true
  else String.eqb (uuid5 L (msg_id m)) (uuid5 L (resolved L st c)) = false.

(** The documents of the messages that answer the rows of class [c]. *)
Fixpoint entity_docs (L : PyLib) (c : bool * string) (rows : list Row)
    (msgs : list Msg) : list Doc :=
  match rows, msgs with
  | r :: rows', m :: msgs' =>
      (if is_class L c r then
         match m with
         | MsgIndex _ doc => [doc]
         | MsgUpdate _ _ _ _ => []
         end
       else []) ++ entity_docs L c rows' msgs'
  | _, _ => []
  end.

(** A run from [st] that starts with a row of class [c] and in which the
    entity stays in the cache. *)
Definition resident_run_of (L : PyLib) (st : Indexer.t) (c : bool * string)
    (rows : list Row) (msgs : list Msg) (st' : Indexer.t) : Prop :=
  match rows with
  | r0 :: _ => is_class L c r0 = true
  | [] => False
  end /\
  Indexer.read_bindings L st rows = Ok (msgs, st') /\
  Forall2 (answered L st c) rows msgs.

(** The indexer [sti] has seen the entity of class [c]; [d] is the
    document of the last message about it, made of the rows [done] read
    since the indexer [st], and the cache holds [d] or nothing for it. *)
Definition tracked (L : PyLib) (st : Indexer.t) (c : bool * string)
    (done : list Row) (sti : Indexer.t) (d : Doc) : Prop :=
  Indexer.conf sti = Indexer.conf st /\
  Indexer.properties sti = Indexer.properties st /\
  Indexer.index sti = Indexer.index st /\
  Indexer.doc_type sti = Indexer.doc_type st /\
  NoDup (PyDict.keys (SlidingWindowDictionary.items (Indexer.cache sti))) /\
  (if fst c then resolved L st c = snd c
   else exists u, PyDict.get (Indexer.blanknodes sti) (snd c) = Some u /\
                  resolved L st c = ("urn:uuid:" ++ u)%string) /\
  Indexer.set_mem (uuid5 L (resolved L st c)) (Indexer.indexed sti) = true /\
  (SlidingWindowDictionary.get (Indexer.cache sti) (uuid5 L (resolved L st c)) = None \/
   SlidingWindowDictionary.get (Indexer.cache sti) (uuid5 L (resolved L st c)) = Some d) /\
  doc_shape d /\
  forall k, String.eqb k "@id" = false ->
    (PyDict.mem d k = true <-> contributes_key st (resolved L st c) done k) /\
    (forall x, In x (doc_list d k) <-> contributes st (resolved L st c) done k x).


(** The key of the document under which [binding_as_doc] puts the value
    of a variable of a row: the fixed key for [subClass], the key its entry
    of the table names for another variable, none when it has no entry. *)
Definition document_key (props : PyDict.t Property) (var : string) : option string :=
  if String.eqb var "subClass" then Some "rdfs:subClassOf"
  else match PyDict.get props var with
       | Some p => Some (p_jsonld p)
       | None => None
       end.

(** The document a message carries: its ["_source"], or its ["upsert"]. *)
Definition msg_doc (m : Msg) : Doc :=
  match m with
  | MsgIndex _ source => source
  | MsgUpdate _ _ _ upsert => upsert
  end.

(** The answer to a row of an entity that is marked as indexed: the
    document of the row merged into the one that the cache holds for the
    entity, sent as a replacement, or an update of the stored document
    when the cache holds none. *)
Definition seen_answer (L : PyLib) (st : Indexer.t) (uri : string) (body : Doc)
    (params : Params) (m : Msg) : Prop :=
  Indexer.set_mem (uuid5 L uri) (Indexer.indexed st) = true /\
  match SlidingWindowDictionary.get (Indexer.cache st) (uuid5 L uri) with
  | Some ((_ :: _) as cached) =>
      exists merged,
        Indexer.merge_bodies L cached body = Ok merged /\
        m = MsgIndex (entity_target st uri) merged
  | _ =>
      exists script,
        Indexer.update_script_for st body = Ok script /\
        m = MsgUpdate (entity_target st uri) script params body
  end.

(** ** A sample configuration *)

Module Sample.

Definition session : SessionConf := {|
  prefixes := [("a", "http://a/"); ("b", "http://b/")];
  common_properties := [Shorthand "a:name"];
  sparql_limit := None
|}.

Definition label : Property := {|
  p_sparql := "a:label"; p_variable := "label";
  p_jsonld := "a:label"; p_required := Some (YBool true)
|}.

(** A type with the transitive subclass expansion ["owl"]. *)
Definition conf : TypeConf := {|
  c_graph := None;
  c_type := Some "a:T";
  c_subclasses := Some (YStr "owl");
  c_properties := [Shorthand "b:name"; Detailed label]
|}.

Definition indexer : Indexer.t := Indexer.init session "idx" "doc" conf.

(** The same type with a subclass expansion other than ["owl"]. *)
Definition conf_direct : TypeConf := {|
  c_graph := None;
  c_type := Some "a:T";
  c_subclasses := Some (YBool true);
  c_properties := [Shorthand "b:name"; Detailed label]
|}.

Definition indexer_direct : Indexer.t :=
  Indexer.init session "idx" "doc" conf_direct.

(** No property at all. *)
Definition indexer_empty : Indexer.t :=
  Indexer.init
    {| prefixes := []; common_properties := []; sparql_limit := None |}
    "idx" "doc"
    {| c_graph := None; c_type := Some "a:T"; c_subclasses := None;
       c_properties := [] |}.

(** A qualified name and a dictionary that resolve to the variable
    [label]. *)
Definition indexer_dup : Indexer.t :=
  Indexer.init session "idx" "doc"
    {| c_graph := None; c_type := None; c_subclasses := None;
       c_properties := [Shorthand "a:label"; Detailed label] |}.

(** A binding of type ["uri"], and one of type ["literal"]. *)
Definition uri (s : string) : option Binding :=
  Some {| b_type := "uri"; b_value := Some s |}.

Definition literal (s : string) : option Binding :=
  Some {| b_type := "literal"; b_value := Some s |}.

(** The sample indexer once its query is built. *)
Definition ready : Indexer.t :=
  match Indexer.sparql SampleLib.lib indexer with
  | Ok (_, st) => st
  | Raise _ => indexer
  end.

(** A row for the entity number [n], with a name. *)
Definition entity_row (n : nat) : Row :=
  [("id", uri ("e:" ++ NilEmpty.string_of_uint (Nat.to_uint n)));
   ("name", literal "x")].

(** A row of the union branch of the query: the entity number 0 and its
    class. *)
Definition subclass_row : Row :=
  [("id", uri "e:0"); ("subClass", uri "http://c/X")].

(** The row of an entity, followed by the rows of a thousand others. *)
Definition stream : list Row := subclass_row :: map entity_row (seq 1 1000).

(** Three rows whose identifier is a blank node, two with the same key. *)
Definition blank (s : string) : option Binding :=
  Some {| b_type := "bnode"; b_value := Some s |}.

Definition blank_rows : list Row :=
  [[("id", blank "b0"); ("name", literal "x"); ("label", literal "L")];
   [("id", blank "b1"); ("name", literal "y"); ("label", literal "M")];
   [("id", blank "b0"); ("name", literal "z"); ("label", literal "L")]].

(** A row of the union branch of the query, with the class of the entity
    and its properties. *)
Definition class_row : Row :=
  [("id", uri "http://e/1"); ("subClass", uri "http://c/X");
   ("name", literal "n"); ("label", literal "L")].

(** Three inserts into a cache of two entries, with a lookup of the oldest
    key before the third. *)
Definition cache_ops : list (CacheOps.op nat) :=
  [CacheOps.Insert "a" 1; CacheOps.Insert "b" 2; CacheOps.Lookup "a";
   CacheOps.Insert "c" 3].

(** Two documents of one entity. *)
Definition old_doc : Doc :=
  [("@id", VStr "http://e/1"); ("name", VList ["1"; "2"])].

Definition new_doc : Doc :=
  [("@id", VStr "http://e/1"); ("name", VList ["2"; "3"]); ("age", VList ["7"])].

(** A row that binds the variable [label] of the property [label], whose
    key in the document is [a:label]. *)
Definition label_row : Row :=
  [("id", uri "http://e/1"); ("label", literal "L")].

(** Three rows of one entity, two of them with the same name. *)
Definition entity_rows : list Row :=
  [[("id", uri "http://e/1"); ("name", literal "1")];
   [("id", uri "http://e/1"); ("name", literal "1")];
   [("id", uri "http://e/1"); ("name", literal "2"); ("label", literal "L")]].

(** The rows of the entity 1 with a row of the entity 2 in between, in
    two orders, and what the indexer answers. *)
Definition mixed_rows : list Row :=
  [[("id", uri "http://e/1"); ("name", literal "1")];
   [("id", uri "http://e/2"); ("name", literal "9")];
   [("id", uri "http://e/1"); ("name", literal "1")];
   [("id", uri "http://e/1"); ("name", literal "2"); ("label", literal "L")]].

Definition mixed_rows' : list Row :=
  [[("id", uri "http://e/1"); ("name", literal "2"); ("label", literal "L")];
   [("id", uri "http://e/1"); ("name", literal "1")];
   [("id", uri "http://e/1"); ("name", literal "1")];
   [("id", uri "http://e/2"); ("name", literal "9")]].

Definition answers (rows : list Row) : list Msg :=
  match Indexer.read_bindings SampleLib.lib ready rows with
  | Ok (msgs, _) => msgs
  | Raise _ => []
  end.

Definition indexer_after (rows : list Row) : Indexer.t :=
  match Indexer.read_bindings SampleLib.lib ready rows with
  | Ok (_, st) => st
  | Raise _ => ready
  end.

End Sample.

(** ** Vocabulary of the further properties *)








(** ** A sample configuration file *)

Module SampleChecks.

(** A property that is required. *)
Definition title : Property := {|
  p_sparql := "a:title"; p_variable := "title";
  p_jsonld := "a:title"; p_required := Some (YBool true)
|}.

(** A document type without [type], whose own property is required. *)
Definition untyped : TypeConf := {|
  c_graph := None; c_type := None; c_subclasses := None;
  c_properties := [Detailed title]
|}.

(** Two indexes: a type with [type], and the type without it. *)
Definition conf : Checks.Conf := {|
  Checks.cf_prefixes := Some [("a", "http://a/"); ("b", "http://b/")];
  Checks.cf_common_properties := Some [Shorthand "a:name"];
  Checks.cf_indexes :=
    [("idx", [("doc", Sample.conf)]); ("other", [("thing", untyped)])];
  Checks.cf_limit := None
|}.



(** A parser that accepts every URI, and a text for a dictionary. *)
Definition urlparse (uri : string) : result unit := Ok tt.

Definition repr (p : Property) : string := p_variable p.

End SampleChecks.

(** * Properties *)

(** ** Results and dictionaries *)

Lemma bind_ok {A B : Type} (r : result A) (f : A -> result B) (b : B) :
  bind r f = Ok b -> exists a, r = Ok a /\ f a = Ok b.
Proof. destruct r as [a|e]; simpl; [eauto | discriminate]. Qed.

Ltac inv_bind H :=
  let a := fresh "a" in
  let Ha := fresh "Hr" in
  apply bind_ok in H; destruct H as [a [Ha H]].

Lemma dict_get_set_eq {V : Type} (d : PyDict.t V) (k : string) (v : V) :
  PyDict.get (PyDict.set d k v) k = Some v.
Proof.
  induction d as [|[k' v'] d IH]; simpl.
  - now rewrite String.eqb_refl.
  - destruct (String.eqb k' k) eqn:E; simpl; rewrite E; [reflexivity | exact IH].
Qed.

Lemma dict_get_set_neq {V : Type} (d : PyDict.t V) (k k' : string) (v : V) :
  k <> k' -> PyDict.get (PyDict.set d k v) k' = PyDict.get d k'.
Proof.
  intros Hne. induction d as [|[k0 v0] d IH]; simpl.
  - destruct (String.eqb k k') eqn:E; [apply String.eqb_eq in E; contradiction | reflexivity].
  - destruct (String.eqb k0 k) eqn:E; simpl.
    + apply String.eqb_eq in E. subst k0.
      destruct (String.eqb k k') eqn:E'; [apply String.eqb_eq in E'; contradiction | reflexivity].
    + destruct (String.eqb k0 k'); [reflexivity | exact IH].
Qed.

Lemma dict_mem_In {V : Type} (d : PyDict.t V) (k : string) :
  PyDict.mem d k = true <-> In k (PyDict.keys d).
Proof.
  unfold PyDict.mem. induction d as [|[k' v'] d IH]; simpl.
  - split; [discriminate | contradiction].
  - destruct (String.eqb k' k) eqn:E.
    + apply String.eqb_eq in E. split; auto.
    + apply String.eqb_neq in E. rewrite IH. split; [auto | intros [H|H]; [contradiction | exact H]].
Qed.

Lemma dict_mem_set {V : Type} (d : PyDict.t V) (k k' : string) (v : V) :
  PyDict.mem (PyDict.set d k v) k' = String.eqb k k' || PyDict.mem d k'.
Proof.
  unfold PyDict.mem. destruct (String.eqb k k') eqn:E.
  - apply String.eqb_eq in E. subst. now rewrite dict_get_set_eq.
  - apply String.eqb_neq in E. now rewrite dict_get_set_neq.
Qed.

Lemma dict_keys_set {V : Type} (d : PyDict.t V) (k : string) (v : V) :
  PyDict.keys (PyDict.set d k v) =
  if PyDict.mem d k then PyDict.keys d else PyDict.keys d ++ [k].
Proof.
  unfold PyDict.mem, PyDict.keys. induction d as [|[k' v'] d IH]; simpl.
  - reflexivity.
  - destruct (String.eqb k' k) eqn:E; simpl; [reflexivity |].
    rewrite IH. now destruct (PyDict.get d k).
Qed.

Lemma dict_keys_NoDup_set {V : Type} (d : PyDict.t V) (k : string) (v : V) :
  NoDup (PyDict.keys d) -> NoDup (PyDict.keys (PyDict.set d k v)).
Proof.
  intros H. rewrite dict_keys_set. destruct (PyDict.mem d k) eqn:E; [exact H |].
  apply NoDup_app; [exact H | repeat constructor; intros [] | ].
  intros x Hx [Hk|[]]. subst x. apply dict_mem_In in Hx. congruence.
Qed.

Lemma dict_get_In {V : Type} (d : PyDict.t V) (k : string) (v : V) :
  PyDict.get d k = Some v -> In (k, v) d.
Proof.
  induction d as [|[k' v'] d IH]; simpl; [discriminate |].
  destruct (String.eqb k' k) eqn:E.
  - apply String.eqb_eq in E. intros H. injection H as <-. subst. now left.
  - intros H. right. now apply IH.
Qed.

Lemma dict_get_None {V : Type} (d : PyDict.t V) (k : string) :
  PyDict.get d k = None <-> ~ In k (PyDict.keys d).
Proof.
  rewrite <- dict_mem_In. unfold PyDict.mem.
  destruct (PyDict.get d k); split; intros H; try reflexivity; try discriminate.
  now elim H.
Qed.

Lemma getitem_Ok {V : Type} (d : PyDict.t V) (k : string) (v : V) :
  PyDict.getitem d k = Ok v <-> PyDict.get d k = Some v.
Proof.
  unfold PyDict.getitem. destruct (PyDict.get d k); split; intros H;
    try discriminate; now injection H as ->.
Qed.

(** ** The query builder *)

Lemma sort_insert_partitioned {A : Type} (key : A -> bool) (x : A) (F T : list A) :
  Forall (fun y => key y = false) F ->
  Forall (fun y => key y = true) T ->
  Indexer.sort_insert key x (F ++ T) = if key x then F ++ x :: T else x :: F ++ T.
Proof.
  intros HF HT. induction HF as [|y F Hy HF IH]; simpl.
  - destruct T as [|y T]; simpl; [now destruct (key x) |].
    inversion HT as [|? ? Hy _]; subst. rewrite Hy. simpl. now destruct (key x).
  - rewrite Hy. simpl. destruct (key x); [now rewrite IH | reflexivity].
Qed.

(** Sorting on a Boolean key is the stable partition: the elements whose
    key is false in their order, then those whose key is true in theirs. *)
Lemma sort_by_partition {A : Type} (key : A -> bool) (l : list A) :
  Indexer.sort_by key l = filter (fun x => negb (key x)) l ++ filter key l.
Proof.
  induction l as [|x l IH]; simpl; [reflexivity |].
  rewrite IH, sort_insert_partitioned.
  - destruct (key x); reflexivity.
  - apply Forall_forall. intros y Hy. apply filter_In in Hy.
    now apply negb_true_iff.
  - apply Forall_forall. intros y Hy. now apply filter_In in Hy.
Qed.

Lemma rstrip_keeps_dot (s : string) : PyStr.rstrip (s ++ ".") = (s ++ ".")%string.
Proof.
  induction s as [|a s IH]; simpl; [reflexivity |].
  rewrite IH. destruct (s ++ ".")%string eqn:E; [| reflexivity].
  destruct s; discriminate.
Qed.

Lemma append_assoc (a b c : string) : ((a ++ b) ++ c = a ++ (b ++ c))%string.
Proof. induction a as [|x a IH]; simpl; [reflexivity | now rewrite IH]. Qed.

Lemma strip_clause (body : string) :
  PyStr.strip ("    ?" ++ (body ++ ".")) = ("?" ++ (body ++ "."))%string.
Proof.
  unfold PyStr.strip.
  change (PyStr.lstrip ("    ?" ++ (body ++ "."))) with ("?" ++ (body ++ "."))%string.
  change ("?" ++ (body ++ "."))%string with (("?" ++ body) ++ ".")%string.
  apply rstrip_keeps_dot.
Qed.

Lemma sparql_property_clause (p : Property) :
  Indexer.sparql_property p =
  if is_property_required p then required_clause p else optional_clause p.
Proof.
  unfold Indexer.sparql_property, required_clause, optional_clause.
  destruct (is_property_required p); [reflexivity |].
  cbv beta iota zeta delta [negb Indexer.sparql_optional].
  set (body := ("id " ++ p_sparql p ++ " ?" ++ p_variable p ++ " ")%string).
  replace ("    ?" ++ ID ++ " " ++ p_sparql p ++ " ?" ++ p_variable p ++ " .")%string
    with ("    ?" ++ (body ++ "."))%string.
  - rewrite strip_clause. unfold body.
    repeat (rewrite append_assoc; simpl). reflexivity.
  - unfold body, ID. repeat (rewrite append_assoc; simpl). reflexivity.
Qed.

Lemma expand_property_inv (L : PyLib) (st st' : Indexer.t) (spec : PropertySpec)
    (p : Property) :
  Indexer.expand_property L st spec = Ok (p, st') ->
  spec_expands spec p /\
  PyDict.mem (Indexer.properties st) (p_variable p) = false /\
  st' = Indexer.with_properties st
          (PyDict.set (Indexer.properties st) (p_variable p) p).
Proof.
  unfold Indexer.expand_property. intros H. inv_bind H.
  destruct (PyDict.mem (Indexer.properties st) (p_variable a)) eqn:E;
    [discriminate |].
  injection H as <- <-. split; [| now split].
  destruct spec as [s|d]; simpl in *.
  - inv_bind Hr. injection Hr as <-. simpl. auto.
  - now injection Hr as <-.
Qed.

Lemma expand_properties_app (L : PyLib) (st : Indexer.t) (a b : list PropertySpec) :
  Indexer.expand_properties L st (a ++ b) =
  '(pa, st1) <- Indexer.expand_properties L st a ;;
  '(pb, st2) <- Indexer.expand_properties L st1 b ;;
  Ok (pa ++ pb, st2).
Proof.
  revert st. induction a as [|x a IH]; intros st; simpl.
  - destruct (Indexer.expand_properties L st b) as [[pb st2]|e]; reflexivity.
  - destruct (Indexer.expand_property L st x) as [[p st1]|e]; simpl; [| reflexivity].
    rewrite IH.
    destruct (Indexer.expand_properties L st1 a) as [[pa st2]|e]; simpl; [| reflexivity].
    destruct (Indexer.expand_properties L st2 b) as [[pb st3]|e]; reflexivity.
Qed.

Lemma expand_properties_Forall2 (L : PyLib) (specs : list PropertySpec) :
  forall st props st',
    Indexer.expand_properties L st specs = Ok (props, st') ->
    Forall2 spec_expands specs props.
Proof.
  induction specs as [|x specs IH]; intros st props st' H; simpl in H.
  - injection H as <- _. constructor.
  - inv_bind H. destruct a as [p st1]. inv_bind H. destruct a as [rest st2].
    injection H as <- _. constructor.
    + now apply expand_property_inv in Hr.
    + eapply IH. eassumption.
Qed.

(** The query expands the configured properties from left to right. *)
Lemma sparql_lines_inv (L : PyLib) (st st' : Indexer.t) (lines : list string) :
  Indexer.sparql_lines L st = Ok (lines, st') ->
  exists props,
    Indexer.expand_properties L st (configured st) = Ok (props, st') /\
    props <> [] /\
    lines = Indexer.query_head st
            ++ map Indexer.sparql_property (Indexer.sort_properties props)
            ++ Indexer.query_tail st.
Proof.
  unfold Indexer.sparql_lines, configured. intros H.
  rewrite expand_properties_app.
  inv_bind H. destruct a as [common st1]. inv_bind H. destruct a as [own st2].
  rewrite Hr. simpl. rewrite Hr0. simpl.
  exists (common ++ own).
  destruct (common ++ own) eqn:E; [discriminate |].
  injection H as <- <-. split; [reflexivity | split; [discriminate | reflexivity]].
Qed.

(** C9. The property clauses of the query are those of the required
    properties, in the order of the configuration (common properties before
    the type's own), followed by those of the optional properties in that
    order; a required property has the plain clause and an optional one the
    clause wrapped in OPTIONAL. *)
Theorem sparql_required_first (L : PyLib) (st st' : Indexer.t) (lines : list string) :
  Indexer.sparql_lines L st = Ok (lines, st') ->
  exists props,
    Forall2 spec_expands (configured st) props /\
    lines = Indexer.query_head st
            ++ map required_clause (filter is_property_required props)
            ++ map optional_clause (filter (negate is_property_required) props)
            ++ Indexer.query_tail st.
Proof.
  intros H. apply sparql_lines_inv in H. destruct H as [props [He [_ ->]]].
  exists props. split; [eapply expand_properties_Forall2; eassumption |].
  f_equal. rewrite app_assoc. f_equal.
  unfold Indexer.sort_properties. rewrite sort_by_partition, map_app. f_equal.
  - rewrite (filter_ext _ is_property_required)
      by (intros p; unfold negate; apply negb_involutive).
    apply map_ext_in. intros p Hp. apply filter_In in Hp.
    rewrite sparql_property_clause. now rewrite (proj2 Hp).
  - apply map_ext_in. intros p Hp. apply filter_In in Hp.
    rewrite sparql_property_clause. destruct Hp as [_ Hp]. unfold negate in Hp.
    apply negb_true_iff in Hp. now rewrite Hp.
Qed.

Lemma sparql_required_first_witness :
  exists props,
    Forall2 spec_expands (configured Sample.indexer) props /\
    ["PREFIX a: <http://a/>" ++ String "010" "PREFIX b: <http://b/>";
     "SELECT *"; "WHERE {"; "   { ?id a a:T . }"; "   UNION {";
     "     ?id a ?subClass . "; "     ?subClass a owl:Class . ";
     "     ?subClass rdfs:subClassOf+ a:T ."; "   }";
     "    ?id a:label ?label ."; "    OPTIONAL { ?id a:name ?name . }";
     "    OPTIONAL { ?id b:name ?5http://b/name . }"; "}"]%string
    = Indexer.query_head Sample.indexer
      ++ map required_clause (filter is_property_required props)
      ++ map optional_clause (filter (negate is_property_required) props)
      ++ Indexer.query_tail Sample.indexer.
Proof.
  eapply (sparql_required_first SampleLib.lib Sample.indexer).
  vm_compute. reflexivity.
Defined.

(** *** The subclass expansion *)

Lemma sparql_inv (L : PyLib) (st st' : Indexer.t) (q : string) :
  Indexer.sparql L st = Ok (q, st') ->
  exists lines,
    Indexer.sparql_lines L st = Ok (lines, st') /\
    q = PyStr.join (String "010" "") lines.
Proof.
  unfold Indexer.sparql. intros H. inv_bind H. destruct a as [lines st1].
  injection H as <- <-. eauto.
Qed.

Lemma type_lines_branch (conf : TypeConf) (rdf_type : string) (subclasses : yaml) :
  c_type conf = Some rdf_type ->
  c_subclasses conf = Some subclasses ->
  truthy subclasses = true ->
  Indexer.type_lines conf =
  ("   { ?id a " ++ rdf_type ++ " . }")%string
    :: union_branch (yaml_is subclasses "owl") rdf_type.
Proof.
  intros Ht Hs Hy. unfold Indexer.type_lines, union_branch.
  rewrite Ht, Hs, Hy. reflexivity.
Qed.

(** C5 (amended). With a type constraint and a subclass expansion, the
    query text has, right after the direct match of the type, a union
    branch that binds [?subClass]: for the expansion ["owl"] it holds the
    class-membership check [?subClass a owl:Class] and the one-or-more path
    [rdfs:subClassOf+]; for any other expansion it holds the direct
    [rdfs:subClassOf] edge and no membership check. *)
Theorem sparql_subclass_branch (L : PyLib) (st st' : Indexer.t) (q : string)
    (rdf_type : string) (subclasses : yaml) :
  c_type (Indexer.conf st) = Some rdf_type ->
  c_subclasses (Indexer.conf st) = Some subclasses ->
  truthy subclasses = true ->
  Indexer.sparql L st = Ok (q, st') ->
  exists before after,
    q = PyStr.join (String "010" "")
          (before
           ++ [("   { ?id a " ++ rdf_type ++ " . }")%string]
           ++ union_branch (yaml_is subclasses "owl") rdf_type
           ++ after).
Proof.
  intros Ht Hs Hy H. apply sparql_inv in H. destruct H as [lines [H ->]].
  apply sparql_lines_inv in H. destruct H as [props [_ [_ ->]]].
  unfold Indexer.query_head.
  rewrite (type_lines_branch _ _ _ Ht Hs Hy).
  exists ([Session.sparql_prefixes (Indexer.session st); "SELECT *"; "WHERE {"]
          ++ match c_graph (Indexer.conf st) with
             | Some g => [(" GRAPH <" ++ g ++ "> {")%string]
             | None => []
             end).
  exists (map Indexer.sparql_property (Indexer.sort_properties props)
          ++ Indexer.query_tail st).
  f_equal. rewrite <- !app_assoc. reflexivity.
Qed.

Lemma sparql_subclass_branch_witness :
  exists before after,
    ("PREFIX a: <http://a/>" ++ String "010" "PREFIX b: <http://b/>"
     ++ String "010" "SELECT *"
     ++ String "010" "WHERE {"
     ++ String "010" "   { ?id a a:T . }"
     ++ String "010" "   UNION {"
     ++ String "010" "     ?id a ?subClass . "
     ++ String "010" "     ?subClass a owl:Class . "
     ++ String "010" "     ?subClass rdfs:subClassOf+ a:T ."
     ++ String "010" "   }"
     ++ String "010" "    ?id a:label ?label ."
     ++ String "010" "    OPTIONAL { ?id a:name ?name . }"
     ++ String "010" "    OPTIONAL { ?id b:name ?5http://b/name . }"
     ++ String "010" "}")%string
    = PyStr.join (String "010" "")
        (before ++ ["   { ?id a a:T . }"] ++ union_branch true "a:T" ++ after).
Proof.
  eapply (sparql_subclass_branch SampleLib.lib Sample.indexer _ _ "a:T" (YStr "owl"));
    vm_compute; reflexivity.
Defined.

(** C5, as stated, fails: the expansion that is not ["owl"] (the direct
    subclass edge) has no class-membership check, and the expansion ["owl"]
    (the transitive one) has it. *)
Lemma subclass_membership_check_counterexample :
  (exists q st',
      Indexer.sparql SampleLib.lib Sample.indexer_direct = Ok (q, st') /\
      PyStr.contains q "?subClass rdfs:subClassOf a:T" = true /\
      PyStr.contains q "?subClass a owl:Class" = false) /\
  (exists q st',
      Indexer.sparql SampleLib.lib Sample.indexer = Ok (q, st') /\
      PyStr.contains q "?subClass rdfs:subClassOf+ a:T" = true /\
      PyStr.contains q "?subClass a owl:Class" = true).
Proof.
  split; eexists; eexists; (split; [vm_compute; reflexivity |]);
    split; vm_compute; reflexivity.
Qed.

(** *** Configuration errors *)

Lemma sparql_lines_eq (L : PyLib) (st : Indexer.t) :
  Indexer.sparql_lines L st =
  '(props, st2) <- Indexer.expand_properties L st (configured st) ;;
  match props with
  | [] => Raise (Exception ("No properties configured for "
                            ++ Indexer.index st ++ " " ++ Indexer.doc_type st))
  | _ => Ok (Indexer.query_head st
             ++ map Indexer.sparql_property (Indexer.sort_properties props)
             ++ Indexer.query_tail st, st2)
  end.
Proof.
  unfold Indexer.sparql_lines, configured. rewrite expand_properties_app.
  destruct (Indexer.expand_properties L st (common_properties (Indexer.session st)))
    as [[common st1]|e]; simpl; [| reflexivity].
  destruct (Indexer.expand_properties L st1 (c_properties (Indexer.conf st)))
    as [[own st2]|e]; reflexivity.
Qed.

Lemma sparql_raises (L : PyLib) (st : Indexer.t) (e : exn) :
  Indexer.expand_properties L st (configured st) = Raise e ->
  Indexer.sparql L st = Raise e.
Proof.
  intros H. unfold Indexer.sparql. rewrite sparql_lines_eq, H. reflexivity.
Qed.

Lemma expand_properties_raises (L : PyLib) (before after : list PropertySpec)
    (x : PropertySpec) (st st1 : Indexer.t) (ps : list Property) (e : exn) :
  Indexer.expand_properties L st before = Ok (ps, st1) ->
  Indexer.expand_property L st1 x = Raise e ->
  Indexer.expand_properties L st (before ++ x :: after) = Raise e.
Proof.
  intros Hb Hx. rewrite expand_properties_app, Hb. simpl. now rewrite Hx.
Qed.

(** Expanding properties changes the table of properties only, and adds to
    it the variables it resolved, in order. *)
Lemma expand_properties_registers (L : PyLib) (specs : list PropertySpec) :
  forall st ps st1,
    Indexer.expand_properties L st specs = Ok (ps, st1) ->
    st1 = Indexer.with_properties st (Indexer.properties st1) /\
    PyDict.keys (Indexer.properties st1) =
    PyDict.keys (Indexer.properties st) ++ map p_variable ps.
Proof.
  induction specs as [|x specs IH]; intros st ps st1 H; simpl in H.
  - injection H as <- <-. destruct st; simpl. now rewrite app_nil_r.
  - inv_bind H. destruct a as [p st0]. inv_bind H. destruct a as [rest st2].
    injection H as <- <-. apply expand_property_inv in Hr.
    destruct Hr as [_ [Hm ->]]. apply IH in Hr0. destruct Hr0 as [Hst Hk].
    split.
    + rewrite Hst at 1. reflexivity.
    + rewrite Hk. simpl. rewrite dict_keys_set, Hm, <- app_assoc. reflexivity.
Qed.

(** C4 (amended). Building the query fails when no property is configured,
    and when a property given as a dictionary names a variable that is
    already registered, that is resolved by a property before it. A
    property given by its qualified name whose short name is already
    registered takes the name derived from the UUID of its expanded name
    instead, and the build goes on; it fails only when that name is
    registered too. The registered names are the variables resolved so
    far. *)
Theorem sparql_configuration_errors (L : PyLib) (st : Indexer.t) :
  (configured st = [] ->
   Indexer.sparql L st =
   Raise (Exception ("No properties configured for "
                     ++ Indexer.index st ++ " " ++ Indexer.doc_type st))) /\
  (forall before after ps st1,
      Indexer.expand_properties L st before = Ok (ps, st1) ->
      PyDict.keys (Indexer.properties st1) =
      PyDict.keys (Indexer.properties st) ++ map p_variable ps /\
      (forall d,
          configured st = before ++ Detailed d :: after ->
          PyDict.mem (Indexer.properties st1) (p_variable d) = true ->
          Indexer.sparql L st =
          Raise (Exception ("Duplicate property name " ++ p_variable d))) /\
      (forall s q,
          configured st = before ++ Shorthand s :: after ->
          PyDict.mem (Indexer.properties st1) (short_name s) = true ->
          Session.expand_qname (Indexer.session st) s = Ok q ->
          if PyDict.mem (Indexer.properties st1) (fallback_name L q) then
            Indexer.sparql L st =
            Raise (Exception ("Duplicate property name " ++ fallback_name L q))
          else
            Indexer.expand_property L st1 (Shorthand s) =
            Ok (shorthand_property s (fallback_name L q),
                Indexer.with_properties st1
                  (PyDict.set (Indexer.properties st1) (fallback_name L q)
                     (shorthand_property s (fallback_name L q)))))).
Proof.
  split.
  - intros H. unfold Indexer.sparql. rewrite sparql_lines_eq, H. reflexivity.
  - intros before after ps st1 Hb.
    destruct (expand_properties_registers _ _ _ _ _ Hb) as [Hst Hk].
    split; [exact Hk | split].
    + intros d Hc Hm. apply sparql_raises. rewrite Hc.
      eapply expand_properties_raises; [eassumption |].
      unfold Indexer.expand_property. simpl. now rewrite Hm.
    + intros s q Hc Hm Hq.
      assert (Hv : Indexer.variable_for_property_name L st1 s = Ok (fallback_name L q)).
      { unfold Indexer.variable_for_property_name. fold (short_name s).
        rewrite Hm. simpl. rewrite Hst. simpl. rewrite Hq. reflexivity. }
      destruct (PyDict.mem (Indexer.properties st1) (fallback_name L q)) eqn:Hf.
      * apply sparql_raises. rewrite Hc.
        eapply expand_properties_raises; [eassumption |].
        unfold Indexer.expand_property. rewrite Hv. simpl. now rewrite Hf.
      * unfold Indexer.expand_property. rewrite Hv. simpl. now rewrite Hf.
Qed.

Lemma sparql_configuration_errors_witness :
  Indexer.sparql SampleLib.lib Sample.indexer_empty =
  Raise (Exception "No properties configured for idx doc") /\
  Indexer.sparql SampleLib.lib Sample.indexer_dup =
  Raise (Exception "Duplicate property name label").
Proof.
  split.
  - apply (proj1 (sparql_configuration_errors SampleLib.lib Sample.indexer_empty)).
    reflexivity.
  - destruct (sparql_configuration_errors SampleLib.lib Sample.indexer_dup) as [_ H].
    edestruct (H [Shorthand "a:name"; Shorthand "a:label"] []) as [_ [Hd _]].
    { vm_compute. reflexivity. }
    apply (Hd Sample.label); vm_compute; reflexivity.
Defined.

(** C4, as stated, fails: two properties with the short name [name] build a
    query, the second under a substituted variable name. *)
Lemma duplicate_short_name_counterexample :
  short_name "a:name" = short_name "b:name" /\
  exists q st',
    Indexer.sparql SampleLib.lib Sample.indexer = Ok (q, st') /\
    PyDict.keys (Indexer.properties st') =
    ["name"; fallback_name SampleLib.lib "http://b/name"; "label"].
Proof.
  split; [reflexivity |]. eexists. eexists. split; vm_compute; reflexivity.
Qed.

(** ** Projection of a row *)

Lemma project_vars_cons (props : PyDict.t Property) (node : Row) (var : string)
    (rest : list string) (body : Doc) (params : Params) :
  reserved var = false ->
  Indexer.project_vars props node (var :: rest) body params =
  jsonld <- (if String.eqb var "subClass" then Ok "rdfs:subClassOf"
             else prop <- PyDict.getitem props var ;; Ok (p_jsonld prop)) ;;
  Indexer.project_vars props node rest
    (PyDict.set body jsonld (VList (value_list (bound_value node var))))
    (PyDict.set params var (bound_value node var)).
Proof.
  unfold reserved. intros Hr. simpl. rewrite Hr.
  destruct (if String.eqb var "subClass" then Ok "rdfs:subClassOf"
            else prop <- PyDict.getitem props var ;; Ok (p_jsonld prop))
    as [jsonld|e]; simpl; [| reflexivity].
  unfold bound_value.
  destruct (PyDict.get node var) as [[[ty [v|]]|]|]; reflexivity.
Qed.

Lemma project_vars_unconfigured (props : PyDict.t Property) (node : Row)
    (var : string) (vars : list string) :
  In var vars -> reserved var = false -> var <> "subClass" ->
  PyDict.mem props var = false ->
  forall body params,
    is_ok (Indexer.project_vars props node vars body params) = false.
Proof.
  intros Hin Hr Hs Hm. induction vars as [|x vars IH]; [contradiction |].
  intros body params. destruct (reserved x) eqn:Hx.
  - destruct Hin as [->|Hin]; [congruence |].
    unfold reserved in Hx. simpl. rewrite Hx. now apply IH.
  - rewrite project_vars_cons by assumption.
    destruct Hin as [->|Hin].
    + apply String.eqb_neq in Hs. rewrite Hs.
      unfold PyDict.getitem, PyDict.mem in *.
      now destruct (PyDict.get props var).
    + destruct (if String.eqb x "subClass" then Ok "rdfs:subClassOf"
                else prop <- PyDict.getitem props x ;; Ok (p_jsonld prop));
        simpl; [now apply IH | reflexivity].
Qed.

Lemma skolemize_total (L : PyLib) (st : Indexer.t) (bnode : string) :
  Indexer.skolemize L st bnode =
  if PyDict.mem (Indexer.blanknodes st) bnode then
    match PyDict.get (Indexer.blanknodes st) bnode with
    | Some u => Ok (("urn:uuid:" ++ u)%string, st)
    | None => Raise (KeyError bnode)
    end
  else
    Ok (("urn:uuid:" ++ uuid4 L (Indexer.uuid4_calls st))%string,
        Indexer.with_blanknode st
          (PyDict.set (Indexer.blanknodes st) bnode
             (uuid4 L (Indexer.uuid4_calls st)))).
Proof.
  unfold Indexer.skolemize.
  destruct (PyDict.mem (Indexer.blanknodes st) bnode) eqn:E; simpl.
  - unfold PyDict.getitem. now destruct (PyDict.get (Indexer.blanknodes st) bnode).
  - unfold PyDict.getitem. now rewrite dict_get_set_eq.
Qed.

(** Resolving the identifier of a row changes the blank nodes only. *)
Lemma entity_uri_frame (L : PyLib) (st st' : Indexer.t) (node : Row) (uri : string) :
  Indexer.entity_uri L st node = Ok (uri, st') ->
  Indexer.properties st' = Indexer.properties st /\
  Indexer.cache st' = Indexer.cache st /\
  Indexer.indexed st' = Indexer.indexed st /\
  Indexer.conf st' = Indexer.conf st /\
  Indexer.index st' = Indexer.index st /\
  Indexer.doc_type st' = Indexer.doc_type st.
Proof.
  unfold Indexer.entity_uri. intros H. inv_bind H.
  destruct a as [idb|]; [| discriminate].
  destruct (String.eqb (b_type idb) "uri").
  - inv_bind H. injection H as _ <-. repeat split.
  - destruct (b_value idb) as [v|]; [| discriminate].
    rewrite skolemize_total in H.
    destruct (PyDict.mem (Indexer.blanknodes st) v).
    + destruct (PyDict.get (Indexer.blanknodes st) v); [| discriminate].
      injection H as _ <-. repeat split.
    + injection H as _ <-. repeat split.
Qed.

Lemma row_body_static (st st1 : Indexer.t) (uri : string) (node : Row) :
  Indexer.conf st1 = Indexer.conf st ->
  Indexer.properties st1 = Indexer.properties st ->
  Indexer.row_body st1 uri node = Indexer.row_body st uri node.
Proof.
  intros Hc Hp. unfold Indexer.row_body, Indexer.row_types. now rewrite Hc, Hp.
Qed.

Lemma project_vars_step (props : PyDict.t Property) (node : Row) (var : string)
    (rest : list string) (body : Doc) (params : Params) :
  reserved var = false ->
  Indexer.project_vars props node (var :: rest) body params =
  match document_key props var with
  | Some k =>
      Indexer.project_vars props node rest
        (PyDict.set body k (VList (value_list (bound_value node var))))
        (PyDict.set params var (bound_value node var))
  | None => Raise (KeyError var)
  end.
Proof.
  intros Hr. rewrite project_vars_cons by assumption. unfold document_key.
  destruct (String.eqb var "subClass"); [reflexivity |].
  unfold PyDict.getitem. now destruct (PyDict.get props var).
Qed.

(** What the loop has stored stays, unless a later variable of the row
    stores under the same key. *)
Lemma project_vars_keeps (props : PyDict.t Property) (node : Row) (var k : string)
    (vars : list string) :
  forall body params b p,
    Indexer.project_vars props node vars body params = Ok (b, p) ->
    (PyDict.mem body k = true -> PyDict.mem b k = true) /\
    (PyDict.get params var = Some (bound_value node var) ->
     PyDict.get p var = Some (bound_value node var)) /\
    ((forall var', In var' vars -> reserved var' = false ->
                   document_key props var' = Some k -> var' = var) ->
     PyDict.get body k = Some (VList (value_list (bound_value node var))) ->
     PyDict.get b k = Some (VList (value_list (bound_value node var)))).
Proof.
  induction vars as [|x vars IH]; intros body params b p H.
  - simpl in H. injection H as <- <-. auto.
  - destruct (reserved x) eqn:Hx.
    + unfold reserved in Hx. simpl in H. rewrite Hx in H.
      destruct (IH _ _ _ _ H) as [H1 [H2 H3]].
      split; [exact H1 | split; [exact H2 |]].
      intros Hu. apply H3. intros var' Hin. apply Hu. now right.
    + rewrite project_vars_step in H by assumption.
      destruct (document_key props x) as [kx|] eqn:Hkx; [| discriminate].
      destruct (IH _ _ _ _ H) as [H1 [H2 H3]]. split; [| split].
      * intros Hm. apply H1. rewrite dict_mem_set, Hm. apply orb_true_r.
      * intros Hp. apply H2. destruct (string_dec x var) as [->|Hne].
        -- apply dict_get_set_eq.
        -- now rewrite dict_get_set_neq.
      * intros Hu Hb. apply H3.
        -- intros var' Hin. apply Hu. now right.
        -- destruct (string_dec kx k) as [->|Hne].
           ++ rewrite (Hu x (or_introl eq_refl) Hx Hkx). apply dict_get_set_eq.
           ++ now rewrite dict_get_set_neq.
Qed.

(** The loop stores every variable of the row other than [id] and [type]:
    its value among the parameters, and in the document under its key. *)
Lemma project_vars_stores (props : PyDict.t Property) (node : Row) (var : string)
    (vars : list string) :
  forall body params b p,
    Indexer.project_vars props node vars body params = Ok (b, p) ->
    In var vars -> reserved var = false ->
    exists k,
      document_key props var = Some k /\
      PyDict.get p var = Some (bound_value node var) /\
      PyDict.mem b k = true /\
      ((forall var', In var' vars -> reserved var' = false ->
                     document_key props var' = Some k -> var' = var) ->
       PyDict.get b k = Some (VList (value_list (bound_value node var)))).
Proof.
  induction vars as [|x vars IH]; intros body params b p H Hin Hr; [contradiction |].
  destruct (string_dec x var) as [->|Hne].
  - rewrite project_vars_step in H by assumption.
    destruct (document_key props var) as [k|] eqn:Hk; [| discriminate].
    destruct (project_vars_keeps props node var k vars _ _ _ _ H) as [H1 [H2 H3]].
    exists k. split; [reflexivity | split; [| split]].
    + apply H2, dict_get_set_eq.
    + apply H1. rewrite dict_mem_set, String.eqb_refl. reflexivity.
    + intros Hu. apply H3; [| apply dict_get_set_eq].
      intros var' Hin'. apply Hu. now right.
  - destruct Hin as [Heq|Hin]; [contradiction |].
    assert (Hrest : exists body1 params1,
               Indexer.project_vars props node vars body1 params1 = Ok (b, p)).
    { destruct (reserved x) eqn:Hx.
      - unfold reserved in Hx. simpl in H. rewrite Hx in H. eauto.
      - rewrite project_vars_step in H by assumption.
        destruct (document_key props x); [eauto | discriminate]. }
    destruct Hrest as [body1 [params1 Hrest]].
    destruct (IH _ _ _ _ Hrest Hin Hr) as [k [Hk [Hp [Hm Hv]]]].
    exists k. split; [exact Hk | split; [exact Hp | split; [exact Hm |]]].
    intros Hu. apply Hv. intros var' Hin'. apply Hu. now right.
Qed.

(** The loop raises for no other reason than a variable without a key. *)
Lemma project_vars_total (props : PyDict.t Property) (node : Row) (vars : list string) :
  (forall var, In var vars -> reserved var = false ->
               String.eqb var "subClass" = false -> PyDict.mem props var = true) ->
  forall body params,
    exists b p, Indexer.project_vars props node vars body params = Ok (b, p).
Proof.
  induction vars as [|x vars IH]; intros Hreg body params; [simpl; eauto |].
  assert (Hreg' : forall var, In var vars -> reserved var = false ->
                              String.eqb var "subClass" = false ->
                              PyDict.mem props var = true)
    by (intros var Hin; apply Hreg; now right).
  destruct (reserved x) eqn:Hx.
  - unfold reserved in Hx. simpl. rewrite Hx. now apply IH.
  - rewrite project_vars_step by assumption. unfold document_key.
    destruct (String.eqb x "subClass") eqn:Hs; [now apply IH |].
    pose proof (Hreg x (or_introl eq_refl) Hx Hs) as Hm. unfold PyDict.mem in Hm.
    destruct (PyDict.get props x); [now apply IH | discriminate].
Qed.

(** The message of a row carries the document of the row: as it is, or
    merged into the document that the cache holds for the entity. *)
Lemma binding_as_doc_document (L : PyLib) (st st1 : Indexer.t) (node : Row) (m : Msg) :
  Indexer.binding_as_doc L st node = Ok (m, st1) ->
  exists body params,
    Indexer.row_body st (msg_id m) node = Ok (body, params) /\
    (msg_doc m = body \/
     exists cached,
       SlidingWindowDictionary.get (Indexer.cache st) (uuid5 L (msg_id m)) = Some cached /\
       Indexer.merge_bodies L cached body = Ok (msg_doc m)).
Proof.
  unfold Indexer.binding_as_doc. intros H.
  inv_bind H. destruct a as [uri st0]. inv_bind H. destruct a as [body params].
  apply entity_uri_frame in Hr. destruct Hr as [Hp [Hc [_ [Hconf _]]]].
  simpl in Hp, Hc, Hconf.
  rewrite (row_body_static st st0 uri node Hconf Hp) in Hr0.
  unfold Indexer.reconcile in H.
  destruct (negb (Indexer.set_mem (uuid5 L uri) (Indexer.indexed st0))).
  - inv_bind H. injection H as <- <-. simpl. eauto.
  - rewrite Hc in H.
    destruct (SlidingWindowDictionary.get (Indexer.cache st) (uuid5 L uri))
      as [[|kv cached]|] eqn:Hget.
    + inv_bind H. injection H as <- <-. simpl. eauto.
    + inv_bind H. inv_bind H. injection H as <- <-. simpl.
      exists body, params. split; [exact Hr0 | right]. eauto.
    + inv_bind H. injection H as <- <-. simpl. eauto.
Qed.

(** C10. A row that binds [subClass] needs no entry of the table of
    properties for it: the document of the row has the key
    [rdfs:subClassOf], which holds the class that the row binds as long as
    no property of the row is configured with that same key, and the
    parameters hold the class under [subClass]. Every other variable of
    the row than [id] and [type] goes through the table: its value is
    among the parameters, and in the document under the key that its entry
    of the table names, which holds it as long as no other variable of the
    row is stored under that key. A row whose type, if any, has a text and
    whose variables other than [id], [type] and [subClass] have an entry in
    the table has a document; the message of [binding_as_doc] for a row
    carries the document of the row, as it is or merged into the one that
    the cache holds for the entity; and a row that binds a variable other
    than [id], [type] and [subClass] with no entry in the table makes
    [binding_as_doc] raise. *)
Theorem subclass_key_is_fixed (L : PyLib) (st : Indexer.t) (node : Row) :
  (forall uri body params,
      Indexer.row_body st uri node = Ok (body, params) ->
      In "subClass" (PyDict.keys node) ->
      PyDict.get params "subClass" = Some (bound_value node "subClass") /\
      PyDict.mem body "rdfs:subClassOf" = true /\
      ((forall var p,
           In var (PyDict.keys node) ->
           PyDict.get (Indexer.properties st) var = Some p ->
           p_jsonld p <> "rdfs:subClassOf") ->
       PyDict.get body "rdfs:subClassOf"
       = Some (VList (value_list (bound_value node "subClass"))))) /\
  (forall uri body params var,
      Indexer.row_body st uri node = Ok (body, params) ->
      In var (PyDict.keys node) ->
      reserved var = false -> String.eqb var "subClass" = false ->
      exists p,
        PyDict.get (Indexer.properties st) var = Some p /\
        PyDict.get params var = Some (bound_value node var) /\
        PyDict.mem body (p_jsonld p) = true /\
        ((forall var',
             In var' (PyDict.keys node) -> reserved var' = false ->
             document_key (Indexer.properties st) var' = Some (p_jsonld p) ->
             var' = var) ->
         PyDict.get body (p_jsonld p)
         = Some (VList (value_list (bound_value node var))))) /\
  ((PyDict.get node TYPE = None \/
    exists b v, PyDict.get node TYPE = Some (Some b) /\ b_value b = Some v) ->
   (forall var,
       In var (PyDict.keys node) -> reserved var = false ->
       String.eqb var "subClass" = false ->
       PyDict.mem (Indexer.properties st) var = true) ->
   forall uri, exists body params, Indexer.row_body st uri node = Ok (body, params)) /\
  (forall m st1,
      Indexer.binding_as_doc L st node = Ok (m, st1) ->
      exists body params,
        Indexer.row_body st (msg_id m) node = Ok (body, params) /\
        (msg_doc m = body \/
         exists cached,
           SlidingWindowDictionary.get (Indexer.cache st) (uuid5 L (msg_id m))
           = Some cached /\
           Indexer.merge_bodies L cached body = Ok (msg_doc m))) /\
  (forall var,
      In var (PyDict.keys node) ->
      reserved var = false -> String.eqb var "subClass" = false ->
      PyDict.mem (Indexer.properties st) var = false ->
      is_ok (Indexer.binding_as_doc L st node) = false).
Proof.
  split; [| split; [| split; [| split]]].
  - intros uri body params Hb Hin. unfold Indexer.row_body in Hb.
    inv_bind Hb. destruct a as [types params0].
    destruct (project_vars_stores _ _ "subClass" _ _ _ _ _ Hb Hin eq_refl)
      as [k [Hk [Hp [Hm Hv]]]].
    injection Hk as <-. split; [exact Hp | split; [exact Hm |]].
    intros Hfree. apply Hv. intros var' Hin' Hr' Hk'. unfold document_key in Hk'.
    destruct (String.eqb var' "subClass") eqn:Hs; [now apply String.eqb_eq in Hs |].
    destruct (PyDict.get (Indexer.properties st) var') as [p'|] eqn:Hg; [| discriminate].
    injection Hk' as Hk'. elim (Hfree var' p' Hin' Hg Hk').
  - intros uri body params var Hb Hin Hr Hs. unfold Indexer.row_body in Hb.
    inv_bind Hb. destruct a as [types params0].
    destruct (project_vars_stores _ _ var _ _ _ _ _ Hb Hin Hr)
      as [k [Hk [Hp [Hm Hv]]]].
    unfold document_key in Hk. rewrite Hs in Hk.
    destruct (PyDict.get (Indexer.properties st) var) as [p|]; [| discriminate].
    injection Hk as <-. exists p. auto.
  - intros Hty Hreg uri. unfold Indexer.row_body, Indexer.row_types.
    destruct Hty as [->|[b [v [-> Hv]]]]; [| rewrite Hv]; simpl;
      apply project_vars_total; exact Hreg.
  - intros m st1. apply binding_as_doc_document.
  - intros var Hin Hr Hs Hm. apply String.eqb_neq in Hs.
    unfold Indexer.binding_as_doc.
    destruct (Indexer.entity_uri L _ node) as [[uri st1]|e] eqn:He; [| reflexivity].
    apply entity_uri_frame in He. destruct He as [Hp _]. simpl in Hp.
    simpl. unfold Indexer.row_body.
    destruct (Indexer.row_types st1 node) as [[types params]|e]; [| reflexivity].
    simpl. rewrite Hp.
    match goal with
    | |- context [Indexer.project_vars ?p ?n ?v ?b ?q] =>
        pose proof (project_vars_unconfigured p n var v Hin Hr Hs Hm b q) as Hu;
        destruct (Indexer.project_vars p n v b q) as [[? ?]|?]
    end; [discriminate | reflexivity].
Qed.

Lemma subclass_key_is_fixed_witness :
  PyDict.mem (Indexer.properties Sample.ready) "subClass" = false /\
  (exists body params,
      Indexer.row_body Sample.ready "http://e/1" Sample.class_row = Ok (body, params) /\
      PyDict.get params "subClass" = Some (Some "http://c/X") /\
      PyDict.get body "rdfs:subClassOf" = Some (VList ["http://c/X"])) /\
  is_ok (Indexer.binding_as_doc SampleLib.lib Sample.ready
           [("id", Sample.uri "http://e/1"); ("subClass", Sample.uri "http://c/X");
            ("age", Sample.literal "7")]) = false.
Proof.
  split; [reflexivity | split].
  - destruct (proj1 (proj2 (proj2
               (subclass_key_is_fixed SampleLib.lib Sample.ready Sample.class_row))))
      with (uri := "http://e/1") as [body [params Hb]].
    + left. reflexivity.
    + intros var [H|[H|[H|[H|[]]]]] Hr Hs; subst var;
        try discriminate Hr; try discriminate Hs; reflexivity.
    + exists body, params. split; [exact Hb |].
      destruct (proj1 (subclass_key_is_fixed SampleLib.lib Sample.ready Sample.class_row)
                  _ _ _ Hb) as [Hp [_ Hv]].
      * right. now left.
      * split; [exact Hp |]. apply Hv.
        intros var p [H|[H|[H|[H|[]]]]] Hg Hc; subst var; vm_compute in Hg;
          try discriminate Hg; injection Hg as <-; discriminate Hc.
  - apply (proj2 (proj2 (proj2 (proj2
             (subclass_key_is_fixed SampleLib.lib Sample.ready _)))) "age");
      vm_compute; auto.
Defined.

(** ** The cache *)

(** One turn of the loop of [__setitem__]. *)
Lemma evict_loop {V : Type} (C : Z) (l : PyDict.t V) :
  SlidingWindowDictionary.evict C l =
  if Z.geb (Z.of_nat (List.length l)) C then
    '(_, rest) <- SlidingWindowDictionary.popitem_first l ;;
    SlidingWindowDictionary.evict C rest
  else Ok l.
Proof. destruct l as [|kv l]; reflexivity. Qed.

Lemma evict_spec {V : Type} (C : Z) (l l' : PyDict.t V) :
  SlidingWindowDictionary.evict C l = Ok l' ->
  (exists n, l' = skipn n l) /\ (Z.of_nat (List.length l') < C)%Z.
Proof.
  induction l as [|kv l IH]; simpl.
  - destruct (Z.geb 0 C) eqn:E; [discriminate |]. intros H. injection H as <-.
    split; [now exists 0 |]. simpl. rewrite Z.geb_leb in E. apply Z.leb_gt in E. lia.
  - destruct (Z.geb (Z.pos (Pos.of_succ_nat (List.length l))) C) eqn:E.
    + intros H. destruct (IH H) as [[n Hn] Hl]. split; [| exact Hl].
      exists (S n). exact Hn.
    + intros H. injection H as <-. split; [now exists 0 |].
      rewrite Z.geb_leb in E. apply Z.leb_gt in E. simpl List.length. lia.
Qed.

Lemma dict_length_set {V : Type} (d : PyDict.t V) (k : string) (v : V) :
  List.length (PyDict.set d k v) <= S (List.length d).
Proof.
  induction d as [|[k' v'] d IH]; simpl; [lia |].
  destruct (String.eqb k' k); simpl; lia.
Qed.

Lemma setitem_inv {V : Type} (d d' : SlidingWindowDictionary.t V) (k : string) (v : V) :
  SlidingWindowDictionary.setitem d k v = Ok d' ->
  SlidingWindowDictionary.max_size d' = SlidingWindowDictionary.max_size d /\
  (SlidingWindowDictionary.len d' <= SlidingWindowDictionary.max_size d)%Z /\
  exists n,
    SlidingWindowDictionary.items d'
    = PyDict.set (skipn n (SlidingWindowDictionary.items d)) k v.
Proof.
  unfold SlidingWindowDictionary.setitem. intros H. inv_bind H.
  injection H as <-. apply evict_spec in Hr. destruct Hr as [[n ->] Hl].
  simpl. split; [reflexivity | split; [| now exists n]].
  unfold SlidingWindowDictionary.len. simpl.
  pose proof (dict_length_set (skipn n (SlidingWindowDictionary.items d)) k v). lia.
Qed.

Lemma cache_run_bounded {V : Type} (ops : list (CacheOps.op V)) :
  forall d d',
    (SlidingWindowDictionary.len d <= SlidingWindowDictionary.max_size d)%Z ->
    CacheOps.run d ops = Ok d' ->
    SlidingWindowDictionary.max_size d' = SlidingWindowDictionary.max_size d /\
    (SlidingWindowDictionary.len d' <= SlidingWindowDictionary.max_size d)%Z.
Proof.
  induction ops as [|o ops IH]; intros d d' Hd H; simpl in H.
  - injection H as <-. auto.
  - inv_bind H. destruct o as [k v|k]; simpl in Hr.
    + apply setitem_inv in Hr. destruct Hr as [Hm [Hl _]].
      rewrite <- Hm in Hl. destruct (IH _ _ Hl H) as [H1 H2].
      rewrite Hm in H1, H2. auto.
    + injection Hr as <-. now apply IH.
Qed.

Lemma cache_run_lookups {V : Type} (ops : list (CacheOps.op V)) :
  forall d, CacheOps.run d (filter CacheOps.is_insert ops) = CacheOps.run d ops.
Proof.
  induction ops as [|o ops IH]; intros d; simpl; [reflexivity |].
  destruct o as [k v|k]; simpl.
  - destruct (SlidingWindowDictionary.setitem d k v); simpl; [apply IH | reflexivity].
  - apply IH.
Qed.

Lemma evict_map {V W : Type} (g : string * V -> string * W) (C : Z) (l : PyDict.t V) :
  SlidingWindowDictionary.evict C (map g l) =
  match SlidingWindowDictionary.evict C l with
  | Ok l' => Ok (map g l')
  | Raise e => Raise e
  end.
Proof.
  induction l as [|kv l IH].
  - simpl. now destruct (Z.geb 0 C).
  - cbn [map SlidingWindowDictionary.evict]. cbn [List.length].
    rewrite length_map.
    destruct (Z.geb (Z.of_nat (S (List.length l))) C); [exact IH | reflexivity].
Qed.

Lemma dict_set_map {V W : Type} (f : V -> W) (l : PyDict.t V) (k : string) (x : V) :
  map (fun kv => (fst kv, f (snd kv))) (PyDict.set l k x) =
  PyDict.set (map (fun kv => (fst kv, f (snd kv))) l) k (f x).
Proof.
  induction l as [|[k' v'] l IH]; simpl; [reflexivity |].
  destruct (String.eqb k' k); simpl; [reflexivity | now rewrite IH].
Qed.

Lemma stamped_run_erase {V : Type} (ops : list (CacheOps.op V)) :
  forall now d,
    CacheOps.run (CacheOps.erase d) ops =
    match CacheOps.stamped_run now d ops with
    | Ok sd => Ok (CacheOps.erase sd)
    | Raise e => Raise e
    end.
Proof.
  induction ops as [|o ops IH]; intros now d; simpl; [reflexivity |].
  destruct o as [k v|k]; simpl.
  - unfold SlidingWindowDictionary.setitem, CacheOps.erase at 1. simpl.
    rewrite evict_map.
    destruct (SlidingWindowDictionary.evict (SlidingWindowDictionary.max_size d)
                (SlidingWindowDictionary.items d)) as [l|e]; simpl; [| reflexivity].
    pose proof (dict_set_map fst l k (v, CacheOps.entered now d k)) as E.
    simpl in E. rewrite <- E.
    apply (IH (S now) (SlidingWindowDictionary.mk _ _)).
  - apply IH.
Qed.

Lemma dict_set_absent {V : Type} (l : PyDict.t V) (k : string) (x : V) :
  PyDict.get l k = None -> PyDict.set l k x = l ++ [(k, x)].
Proof.
  induction l as [|[k' v'] l IH]; simpl; [reflexivity |].
  destruct (String.eqb k' k); [discriminate |]. intros H. now rewrite IH.
Qed.

Lemma dict_set_In {V : Type} (l : PyDict.t V) (k : string) (x : V) (e : string * V) :
  In e (PyDict.set l k x) -> e = (k, x) \/ In e l.
Proof.
  induction l as [|[k' v'] l IH]; simpl.
  - intros [<-|[]]. now left.
  - destruct (String.eqb k' k) eqn:E; simpl.
    + apply String.eqb_eq in E. subst k'. intros [<-|H]; auto.
    + intros [<-|H]; auto. destruct (IH H); auto.
Qed.

Lemma dict_set_stamps {V : Type} (l : PyDict.t (V * nat)) (k : string) (v v0 : V) (b : nat) :
  PyDict.get l k = Some (v0, b) ->
  map (fun kv => snd (snd kv)) (PyDict.set l k (v, b)) =
  map (fun kv => snd (snd kv)) l.
Proof.
  induction l as [|[k' [v' b']] l IH]; simpl; [discriminate |].
  destruct (String.eqb k' k); simpl.
  - intros H. now injection H as _ ->.
  - intros H. now rewrite IH.
Qed.

Lemma sorted_skipn (n : nat) (l : list nat) :
  StronglySorted lt l -> StronglySorted lt (skipn n l).
Proof.
  revert l. induction n as [|n IH]; intros l H; [exact H |].
  destruct l as [|x l]; [exact H |]. simpl. apply IH.
  now apply StronglySorted_inv in H.
Qed.

Lemma sorted_snoc (l : list nat) (x : nat) :
  StronglySorted lt l -> Forall (fun y => y < x) l -> StronglySorted lt (l ++ [x]).
Proof.
  induction 1 as [|y l Hs IH Hy]; intros Hx; simpl.
  - repeat constructor.
  - inversion Hx as [|? ? Hyx Hl]; subst. constructor; [now apply IH |].
    apply Forall_app. split; [exact Hy | now repeat constructor].
Qed.

Lemma stamped_insert_inv {V : Type} (all : list (CacheOps.op V)) (now : nat)
    (d d' : SlidingWindowDictionary.t (V * nat)) (k : string) (v : V) :
  nth_error all now = Some (CacheOps.Insert k v) ->
  CacheOps.stamps_inv all now d ->
  CacheOps.stamped_apply now d (CacheOps.Insert k v) = Ok d' ->
  CacheOps.stamps_inv all (S now) d'.
Proof.
  intros Hnth [Hs He] H. simpl in H.
  unfold SlidingWindowDictionary.setitem, CacheOps.entered in H.
  destruct (SlidingWindowDictionary.evict (SlidingWindowDictionary.max_size d)
              (SlidingWindowDictionary.items d)) as [l|e] eqn:Hev; [| discriminate].
  simpl in H. injection H as <-.
  apply evict_spec in Hev. destruct Hev as [[n Hn] _].
  assert (Hin : forall e, In e l -> In e (SlidingWindowDictionary.items d)).
  { intros e Hx. rewrite <- (firstn_skipn n). apply in_or_app. right. now rewrite <- Hn. }
  assert (Hsl : StronglySorted lt (map (fun kv => snd (snd kv)) l)).
  { rewrite Hn, <- skipn_map. now apply sorted_skipn. }
  unfold CacheOps.stamps_inv, CacheOps.stamps. simpl.
  destruct (PyDict.get l k) as [[v0 b]|] eqn:Hg.
  - rewrite (dict_set_stamps l k v v0 b Hg). split; [exact Hsl |].
    intros k' v' b' Hx. apply dict_set_In in Hx. destruct Hx as [Hx|Hx].
    + injection Hx as -> -> ->. apply dict_get_In, Hin, He in Hg.
      destruct Hg as [Hb Hop]. split; [lia | exact Hop].
    + apply Hin, He in Hx. destruct Hx as [Hb Hop]. split; [lia | exact Hop].
  - rewrite (dict_set_absent l k _ Hg), map_app. simpl. split.
    + apply sorted_snoc; [exact Hsl |]. apply Forall_forall. intros y Hy.
      apply in_map_iff in Hy. destruct Hy as [[k' [v' b']] [<- Hy]]. simpl.
      now apply Hin, He in Hy.
    + intros k' v' b' Hx. apply in_app_or in Hx. destruct Hx as [Hx|[Hx|[]]].
      * apply Hin, He in Hx. destruct Hx as [Hb Hop]. split; [lia | exact Hop].
      * injection Hx as <- <- <-. split; [lia | eauto].
Qed.

Lemma stamped_run_inv {V : Type} (ops : list (CacheOps.op V)) :
  forall done d d',
    CacheOps.stamps_inv (done ++ ops) (List.length done) d ->
    CacheOps.stamped_run (List.length done) d ops = Ok d' ->
    CacheOps.stamps_inv (done ++ ops) (List.length (done ++ ops)) d'.
Proof.
  induction ops as [|o ops IH]; intros done d d' Hinv H; simpl in H.
  - injection H as <-. now rewrite app_nil_r in *.
  - inv_bind H.
    assert (Hnth : nth_error (done ++ o :: ops) (List.length done) = Some o)
      by (rewrite nth_error_app2, Nat.sub_diag by lia; reflexivity).
    assert (Hinv' : CacheOps.stamps_inv (done ++ o :: ops) (S (List.length done)) a).
    { destruct o as [k v|k].
      - eapply stamped_insert_inv; eassumption.
      - simpl in Hr. injection Hr as <-. destruct Hinv as [Hs He].
        split; [exact Hs |]. intros k' v' b' Hx. apply He in Hx.
        destruct Hx as [Hb Hop]. split; [lia | exact Hop]. }
    replace (done ++ o :: ops) with ((done ++ [o]) ++ ops) in *
      by (now rewrite <- app_assoc).
    apply (IH (done ++ [o]) a d').
    + now rewrite length_app, Nat.add_1_r.
    + now rewrite length_app, Nat.add_1_r.
Qed.

Lemma sorted_app_lt {A : Type} (f : A -> nat) (a b : list A) (x y : A) :
  StronglySorted lt (map f (a ++ b)) -> In x a -> In y b -> f x < f y.
Proof.
  induction a as [|z a IH]; simpl; intros Hs Hx Hy; [contradiction |].
  apply StronglySorted_inv in Hs. destruct Hs as [Hs Hz].
  destruct Hx as [->|Hx]; [| now apply IH].
  rewrite Forall_forall in Hz. apply Hz, in_map, in_or_app. now right.
Qed.

(** C2. In a run of inserts and lookups on a cache made with a capacity
    [C >= 0]: the cache never holds more than [C] entries; a lookup leaves
    it as it is, so the run without its lookups ends in the same cache; an
    insert removes entries from the front of the cache only; and the
    entries stand in the order in which their keys entered the cache, so
    those an insert removes entered before every entry it keeps. *)
Theorem cache_is_bounded_fifo (V : Type) (C : Z) (ops : list (CacheOps.op V))
    (d : SlidingWindowDictionary.t V) :
  (0 <= C)%Z ->
  CacheOps.run (SlidingWindowDictionary.init C) ops = Ok d ->
  (SlidingWindowDictionary.len d <= C)%Z /\
  CacheOps.run (SlidingWindowDictionary.init C) (filter CacheOps.is_insert ops) = Ok d /\
  (forall k, CacheOps.apply d (CacheOps.Lookup k) = Ok d) /\
  (forall k v d',
      SlidingWindowDictionary.setitem d k v = Ok d' ->
      exists n,
        SlidingWindowDictionary.items d'
        = PyDict.set (skipn n (SlidingWindowDictionary.items d)) k v) /\
  (exists sd,
      CacheOps.stamped_run 0 (SlidingWindowDictionary.init C) ops = Ok sd /\
      CacheOps.erase sd = d /\
      CacheOps.stamps_inv ops (List.length ops) sd /\
      (forall k v sd',
          CacheOps.stamped_apply (List.length ops) sd (CacheOps.Insert k v) = Ok sd' ->
          exists evicted kept,
            SlidingWindowDictionary.items sd = evicted ++ kept /\
            SlidingWindowDictionary.items sd'
            = PyDict.set kept k (v, CacheOps.entered (List.length ops) sd k) /\
            (forall e e', In e evicted -> In e' kept ->
                          snd (snd e) < snd (snd e')))).
Proof.
  intros HC H.
  assert (Hinit : (SlidingWindowDictionary.len (SlidingWindowDictionary.init (V := V) C)
                   <= SlidingWindowDictionary.max_size
                        (SlidingWindowDictionary.init (V := V) C))%Z)
    by (unfold SlidingWindowDictionary.len; simpl; lia).
  split; [| split; [| split; [| split]]].
  - now apply (cache_run_bounded ops _ _ Hinit H).
  - now rewrite cache_run_lookups.
  - reflexivity.
  - intros k v d' Hs. now apply setitem_inv in Hs.
  - pose proof (stamped_run_erase ops 0 (SlidingWindowDictionary.init C)) as He.
    change (CacheOps.erase (SlidingWindowDictionary.init C))
      with (SlidingWindowDictionary.init (V := V) C) in He.
    rewrite H in He.
    destruct (CacheOps.stamped_run 0 (SlidingWindowDictionary.init C) ops)
      as [sd|e] eqn:Hsd; [| discriminate].
    injection He as He. exists sd.
    assert (Hinv : CacheOps.stamps_inv ops (List.length ops) sd).
    { apply (stamped_run_inv ops [] (SlidingWindowDictionary.init C) sd); [| exact Hsd].
      split; [constructor | intros k v b []]. }
    split; [reflexivity | split; [now symmetry | split; [exact Hinv |]]].
    intros k v sd' Hs. simpl in Hs.
    unfold SlidingWindowDictionary.setitem in Hs. inv_bind Hs. injection Hs as <-.
    apply evict_spec in Hr. destruct Hr as [[n ->] _].
    exists (firstn n (SlidingWindowDictionary.items sd)),
           (skipn n (SlidingWindowDictionary.items sd)).
    split; [now rewrite firstn_skipn | split; [reflexivity |]].
    intros e e' Hx Hy. destruct Hinv as [Hsorted _]. unfold CacheOps.stamps in Hsorted.
    rewrite <- (firstn_skipn n (SlidingWindowDictionary.items sd)) in Hsorted.
    exact (sorted_app_lt _ _ _ _ _ Hsorted Hx Hy).
Qed.

Lemma cache_is_bounded_fifo_witness :
  CacheOps.run (SlidingWindowDictionary.init 2) Sample.cache_ops
  = Ok (SlidingWindowDictionary.mk 2 [("b", 2); ("c", 3)]) /\
  (SlidingWindowDictionary.len (SlidingWindowDictionary.mk 2 [("b", 2); ("c", 3)]) <= 2)%Z /\
  CacheOps.run (SlidingWindowDictionary.init 2)
    (filter CacheOps.is_insert Sample.cache_ops)
  = Ok (SlidingWindowDictionary.mk 2 [("b", 2); ("c", 3)]).
Proof.
  split; [reflexivity |].
  destruct (cache_is_bounded_fifo nat 2 Sample.cache_ops
              (SlidingWindowDictionary.mk 2 [("b", 2); ("c", 3)]))
    as [H1 [H2 _]]; [lia | reflexivity | exact (conj H1 H2)].
Defined.

(** ** Blank nodes *)

Lemma skolemize_inv (L : PyLib) (st st1 : Indexer.t) (k u : string) :
  (forall i j, uuid4 L i = uuid4 L j -> i = j) ->
  blank_inv L st ->
  Indexer.skolemize L st k = Ok (u, st1) ->
  blank_inv L st1 /\
  (exists x, PyDict.get (Indexer.blanknodes st1) k = Some x /\
             u = ("urn:uuid:" ++ x)%string) /\
  (forall k' x, PyDict.get (Indexer.blanknodes st) k' = Some x ->
                PyDict.get (Indexer.blanknodes st1) k' = Some x).
Proof.
  intros Hinj [Ha Hb] H. rewrite skolemize_total in H.
  unfold PyDict.mem in H.
  destruct (PyDict.get (Indexer.blanknodes st) k) as [x|] eqn:Hk.
  - injection H as <- <-. repeat split; eauto.
  - injection H as <- <-. simpl.
    assert (Hold : forall k' x, PyDict.get (Indexer.blanknodes st) k' = Some x -> k <> k')
      by (intros k' x Hx ->; congruence).
    split; [split |]; [ | | split].
    + intros k' x Hx. simpl in Hx.
      destruct (string_dec k k') as [->|Hne].
      * rewrite dict_get_set_eq in Hx. injection Hx as <-.
        exists (Indexer.uuid4_calls st). simpl. split; [lia | reflexivity].
      * rewrite dict_get_set_neq in Hx by assumption.
        destruct (Ha _ _ Hx) as [n [Hn ->]]. exists n. simpl.
        split; [lia | reflexivity].
    + intros k1 k2 x H1 H2. simpl in H1, H2.
      destruct (string_dec k k1) as [->|Hne1]; destruct (string_dec k1 k2) as [->|Hne2];
        try reflexivity; exfalso.
      * rewrite dict_get_set_eq in H1. injection H1 as <-.
        rewrite dict_get_set_neq in H2 by assumption.
        destruct (Ha _ _ H2) as [n [Hn Hu]]. apply Hinj in Hu. lia.
      * destruct (string_dec k k2) as [->|Hne3].
        -- rewrite dict_get_set_eq in H2. injection H2 as <-.
           rewrite dict_get_set_neq in H1 by assumption.
           destruct (Ha _ _ H1) as [n [Hn Hu]]. apply Hinj in Hu. lia.
        -- rewrite dict_get_set_neq in H1, H2 by assumption.
           apply Hne2. eapply Hb; eassumption.
    + exists (uuid4 L (Indexer.uuid4_calls st)). now rewrite dict_get_set_eq.
    + intros k' x Hx. rewrite dict_get_set_neq; [exact Hx | eapply Hold; eassumption].
Qed.

Lemma entity_uri_blank (L : PyLib) (st : Indexer.t) (node : Row) (k : string) :
  blank_key node = Some k ->
  Indexer.entity_uri L st node = Indexer.skolemize L st k.
Proof.
  unfold blank_key, Indexer.entity_uri, PyDict.getitem. intros H.
  destruct (PyDict.get node ID) as [[b|]|]; try discriminate. simpl.
  destruct (String.eqb (b_type b) "uri"); [discriminate |]. now rewrite H.
Qed.

Lemma entity_uri_inv (L : PyLib) (st st1 : Indexer.t) (node : Row) (uri : string) :
  (forall i j, uuid4 L i = uuid4 L j -> i = j) ->
  blank_inv L st ->
  Indexer.entity_uri L st node = Ok (uri, st1) ->
  blank_inv L st1 /\
  (forall k, blank_key node = Some k ->
             exists x, PyDict.get (Indexer.blanknodes st1) k = Some x /\
                       uri = ("urn:uuid:" ++ x)%string) /\
  (forall k' x, PyDict.get (Indexer.blanknodes st) k' = Some x ->
                PyDict.get (Indexer.blanknodes st1) k' = Some x).
Proof.
  intros Hinj Hinv H. destruct (blank_key node) as [k|] eqn:Hk.
  - rewrite (entity_uri_blank _ _ _ _ Hk) in H.
    destruct (skolemize_inv _ _ _ _ _ Hinj Hinv H) as [H1 [H2 H3]].
    split; [exact H1 | split; [| exact H3]].
    intros k' Hk'. injection Hk' as <-. exact H2.
  - assert (Hst : st1 = st).
    { unfold blank_key in Hk. unfold Indexer.entity_uri, PyDict.getitem in H.
      destruct (PyDict.get node ID) as [[b|]|]; try discriminate. simpl in H.
      destruct (String.eqb (b_type b) "uri").
      - inv_bind H. now injection H as _ <-.
      - rewrite Hk in H. discriminate. }
    subst st1. split; [exact Hinv | split; [discriminate | auto]].
Qed.

(** A message bears the identifier resolved for its row, and projecting
    the row records at most one blank node. *)
Lemma binding_as_doc_inv (L : PyLib) (st st1 : Indexer.t) (node : Row) (m : Msg) :
  Indexer.binding_as_doc L st node = Ok (m, st1) ->
  exists st0,
    Indexer.entity_uri L (Indexer.with_count st (Indexer.count st + 1)) node
    = Ok (msg_id m, st0) /\
    Indexer.blanknodes st1 = Indexer.blanknodes st0 /\
    Indexer.uuid4_calls st1 = Indexer.uuid4_calls st0.
Proof.
  unfold Indexer.binding_as_doc. intros H.
  inv_bind H. destruct a as [uri st0]. inv_bind H. destruct a as [body params].
  exists st0. unfold Indexer.reconcile in H.
  destruct (negb (Indexer.set_mem (uuid5 L uri) (Indexer.indexed st0))).
  - inv_bind H. injection H as <- <-. auto.
  - destruct (SlidingWindowDictionary.get (Indexer.cache st0) (uuid5 L uri))
      as [[|kv cached]|].
    + inv_bind H. injection H as <- <-. auto.
    + inv_bind H. inv_bind H. injection H as <- <-. auto.
    + inv_bind H. injection H as <- <-. auto.
Qed.

Lemma read_bindings_blank (L : PyLib) (rows : list Row) :
  (forall i j, uuid4 L i = uuid4 L j -> i = j) ->
  forall st msgs st',
    blank_inv L st ->
    Indexer.read_bindings L st rows = Ok (msgs, st') ->
    blank_inv L st' /\
    (forall k x, PyDict.get (Indexer.blanknodes st) k = Some x ->
                 PyDict.get (Indexer.blanknodes st') k = Some x) /\
    Forall2 (fun r m =>
               forall k, blank_key r = Some k ->
                 exists x, PyDict.get (Indexer.blanknodes st') k = Some x /\
                           msg_id m = ("urn:uuid:" ++ x)%string)
            rows msgs.
Proof.
  intros Hinj. induction rows as [|r rows IH]; intros st msgs st' Hinv H; simpl in H.
  - injection H as <- <-. auto.
  - inv_bind H. destruct a as [m st1]. inv_bind H. destruct a as [ms st2].
    injection H as <- <-.
    apply binding_as_doc_inv in Hr. destruct Hr as [st0 [He [Hb Hc]]].
    apply entity_uri_inv in He; [| assumption |].
    2:{ destruct Hinv as [Ha Hb']. split; simpl; assumption. }
    destruct He as [Hinv0 [Hk Hmono]]. simpl in Hmono.
    assert (Hinv1 : blank_inv L st1).
    { destruct Hinv0 as [Ha0 Hb0]. unfold blank_inv. rewrite Hb, Hc. now split. }
    destruct (IH _ _ _ Hinv1 Hr0) as [Hinv2 [Hmono2 Hall]].
    split; [exact Hinv2 | split].
    + intros k x Hx. apply Hmono2. rewrite Hb. now apply Hmono.
    + constructor; [| exact Hall].
      intros k Hbk. destruct (Hk _ Hbk) as [x [Hx Hid]].
      exists x. split; [| exact Hid]. apply Hmono2. now rewrite Hb.
Qed.

Lemma sample_uuid4_inj (i j : nat) :
  uuid4 SampleLib.lib i = uuid4 SampleLib.lib j -> i = j.
Proof.
  simpl. intros H. injection H as H.
  apply Unsigned.to_uint_inj.
  apply (f_equal NilEmpty.uint_of_string) in H.
  rewrite !NilEmpty.usu in H. now injection H.
Qed.

(** ** Merging two documents *)

Lemma set_mem_true_In (x : string) (l : list string) :
  Indexer.set_mem x l = true <-> In x l.
Proof. apply SampleLib.set_mem_In. Qed.

Lemma nodupb_NoDup (l : list string) : nodupb l = true -> NoDup l.
Proof.
  induction l as [|x l IH]; simpl; intros H; constructor.
  - apply andb_prop in H. destruct H as [H _]. apply negb_true_iff in H.
    intros Hin. apply set_mem_true_In in Hin. congruence.
  - apply IH. now apply andb_prop in H.
Qed.

Lemma wf_doc_get (d : Doc) (k : string) (v : value) :
  wf_doc d = true -> PyDict.get d k = Some v -> wf_value k v = true.
Proof.
  unfold wf_doc. intros H Hg. apply andb_prop in H. destruct H as [_ H].
  rewrite forallb_forall in H. apply (H (k, v)). now apply dict_get_In.
Qed.

(** In a document, a key other than ["@id"] is absent or holds a list with
    no duplicate. *)
Lemma wf_doc_list (d : Doc) (k : string) :
  wf_doc d = true -> String.eqb k "@id" = false ->
  (PyDict.get d k = None \/ PyDict.get d k = Some (VList (doc_list d k))) /\
  NoDup (doc_list d k).
Proof.
  intros Hwf Hk. unfold doc_list.
  destruct (PyDict.get d k) as [v|] eqn:Hg; [| split; [now left | constructor]].
  apply (wf_doc_get _ _ _ Hwf) in Hg. unfold wf_value in Hg. rewrite Hk in Hg.
  destruct v as [s|l]; [discriminate |]. simpl in Hg.
  split; [now right | now apply nodupb_NoDup].
Qed.

Lemma wf_doc_shape (d : Doc) : wf_doc d = true -> doc_shape d.
Proof.
  intros Hwf. split.
  - unfold wf_doc in Hwf. now apply andb_prop in Hwf.
  - intros k v Hg Hk. apply (wf_doc_get _ _ _ Hwf) in Hg. unfold wf_value in Hg.
    rewrite Hk in Hg. destruct v as [s|l]; [discriminate | eauto].
Qed.

Lemma doc_shape_get (d : Doc) (k : string) :
  doc_shape d -> String.eqb k "@id" = false ->
  PyDict.get d k = None \/ PyDict.get d k = Some (VList (doc_list d k)).
Proof.
  intros [_ Hs] Hk. unfold doc_list.
  destruct (PyDict.get d k) as [v|] eqn:Hg; [| now left].
  destruct (Hs _ _ Hg Hk) as [l ->]. now right.
Qed.

Lemma merge_value_list (L : PyLib) (old new : Doc) (k : string) :
  doc_shape old -> doc_shape new -> String.eqb k "@id" = false ->
  Indexer.merge_value L old new k =
  Ok (VList (doc_list old k
             ++ set_difference L (doc_list new k) (doc_list old k))).
Proof.
  intros Ho Hn Hk. unfold Indexer.merge_value. rewrite Hk.
  destruct (doc_shape_get old k Ho Hk) as [Hg|Hg];
    destruct (doc_shape_get new k Hn Hk) as [Hg'|Hg'];
    unfold doc_list in *;
    destruct (PyDict.get old k) as [[|]|]; try discriminate;
    destruct (PyDict.get new k) as [[|]|]; try discriminate; reflexivity.
Qed.

Lemma merge_value_id (L : PyLib) (old new : Doc) :
  doc_shape old ->
  exists v, PyDict.get old "@id" = Some v /\
            Indexer.merge_value L old new "@id" = Ok v.
Proof.
  intros [H _]. unfold PyDict.mem in H.
  unfold Indexer.merge_value, PyDict.getitem. simpl.
  destruct (PyDict.get old "@id") as [v|]; [eauto | discriminate].
Qed.

Lemma merge_value_ok (L : PyLib) (old new : Doc) (k : string) :
  doc_shape old -> doc_shape new ->
  exists v, Indexer.merge_value L old new k = Ok v.
Proof.
  intros Ho Hn. destruct (String.eqb k "@id") eqn:Hk.
  - apply String.eqb_eq in Hk. subst k.
    destruct (merge_value_id L old new Ho) as [v [_ Hv]]. eauto.
  - rewrite merge_value_list by assumption. eauto.
Qed.

(** The loop of [merge_bodies] gives every key of its list the merged
    value, and leaves the other keys of the document as they were. *)
Lemma merge_keys_spec (L : PyLib) (old new : Doc) (keys : list string) :
  (forall k, exists v, Indexer.merge_value L old new k = Ok v) ->
  forall body0,
  exists body,
    Indexer.merge_keys L old new keys body0 = Ok body /\
    forall k,
      (In k keys -> PyDict.getitem body k = Indexer.merge_value L old new k) /\
      (~ In k keys -> PyDict.get body k = PyDict.get body0 k).
Proof.
  intros Hok. induction keys as [|k0 keys IH]; intros body0; simpl.
  - exists body0. split; [reflexivity |]. intros k. split; [contradiction | reflexivity].
  - destruct (Hok k0) as [v0 Hv0]. rewrite Hv0. simpl.
    destruct (IH (PyDict.set body0 k0 v0)) as [body [Hb Hk]].
    exists body. split; [exact Hb |]. intros k. split.
    + intros Hin. destruct (in_dec string_dec k keys) as [Hi|Hni].
      * now apply Hk.
      * destruct Hin as [->|Hin]; [| contradiction].
        unfold PyDict.getitem. rewrite (proj2 (Hk k) Hni), dict_get_set_eq.
        now rewrite Hv0.
    + intros Hni. rewrite (proj2 (Hk k)) by (intros Hi; apply Hni; now right).
      apply dict_get_set_neq. intros ->. apply Hni. now left.
Qed.

Lemma set_difference_self (L : PyLib) (l : list string) : set_difference L l l = [].
Proof.
  destruct (set_difference L l l) as [|x r] eqn:E; [reflexivity |].
  assert (H : In x (set_difference L l l)) by (rewrite E; now left).
  apply set_difference_In in H. destruct H as [H1 H2]. contradiction.
Qed.

(** What [merge_bodies] returns for two documents. *)
Lemma merge_bodies_get (L : PyLib) (old new : Doc) :
  doc_shape old -> doc_shape new ->
  exists body,
    Indexer.merge_bodies L old new = Ok body /\
    PyDict.get body "@id" = PyDict.get old "@id" /\
    (forall k, PyDict.mem body k = PyDict.mem old k || PyDict.mem new k) /\
    (forall k, String.eqb k "@id" = false -> PyDict.mem body k = true ->
       PyDict.get body k =
       Some (VList (doc_list old k
                    ++ set_difference L (doc_list new k) (doc_list old k)))).
Proof.
  intros Ho Hn. unfold Indexer.merge_bodies.
  set (keys := set_union L (PyDict.keys old) (PyDict.keys new)).
  destruct (merge_keys_spec L old new keys
              (fun k => merge_value_ok L old new k Ho Hn) []) as [body [Hb Hk]].
  assert (Hin : forall k, In k keys <-> PyDict.mem old k = true \/ PyDict.mem new k = true).
  { intros k. unfold keys. rewrite set_union_In, !dict_mem_In. reflexivity. }
  assert (Hmem : forall k, PyDict.mem body k = PyDict.mem old k || PyDict.mem new k).
  { intros k. destruct (in_dec string_dec k keys) as [Hi|Hni].
    - destruct (merge_value_ok L old new k Ho Hn) as [v Hv].
      pose proof (proj1 (Hk k) Hi) as Hg. rewrite Hv in Hg. apply getitem_Ok in Hg.
      unfold PyDict.mem at 1. rewrite Hg. symmetry. apply orb_true_iff. now apply Hin.
    - pose proof (proj2 (Hk k) Hni) as Hg. simpl in Hg.
      unfold PyDict.mem at 1. rewrite Hg. symmetry. apply orb_false_iff.
      split; apply not_true_is_false; intros H; apply Hni, Hin; auto. }
  exists body. split; [exact Hb | split; [| split; [exact Hmem |]]].
  - destruct (merge_value_id L old new Ho) as [v [Hv Hm]]. rewrite Hv.
    apply getitem_Ok. rewrite <- Hm. apply Hk, Hin. left.
    unfold PyDict.mem. now rewrite Hv.
  - intros k Hne Hm. apply getitem_Ok.
    rewrite <- (merge_value_list L old new k Ho Hn Hne). apply Hk, Hin.
    rewrite Hmem in Hm. now apply orb_true_iff.
Qed.

(** C3. For two documents with the same ["@id"], [merge_bodies] returns a
    document with the ["@id"] of the old one and the keys of both; every
    other key holds the list of the old document followed by the values of
    the new one that the old one lacks, each once, and the list has no
    duplicate. Merging a document with itself gives a document equal to it
    (equal as dictionaries: the same value under every key). *)
Theorem merge_bodies_union (L : PyLib) (old new : Doc) :
  wf_doc old = true -> wf_doc new = true ->
  PyDict.get old "@id" = PyDict.get new "@id" ->
  (exists body,
      Indexer.merge_bodies L old new = Ok body /\
      PyDict.get body "@id" = PyDict.get old "@id" /\
      (forall k, PyDict.mem body k = PyDict.mem old k || PyDict.mem new k) /\
      (forall k, String.eqb k "@id" = false -> PyDict.mem body k = true ->
         exists added,
           PyDict.get body k = Some (VList (doc_list old k ++ added)) /\
           NoDup (doc_list old k ++ added) /\
           (forall x, In x added <-> In x (doc_list new k) /\ ~ In x (doc_list old k)))) /\
  (exists same,
      Indexer.merge_bodies L old old = Ok same /\
      forall k, PyDict.get same k = PyDict.get old k).
Proof.
  intros Ho Hn _. split.
  - destruct (merge_bodies_get L old new (wf_doc_shape _ Ho) (wf_doc_shape _ Hn))
      as [body [Hb [Hid [Hmem Hget]]]].
    exists body. split; [exact Hb | split; [exact Hid | split; [exact Hmem |]]].
    intros k Hne Hm.
    exists (set_difference L (doc_list new k) (doc_list old k)).
    split; [now apply Hget | split].
    + apply NoDup_app.
      * now apply wf_doc_list.
      * apply set_difference_NoDup.
      * intros x Hx Hx'. apply set_difference_In in Hx'. now destruct Hx'.
    + intros x. apply set_difference_In.
  - destruct (merge_bodies_get L old old (wf_doc_shape _ Ho) (wf_doc_shape _ Ho))
      as [same [Hb [Hid [Hmem Hget]]]].
    exists same. split; [exact Hb |]. intros k.
    destruct (String.eqb k "@id") eqn:Hne.
    + apply String.eqb_eq in Hne. now subst k.
    + destruct (PyDict.mem same k) eqn:Hm.
      * rewrite (Hget k Hne Hm), set_difference_self, app_nil_r.
        rewrite Hmem, orb_diag in Hm. unfold PyDict.mem in Hm.
        destruct (wf_doc_list old k Ho Hne) as [[Hg|Hg] _]; [| now rewrite Hg].
        rewrite Hg in Hm. discriminate.
      * pose proof Hm as Hm'. rewrite Hmem, orb_diag in Hm'.
        unfold PyDict.mem in Hm, Hm'.
        destruct (PyDict.get same k); [discriminate |].
        destruct (PyDict.get old k); [discriminate | reflexivity].
Qed.

Lemma merge_bodies_union_witness :
  Indexer.merge_bodies SampleLib.lib Sample.old_doc Sample.new_doc
  = Ok [("@id", VStr "http://e/1"); ("name", VList ["1"; "2"; "3"]);
        ("age", VList ["7"])] /\
  exists same,
    Indexer.merge_bodies SampleLib.lib Sample.old_doc Sample.old_doc = Ok same /\
    forall k, PyDict.get same k = PyDict.get Sample.old_doc k.
Proof.
  split; [vm_compute; reflexivity |].
  apply (proj2 (merge_bodies_union SampleLib.lib Sample.old_doc Sample.new_doc
                  eq_refl eq_refl eq_refl)).
Defined.

(** ** Rows of one entity *)

Lemma evict_ok {V : Type} (C : Z) (l : PyDict.t V) :
  (1 <= C)%Z -> exists l', SlidingWindowDictionary.evict C l = Ok l'.
Proof.
  intros HC. induction l as [|kv l IH].
  - simpl. destruct (Z.geb 0 C) eqn:E; [| eauto].
    rewrite Z.geb_leb in E. apply Z.leb_le in E. lia.
  - cbn [SlidingWindowDictionary.evict].
    destruct (Z.geb (Z.of_nat (List.length (kv :: l))) C); [exact IH | eauto].
Qed.

Lemma setitem_resident {V : Type} (d : SlidingWindowDictionary.t V) (k : string) (v : V) :
  (1 <= SlidingWindowDictionary.max_size d)%Z ->
  exists d',
    SlidingWindowDictionary.setitem d k v = Ok d' /\
    SlidingWindowDictionary.max_size d' = SlidingWindowDictionary.max_size d /\
    SlidingWindowDictionary.get d' k = Some v.
Proof.
  intros HC. unfold SlidingWindowDictionary.setitem.
  destruct (evict_ok _ (SlidingWindowDictionary.items d) HC) as [l' ->]. simpl.
  eexists. split; [reflexivity | split; [reflexivity |]].
  unfold SlidingWindowDictionary.get. simpl. apply dict_get_set_eq.
Qed.

Lemma doc_shape_set (d : Doc) (k : string) (l : list string) :
  doc_shape d -> doc_shape (PyDict.set d k (VList l)).
Proof.
  intros [Hm Hs]. split.
  - rewrite dict_mem_set, Hm. apply orb_true_r.
  - intros k' v Hg Hk'. destruct (string_dec k k') as [->|Hne].
    + rewrite dict_get_set_eq in Hg. injection Hg as <-. eauto.
    + rewrite dict_get_set_neq in Hg by assumption. eauto.
Qed.

Lemma project_vars_shape (props : PyDict.t Property) (node : Row) (vars : list string) :
  forall body params b p,
    doc_shape body ->
    Indexer.project_vars props node vars body params = Ok (b, p) ->
    doc_shape b.
Proof.
  induction vars as [|var vars IH]; intros body params b p Hs H.
  - simpl in H. now injection H as <- _.
  - destruct (reserved var) eqn:Hr.
    + unfold reserved in Hr. simpl in H. rewrite Hr in H. eapply IH; eassumption.
    + rewrite project_vars_cons in H by assumption. inv_bind H.
      eapply IH; [| eassumption]. now apply doc_shape_set.
Qed.

Lemma row_body_shape (st : Indexer.t) (uri : string) (node : Row) (b : Doc) (p : Params) :
  Indexer.row_body st uri node = Ok (b, p) -> doc_shape b.
Proof.
  unfold Indexer.row_body. intros H. inv_bind H. destruct a as [types params].
  assert (H0 : doc_shape [("@id", VStr uri)]).
  { split; [reflexivity |]. intros k v Hg Hk. cbn [PyDict.get] in Hg.
    rewrite String.eqb_sym, Hk in Hg. discriminate. }
  eapply project_vars_shape; [| eassumption].
  destruct types; [exact H0 | now apply doc_shape_set].
Qed.

Lemma entity_uri_class (L : PyLib) (st : Indexer.t) (node : Row) (c : bool * string) :
  id_class L node = Some c ->
  Indexer.entity_uri L st node =
  if fst c then Ok (snd c, st) else Indexer.skolemize L st (snd c).
Proof.
  unfold id_class, Indexer.entity_uri, PyDict.getitem, Indexer.unescape.
  destruct (PyDict.get node ID) as [[b|]|]; try discriminate.
  destruct (b_value b) as [v|] eqn:Hv; [| discriminate].
  destruct (String.eqb (b_type b) "uri") eqn:E; intros H; injection H as <-; simpl;
    now rewrite E, Hv; simpl; rewrite ?E.
Qed.

Lemma set_mem_add (x : string) (s : list string) :
  Indexer.set_mem x (Indexer.set_add x s) = true.
Proof.
  unfold Indexer.set_add. destruct (Indexer.set_mem x s) eqn:E; [exact E |].
  simpl. now rewrite String.eqb_refl.
Qed.

Lemma doc_list_absent (d : Doc) (k : string) :
  PyDict.mem d k = false -> doc_list d k = [].
Proof.
  unfold PyDict.mem, doc_list. now destruct (PyDict.get d k).
Qed.

(** The merged document has the shape of a document, the keys of both and,
    under each, the values of both. *)
Lemma merge_bodies_contents (L : PyLib) (old new body : Doc) :
  doc_shape old -> doc_shape new ->
  Indexer.merge_bodies L old new = Ok body ->
  doc_shape body /\
  forall k, String.eqb k "@id" = false ->
    PyDict.mem body k = PyDict.mem old k || PyDict.mem new k /\
    forall x, In x (doc_list body k) <-> In x (doc_list old k) \/ In x (doc_list new k).
Proof.
  intros Ho Hn H.
  destruct (merge_bodies_get L old new Ho Hn) as [body' [Hb [Hid [Hmem Hget]]]].
  rewrite H in Hb. injection Hb as <-.
  split.
  - split.
    + rewrite Hmem. destruct Ho as [-> _]. reflexivity.
    + intros k v Hg Hk.
      assert (Hm : PyDict.mem body k = true) by (unfold PyDict.mem; now rewrite Hg).
      rewrite (Hget k Hk Hm) in Hg. injection Hg as <-. eauto.
  - intros k Hk. split; [apply Hmem |]. intros x.
    destruct (PyDict.mem body k) eqn:Hm.
    + unfold doc_list at 1. rewrite (Hget k Hk Hm), in_app_iff, set_difference_In.
      destruct (in_dec string_dec x (doc_list old k)); tauto.
    + rewrite (doc_list_absent _ _ Hm). rewrite Hmem in Hm.
      apply orb_false_iff in Hm. destruct Hm as [H1 H2].
      rewrite (doc_list_absent _ _ H1), (doc_list_absent _ _ H2). simpl. tauto.
Qed.

(** The first row of an entity that was not seen puts its document in
    the cache. *)
Lemma resident_first (L : PyLib) (st : Indexer.t) (c : bool * string) (r : Row) :
  (1 <= SlidingWindowDictionary.max_size (Indexer.cache st))%Z ->
  id_class L r = Some c ->
  Indexer.set_mem (uuid5 L (resolved L st c)) (Indexer.indexed st) = false ->
  is_ok (Indexer.row_body st (resolved L st c) r) = true ->
  exists b st',
    Indexer.binding_as_doc L st r
    = Ok (MsgIndex (entity_target st (resolved L st c)) b, st') /\
    resident L st c (resolved L st c) [r] st' b.
Proof.
  intros HC Hc Hnew Hok. set (uri := resolved L st c) in *.
  destruct (Indexer.row_body st uri r) as [[b p]|e] eqn:Hb; [| discriminate].
  pose proof (row_body_shape _ _ _ _ _ Hb) as Hshape.
  unfold Indexer.binding_as_doc.
  set (st0 := Indexer.with_count st (Indexer.count st + 1)).
  assert (He : exists st1,
             Indexer.entity_uri L st0 r = Ok (uri, st1) /\
             Indexer.conf st1 = Indexer.conf st /\
             Indexer.properties st1 = Indexer.properties st /\
             Indexer.index st1 = Indexer.index st /\
             Indexer.doc_type st1 = Indexer.doc_type st /\
             Indexer.cache st1 = Indexer.cache st /\
             Indexer.indexed st1 = Indexer.indexed st /\
             (if fst c then uri = snd c
              else exists u, PyDict.get (Indexer.blanknodes st1) (snd c) = Some u /\
                             uri = ("urn:uuid:" ++ u)%string)).
  { rewrite (entity_uri_class L st0 r c Hc). unfold uri, resolved.
    destruct c as [[|] key]; simpl.
    - exists st0. repeat split.
    - rewrite skolemize_total. unfold PyDict.mem. simpl.
      destruct (PyDict.get (Indexer.blanknodes st) key) as [u|] eqn:Hk.
      + exists st0. repeat split. simpl. eauto.
      + eexists. split; [reflexivity |]. repeat split. simpl.
        rewrite dict_get_set_eq. eauto. }
  destruct He as [st1 [-> [H1 [H2 [H3 [H4 [H5 [H6 H7]]]]]]]]. simpl.
  rewrite (row_body_static st st1 uri r H1 H2), Hb. simpl.
  unfold Indexer.reconcile. rewrite H6, Hnew. simpl. rewrite H5.
  destruct (setitem_resident (Indexer.cache st) (uuid5 L uri) b HC)
    as [c' [-> [Hmax Hget]]]. simpl.
  exists b. eexists. split.
  - unfold entity_target. now rewrite H3, H4.
  - unfold resident. simpl. rewrite Hmax, Hget, set_mem_add.
    repeat (split; [assumption || reflexivity |]).
    intros k Hk. split.
    + split.
      * intros Hm. exists r, b, p. split; [now left | split; assumption].
      * intros [r' [b' [p' [[<-|[]] [Hb' Hm]]]]]. rewrite Hb in Hb'.
        now injection Hb' as <- _.
    + intros x. split.
      * intros Hx. exists r, b, p. split; [now left | split; assumption].
      * intros [r' [b' [p' [[<-|[]] [Hb' Hx]]]]]. rewrite Hb in Hb'.
        now injection Hb' as <- _.
Qed.

(** A further row of an entity that is in the cache merges its document
    into the one the cache holds. *)
Lemma resident_step (L : PyLib) (st sti : Indexer.t) (c : bool * string)
    (uri : string) (done : list Row) (d : Doc) (r : Row) :
  resident L st c uri done sti d ->
  id_class L r = Some c ->
  is_ok (Indexer.row_body st uri r) = true ->
  exists d' st',
    Indexer.binding_as_doc L sti r = Ok (MsgIndex (entity_target st uri) d', st') /\
    resident L st c uri (done ++ [r]) st' d'.
Proof.
  intros [H1 [H2 [H3 [H4 [HC [Hcls [Hseen [Hget [Hshape Hunion]]]]]]]]] Hc Hok.
  destruct (Indexer.row_body st uri r) as [[b p]|e] eqn:Hb; [| discriminate].
  pose proof (row_body_shape _ _ _ _ _ Hb) as Hbs.
  unfold Indexer.binding_as_doc.
  set (st0 := Indexer.with_count sti (Indexer.count sti + 1)).
  assert (He : Indexer.entity_uri L st0 r = Ok (uri, st0)).
  { rewrite (entity_uri_class L st0 r c Hc). destruct c as [[|] key]; simpl in *.
    - now subst uri.
    - destruct Hcls as [u [Hu ->]]. rewrite skolemize_total.
      unfold PyDict.mem. simpl. now rewrite Hu. }
  rewrite He. simpl.
  rewrite (row_body_static st st0 uri r H1 H2), Hb. simpl.
  unfold Indexer.reconcile. simpl. rewrite Hseen, Hget. simpl.
  assert (Hne : d <> []).
  { destruct Hshape as [Hm _]. intros ->. discriminate. }
  destruct d as [|kv d0]; [contradiction |]. set (d := kv :: d0) in *.
  destruct (merge_bodies_get L d b Hshape Hbs) as [d' [Hm _]].
  rewrite Hm. simpl.
  destruct (merge_bodies_contents L d b d' Hshape Hbs Hm) as [Hshape' Hcontents].
  destruct (setitem_resident (Indexer.cache sti) (uuid5 L uri) d' HC)
    as [c' [-> [Hmax Hget']]]. simpl.
  exists d'. eexists. split.
  - unfold entity_target. now rewrite H3, H4.
  - unfold resident. simpl. rewrite Hmax, Hget', Hseen.
    repeat (split; [assumption || reflexivity |]).
    intros k Hk. destruct (Hunion k Hk) as [Hkeys Hvals].
    destruct (Hcontents k Hk) as [Hmem Hin]. split.
    + rewrite Hmem, orb_true_iff, Hkeys. split.
      * intros [[r' [b' [p' [Hr' Hrest]]]]|Hmb].
        -- exists r', b', p'. split; [apply in_or_app; now left | exact Hrest].
        -- exists r, b, p. split; [apply in_or_app; right; now left | now split].
      * intros [r' [b' [p' [Hr' [Hb' Hm']]]]]. apply in_app_or in Hr'.
        destruct Hr' as [Hr'|[<-|[]]].
        -- left. exists r', b', p'. now repeat split.
        -- right. rewrite Hb in Hb'. now injection Hb' as <- _.
    + intros x. rewrite Hin, Hvals. split.
      * intros [[r' [b' [p' [Hr' Hrest]]]]|Hmb].
        -- exists r', b', p'. split; [apply in_or_app; now left | exact Hrest].
        -- exists r, b, p. split; [apply in_or_app; right; now left | now split].
      * intros [r' [b' [p' [Hr' [Hb' Hm']]]]]. apply in_app_or in Hr'.
        destruct Hr' as [Hr'|[<-|[]]].
        -- left. exists r', b', p'. now repeat split.
        -- right. rewrite Hb in Hb'. now injection Hb' as <- _.
Qed.

Lemma last_cons_default {A : Type} (x : A) (l : list A) (a b : A) :
  last (x :: l) a = last (x :: l) b.
Proof.
  revert x. induction l as [|y l IH]; intros x; [reflexivity |].
  change (last (y :: l) a = last (y :: l) b). apply IH.
Qed.

Lemma resident_run (L : PyLib) (st : Indexer.t) (c : bool * string) (uri : string)
    (rows : list Row) :
  Forall (fun r => id_class L r = Some c) rows ->
  Forall (fun r => is_ok (Indexer.row_body st uri r) = true) rows ->
  forall done sti d,
    resident L st c uri done sti d ->
    exists msgs st' d',
      Indexer.read_bindings L sti rows = Ok (msgs, st') /\
      resident L st c uri (done ++ rows) st' d' /\
      Forall (fun m => exists doc, m = MsgIndex (entity_target st uri) doc) msgs /\
      last msgs (MsgIndex (entity_target st uri) d)
      = MsgIndex (entity_target st uri) d'.
Proof.
  induction rows as [|r rows IH]; intros Hc Hok done sti d Hres.
  - exists [], sti, d. simpl. rewrite app_nil_r. auto.
  - pose proof (Forall_inv Hc) as Hc1. pose proof (Forall_inv_tail Hc) as Hc2.
    pose proof (Forall_inv Hok) as Hok1. pose proof (Forall_inv_tail Hok) as Hok2.
    simpl in Hc1, Hok1.
    destruct (resident_step L st sti c uri done d r Hres Hc1 Hok1)
      as [d1 [st1 [Hb Hres1]]].
    destruct (IH Hc2 Hok2 _ _ _ Hres1) as [msgs [st' [d' [Hrun [Hres' [Hall Hlast]]]]]].
    exists (MsgIndex (entity_target st uri) d1 :: msgs), st', d'.
    simpl. rewrite Hb. simpl. rewrite Hrun. simpl.
    split; [reflexivity | split; [| split]].
    + now rewrite <- app_assoc in Hres'.
    + constructor; [eauto | exact Hall].
    + destruct msgs as [|m msgs]; [simpl in *; exact Hlast |].
      rewrite <- Hlast. change (last (?a :: m :: msgs) ?x) with (last (m :: msgs) x).
      apply last_cons_default.
Qed.

Lemma contributes_perm (st : Indexer.t) (uri : string) (rows rows' : list Row)
    (k : string) :
  Permutation rows rows' ->
  (contributes_key st uri rows' k <-> contributes_key st uri rows k) /\
  (forall x, contributes st uri rows' k x <-> contributes st uri rows k x).
Proof.
  intros Hp. unfold contributes_key, contributes.
  split; [| intros x]; split; intros [r [b [q [Hr Hrest]]]]; exists r, b, q;
    (split; [| exact Hrest]).
  - eapply Permutation_in; [apply Permutation_sym |]; eassumption.
  - eapply Permutation_in; eassumption.
  - eapply Permutation_in; [apply Permutation_sym |]; eassumption.
  - eapply Permutation_in; eassumption.
Qed.

(** Rows of one entity that was not seen, read in any order by an indexer
    whose cache has room for one entry at least: every row is answered by a
    replacement of the document, and the last one carries the document the
    cache holds at the end, with the keys and the values of the documents
    of the rows. *)
Lemma entity_rows_alone_any_order (L : PyLib) (st : Indexer.t) (c : bool * string)
    (rows rows' : list Row) :
  (1 <= SlidingWindowDictionary.max_size (Indexer.cache st))%Z ->
  rows <> [] ->
  Forall (fun r => id_class L r = Some c) rows ->
  Forall (fun r => is_ok (Indexer.row_body st (resolved L st c) r) = true) rows ->
  Indexer.set_mem (uuid5 L (resolved L st c)) (Indexer.indexed st) = false ->
  Permutation rows rows' ->
  exists msgs st' d,
    Indexer.read_bindings L st rows' = Ok (msgs, st') /\
    SlidingWindowDictionary.get (Indexer.cache st') (uuid5 L (resolved L st c))
    = Some d /\
    Forall (fun m => exists doc,
                m = MsgIndex (entity_target st (resolved L st c)) doc) msgs /\
    last msgs (MsgIndex (entity_target st (resolved L st c)) [])
    = MsgIndex (entity_target st (resolved L st c)) d /\
    forall k, String.eqb k "@id" = false ->
      (PyDict.mem d k = true <-> contributes_key st (resolved L st c) rows k) /\
      (forall x, In x (doc_list d k) <-> contributes st (resolved L st c) rows k x).
Proof.
  intros HC Hne Hc Hok Hnew Hp. set (uri := resolved L st c) in *.
  apply (Permutation_Forall Hp) in Hc. apply (Permutation_Forall Hp) in Hok.
  destruct rows' as [|r0 rest].
  { apply Permutation_sym, Permutation_nil in Hp. contradiction. }
  pose proof (Forall_inv Hc) as Hc0. pose proof (Forall_inv Hok) as Hok0.
  simpl in Hc0, Hok0.
  destruct (resident_first L st c r0 HC Hc0 Hnew Hok0) as [b [st1 [Hb Hres]]].
  fold uri in Hb, Hres.
  destruct (resident_run L st c uri rest (Forall_inv_tail Hc) (Forall_inv_tail Hok)
              _ _ _ Hres) as [msgs [st' [d [Hrun [Hres' [Hall Hlast]]]]]].
  exists (MsgIndex (entity_target st uri) b :: msgs), st', d.
  simpl Indexer.read_bindings. rewrite Hb. simpl. rewrite Hrun. simpl.
  destruct Hres' as [_ [_ [_ [_ [_ [_ [_ [Hget [_ Hunion]]]]]]]]].
  split; [reflexivity | split; [exact Hget | split; [| split]]].
  - constructor; [eauto | exact Hall].
  - destruct msgs as [|m msgs]; [exact Hlast |].
    rewrite <- Hlast. change (last (?a :: m :: msgs) ?x) with (last (m :: msgs) x).
    apply last_cons_default.
  - intros k Hk. destruct (Hunion k Hk) as [Hkeys Hvals].
    destruct (contributes_perm st uri rows (r0 :: rest) k Hp) as [Pk Pv].
    simpl in Hkeys, Hvals. split.
    + rewrite Hkeys. apply Pk.
    + intros x. rewrite Hvals. apply Pv.
Qed.

Example entity_rows_alone_reversed :
  is_ok (Indexer.read_bindings SampleLib.lib Sample.ready (rev Sample.entity_rows))
  = true /\
  SlidingWindowDictionary.get
    (Indexer.cache (Sample.indexer_after (rev Sample.entity_rows)))
    (uuid5 SampleLib.lib "http://e/1")
  = Some [("a:label", VList ["L"]); ("@id", VStr "http://e/1");
          ("@type", VList ["a:T"]); ("name", VList ["2"; "1"])].
Proof. split; vm_compute; reflexivity. Qed.

(** *** Rows of other entities in between *)

Lemma is_class_true (L : PyLib) (c : bool * string) (r : Row) :
  is_class L c r = true <-> id_class L r = Some c.
Proof.
  unfold is_class. destruct (id_class L r) as [[b k]|]; [| split; discriminate].
  destruct c as [b' k']. simpl. rewrite andb_true_iff, Bool.eqb_true_iff, String.eqb_eq.
  split; [intros [-> ->]; reflexivity | intros H; injection H as -> ->; auto].
Qed.

Lemma entity_uri_mono (L : PyLib) (st st1 : Indexer.t) (node : Row) (u : string) :
  Indexer.entity_uri L st node = Ok (u, st1) ->
  forall k x, PyDict.get (Indexer.blanknodes st) k = Some x ->
              PyDict.get (Indexer.blanknodes st1) k = Some x.
Proof.
  unfold Indexer.entity_uri. intros H k x Hx. inv_bind H.
  destruct a as [idb|]; [| discriminate].
  destruct (String.eqb (b_type idb) "uri").
  - inv_bind H. now injection H as _ <-.
  - destruct (b_value idb) as [v|]; [| discriminate].
    rewrite skolemize_total in H. unfold PyDict.mem in H.
    destruct (PyDict.get (Indexer.blanknodes st) v) as [y|] eqn:Hv.
    + now injection H as _ <-.
    + injection H as _ <-. simpl. rewrite dict_get_set_neq; [exact Hx |].
      intros ->. congruence.
Qed.

Lemma set_mem_add_mono (x y : string) (s : list string) :
  Indexer.set_mem x s = true -> Indexer.set_mem x (Indexer.set_add y s) = true.
Proof.
  intros H. unfold Indexer.set_add. destruct (Indexer.set_mem y s); [exact H |].
  simpl. rewrite H. apply orb_true_r.
Qed.

Lemma dict_keys_skipn {V : Type} (n : nat) (l : PyDict.t V) :
  NoDup (PyDict.keys l) -> NoDup (PyDict.keys (skipn n l)).
Proof.
  revert l. induction n as [|n IH]; intros l H; [exact H |].
  destruct l as [|kv l]; [exact H |]. simpl. apply IH.
  unfold PyDict.keys in H. simpl in H. now apply NoDup_cons_iff in H.
Qed.

Lemma dict_get_skipn {V : Type} (n : nat) (l : PyDict.t V) (k : string) :
  NoDup (PyDict.keys l) ->
  PyDict.get (skipn n l) k = None \/ PyDict.get (skipn n l) k = PyDict.get l k.
Proof.
  revert l. induction n as [|n IH]; intros l H; [now right |].
  destruct l as [|[k' v'] l]; [now right |].
  unfold PyDict.keys in H. simpl in H. apply NoDup_cons_iff in H. destruct H as [Hk' H].
  simpl skipn. destruct (IH l H) as [Hn|He]; [now left |].
  simpl PyDict.get. destruct (String.eqb k' k) eqn:E; [| now right].
  apply String.eqb_eq in E. subst k'. left. rewrite He. now apply dict_get_None.
Qed.

(** Storing a key leaves every other key of the cache as it was, or
    without an entry. *)
Lemma setitem_other {V : Type} (d d' : SlidingWindowDictionary.t V) (k : string) (v : V) :
  NoDup (PyDict.keys (SlidingWindowDictionary.items d)) ->
  SlidingWindowDictionary.setitem d k v = Ok d' ->
  NoDup (PyDict.keys (SlidingWindowDictionary.items d')) /\
  SlidingWindowDictionary.get d' k = Some v /\
  forall k', k <> k' ->
    SlidingWindowDictionary.get d' k' = None \/
    SlidingWindowDictionary.get d' k' = SlidingWindowDictionary.get d k'.
Proof.
  intros Hnd H. apply setitem_inv in H. destruct H as [_ [_ [n Hn]]].
  unfold SlidingWindowDictionary.get. rewrite Hn. split; [| split].
  - now apply dict_keys_NoDup_set, dict_keys_skipn.
  - apply dict_get_set_eq.
  - intros k' Hne. rewrite dict_get_set_neq by assumption.
    now apply dict_get_skipn.
Qed.

(** The three answers of [binding_as_doc] to a document: the entity was
    not seen; it was seen and the cache holds its document; it was seen and
    the cache holds nothing for it. *)
Lemma reconcile_dispatch (L : PyLib) (st st1 : Indexer.t) (uri : string)
    (body : Doc) (params : Params) (m : Msg) :
  Indexer.reconcile L st uri body params = Ok (m, st1) ->
  msg_id m = uri /\
  Indexer.conf st1 = Indexer.conf st /\
  Indexer.properties st1 = Indexer.properties st /\
  Indexer.index st1 = Indexer.index st /\
  Indexer.doc_type st1 = Indexer.doc_type st /\
  Indexer.blanknodes st1 = Indexer.blanknodes st /\
  (forall x, Indexer.set_mem x (Indexer.indexed st) = true ->
             Indexer.set_mem x (Indexer.indexed st1) = true) /\
  ((Indexer.set_mem (uuid5 L uri) (Indexer.indexed st) = false /\
    m = MsgIndex (entity_target st uri) body /\
    Indexer.set_mem (uuid5 L uri) (Indexer.indexed st1) = true /\
    SlidingWindowDictionary.setitem (Indexer.cache st) (uuid5 L uri) body
    = Ok (Indexer.cache st1)) \/
   (Indexer.set_mem (uuid5 L uri) (Indexer.indexed st) = true /\
    exists cached body',
      SlidingWindowDictionary.get (Indexer.cache st) (uuid5 L uri) = Some cached /\
      Indexer.merge_bodies L cached body = Ok body' /\
      m = MsgIndex (entity_target st uri) body' /\
      SlidingWindowDictionary.setitem (Indexer.cache st) (uuid5 L uri) body'
      = Ok (Indexer.cache st1)) \/
   (Indexer.set_mem (uuid5 L uri) (Indexer.indexed st) = true /\
    (SlidingWindowDictionary.get (Indexer.cache st) (uuid5 L uri) = None \/
     SlidingWindowDictionary.get (Indexer.cache st) (uuid5 L uri) = Some []) /\
    st1 = st /\
    exists script,
      Indexer.update_script_for st body = Ok script /\
      m = MsgUpdate (entity_target st uri) script params body)).
Proof.
  unfold Indexer.reconcile. intros H.
  destruct (Indexer.set_mem (uuid5 L uri) (Indexer.indexed st)) eqn:Hseen; simpl in H.
  - destruct (SlidingWindowDictionary.get (Indexer.cache st) (uuid5 L uri))
      as [[|kv cached]|] eqn:Hget.
    + inv_bind H. injection H as <- <-. repeat (split; [reflexivity || auto |]).
      right. right. split; [reflexivity |]. split; [now right |]. eauto.
    + inv_bind H. inv_bind H. injection H as <- <-. simpl.
      repeat (split; [reflexivity || auto |]).
      right. left. split; [reflexivity |]. exists (kv :: cached), a. auto.
    + inv_bind H. injection H as <- <-. repeat (split; [reflexivity || auto |]).
      right. right. split; [reflexivity |]. split; [now left |]. eauto.
  - inv_bind H. injection H as <- <-. simpl.
    repeat (split; [reflexivity || auto using set_mem_add_mono |]).
    left. split; [reflexivity |]. split; [reflexivity |].
    split; [apply set_mem_add | exact Hr].
Qed.

Lemma entity_uri_first (L : PyLib) (st : Indexer.t) (c : bool * string) (r : Row)
    (n : Z) :
  id_class L r = Some c ->
  exists st1,
    Indexer.entity_uri L (Indexer.with_count st n) r = Ok (resolved L st c, st1) /\
    Indexer.conf st1 = Indexer.conf st /\
    Indexer.properties st1 = Indexer.properties st /\
    Indexer.index st1 = Indexer.index st /\
    Indexer.doc_type st1 = Indexer.doc_type st /\
    Indexer.cache st1 = Indexer.cache st /\
    Indexer.indexed st1 = Indexer.indexed st /\
    (if fst c then resolved L st c = snd c
     else exists u, PyDict.get (Indexer.blanknodes st1) (snd c) = Some u /\
                    resolved L st c = ("urn:uuid:" ++ u)%string).
Proof.
  intros Hc. rewrite (entity_uri_class L _ r c Hc). unfold resolved.
  destruct c as [[|] key]; simpl.
  - eexists. repeat split.
  - rewrite skolemize_total. unfold PyDict.mem. simpl.
    destruct (PyDict.get (Indexer.blanknodes st) key) as [u|] eqn:Hk.
    + eexists. repeat split. simpl. eauto.
    + eexists. split; [reflexivity |]. repeat split. simpl.
      rewrite dict_get_set_eq. eauto.
Qed.

Lemma contributes_single (st : Indexer.t) (uri : string) (r : Row) (b : Doc)
    (p : Params) (k : string) :
  Indexer.row_body st uri r = Ok (b, p) ->
  (PyDict.mem b k = true <-> contributes_key st uri [r] k) /\
  (forall x, In x (doc_list b k) <-> contributes st uri [r] k x).
Proof.
  intros Hb. unfold contributes_key, contributes. split; [| intros x]; split.
  - intros H. exists r, b, p. split; [now left | now split].
  - intros [r' [b' [p' [[<-|[]] [Hb' H]]]]]. rewrite Hb in Hb'. now injection Hb' as <- _.
  - intros H. exists r, b, p. split; [now left | now split].
  - intros [r' [b' [p' [[<-|[]] [Hb' H]]]]]. rewrite Hb in Hb'. now injection Hb' as <- _.
Qed.

Lemma contributes_snoc (st : Indexer.t) (uri : string) (done : list Row) (r : Row)
    (b : Doc) (p : Params) (k : string) :
  Indexer.row_body st uri r = Ok (b, p) ->
  (contributes_key st uri (done ++ [r]) k <->
   contributes_key st uri done k \/ PyDict.mem b k = true) /\
  (forall x, contributes st uri (done ++ [r]) k x <->
             contributes st uri done k x \/ In x (doc_list b k)).
Proof.
  intros Hb. unfold contributes_key, contributes. split; [| intros x]; split.
  - intros [r' [b' [p' [Hr' [Hb' H]]]]]. apply in_app_or in Hr'.
    destruct Hr' as [Hr'|[<-|[]]].
    + left. exists r', b', p'. now repeat split.
    + right. rewrite Hb in Hb'. now injection Hb' as <- _.
  - intros [[r' [b' [p' [Hr' Hrest]]]]|H].
    + exists r', b', p'. split; [apply in_or_app; now left | exact Hrest].
    + exists r, b, p. split; [apply in_or_app; right; now left | now split].
  - intros [r' [b' [p' [Hr' [Hb' H]]]]]. apply in_app_or in Hr'.
    destruct Hr' as [Hr'|[<-|[]]].
    + left. exists r', b', p'. now repeat split.
    + right. rewrite Hb in Hb'. now injection Hb' as <- _.
  - intros [[r' [b' [p' [Hr' Hrest]]]]|H].
    + exists r', b', p'. split; [apply in_or_app; now left | exact Hrest].
    + exists r, b, p. split; [apply in_or_app; right; now left | now split].
Qed.

Lemma tracked_first (L : PyLib) (st st1 : Indexer.t) (c : bool * string) (r0 : Row)
    (m : Msg) :
  NoDup (PyDict.keys (SlidingWindowDictionary.items (Indexer.cache st))) ->
  id_class L r0 = Some c ->
  Indexer.set_mem (uuid5 L (resolved L st c)) (Indexer.indexed st) = false ->
  Indexer.binding_as_doc L st r0 = Ok (m, st1) ->
  exists b,
    m = MsgIndex (entity_target st (resolved L st c)) b /\
    tracked L st c [r0] st1 b.
Proof.
  intros Hnd Hc Hnew H. unfold Indexer.binding_as_doc in H.
  destruct (entity_uri_first L st c r0 (Indexer.count st + 1) Hc)
    as [st0 [He [H1 [H2 [H3 [H4 [H5 [H6 H7]]]]]]]].
  rewrite He in H. simpl in H. inv_bind H. destruct a as [b p].
  rewrite (row_body_static st st0 _ r0 H1 H2) in Hr.
  apply reconcile_dispatch in H.
  destruct H as [_ [G1 [G2 [G3 [G4 [G5 [_ Hcase]]]]]]].
  rewrite H6 in Hcase.
  destruct Hcase as [[_ [-> [Hseen Hset]]]|[[Habs _]|[Habs _]]]; try congruence.
  exists b. split; [unfold entity_target; now rewrite H3, H4 |].
  rewrite H5 in Hset. destruct (setitem_other _ _ _ _ Hnd Hset) as [Hnd' [Hget _]].
  unfold tracked. rewrite G1, G2, G3, G4, G5, H1, H2, H3, H4.
  do 8 (split; [solve [assumption | reflexivity | now right] |]).
  split; [eapply row_body_shape; eassumption |].
  intros k _. now apply (contributes_single st _ r0 b p k).
Qed.

Lemma tracked_entity_row (L : PyLib) (st sti st1 : Indexer.t) (c : bool * string)
    (done : list Row) (d : Doc) (r : Row) (m : Msg) :
  tracked L st c done sti d ->
  id_class L r = Some c ->
  Indexer.binding_as_doc L sti r = Ok (m, st1) ->
  is_replace m = true ->
  exists d',
    m = MsgIndex (entity_target st (resolved L st c)) d' /\
    tracked L st c (done ++ [r]) st1 d'.
Proof.
  intros [H1 [H2 [H3 [H4 [Hnd [Hcls [Hseen [Hcache [Hshape Hunion]]]]]]]]] Hc H Hm.
  set (uri := resolved L st c) in *.
  unfold Indexer.binding_as_doc in H.
  set (st0 := Indexer.with_count sti (Indexer.count sti + 1)) in H.
  assert (He : Indexer.entity_uri L st0 r = Ok (uri, st0)).
  { rewrite (entity_uri_class L st0 r c Hc). destruct c as [[|] key]; simpl in *.
    - now rewrite Hcls.
    - destruct Hcls as [u [Hu ->]]. rewrite skolemize_total.
      unfold PyDict.mem. simpl. now rewrite Hu. }
  rewrite He in H. simpl in H. inv_bind H. destruct a as [b p].
  rewrite (row_body_static st st0 uri r H1 H2) in Hr.
  pose proof (row_body_shape _ _ _ _ _ Hr) as Hbs.
  apply reconcile_dispatch in H.
  destruct H as [_ [G1 [G2 [G3 [G4 [G5 [Gseen Hcase]]]]]]]. simpl in *.
  destruct Hcase as [[Habs _]|[[_ [cached [body' [Hget [Hmerge [-> Hset]]]]]]|[_ [_ [_ [sc [_ ->]]]]]]];
    [congruence | | discriminate].
  assert (cached = d) by (destruct Hcache as [Hn|Hs]; congruence). subst cached.
  destruct (merge_bodies_contents L d b body' Hshape Hbs Hmerge) as [Hshape' Hcontents].
  destruct (setitem_other _ _ _ _ Hnd Hset) as [Hnd' [Hget' _]].
  exists body'. split; [unfold entity_target; simpl; now rewrite H3, H4 |].
  unfold tracked. fold uri. rewrite G1, G2, G3, G4, G5.
  do 9 (split; [solve [assumption | now right | auto] |]).
  intros k Hk. destruct (Hunion k Hk) as [Hkeys Hvals].
  destruct (Hcontents k Hk) as [Hmem Hin].
  destruct (contributes_snoc st uri done r b p k Hr) as [Sk Sv]. split.
  - rewrite Sk, Hmem, orb_true_iff, Hkeys. reflexivity.
  - intros x. rewrite Sv, Hin, Hvals. reflexivity.
Qed.

Lemma tracked_other_row (L : PyLib) (st sti st1 : Indexer.t) (c : bool * string)
    (done : list Row) (d : Doc) (r : Row) (m : Msg) :
  tracked L st c done sti d ->
  Indexer.binding_as_doc L sti r = Ok (m, st1) ->
  String.eqb (uuid5 L (msg_id m)) (uuid5 L (resolved L st c)) = false ->
  tracked L st c done st1 d.
Proof.
  intros [H1 [H2 [H3 [H4 [Hnd [Hcls [Hseen [Hcache [Hshape Hunion]]]]]]]]] H Hm.
  set (uri := resolved L st c) in *.
  unfold Indexer.binding_as_doc in H.
  set (st0 := Indexer.with_count sti (Indexer.count sti + 1)) in H.
  inv_bind H. destruct a as [u st0']. inv_bind H. destruct a as [b p].
  pose proof (entity_uri_mono _ _ _ _ _ Hr) as Hmono.
  apply entity_uri_frame in Hr. destruct Hr as [F1 [F2 [F3 [F4 [F5 F6]]]]].
  simpl in F1, F2, F3, F4, F5, F6, Hmono.
  apply reconcile_dispatch in H.
  destruct H as [Hid [G1 [G2 [G3 [G4 [G5 [Gseen Hcase]]]]]]].
  rewrite Hid in Hm. apply String.eqb_neq in Hm.
  assert (Hc' : NoDup (PyDict.keys (SlidingWindowDictionary.items (Indexer.cache st1))) /\
                (SlidingWindowDictionary.get (Indexer.cache st1) (uuid5 L uri) = None \/
                 SlidingWindowDictionary.get (Indexer.cache st1) (uuid5 L uri) = Some d)).
  { rewrite <- F2 in Hnd, Hcache.
    destruct Hcase as [[_ [_ [_ Hset]]]|[[_ [cached [body' [_ [_ [_ Hset]]]]]]|[_ [_ [-> _]]]]].
    - destruct (setitem_other _ _ _ _ Hnd Hset) as [Hnd' [_ Ho]].
      split; [exact Hnd' |]. destruct (Ho _ Hm) as [Hn|He]; [now left | now rewrite He].
    - destruct (setitem_other _ _ _ _ Hnd Hset) as [Hnd' [_ Ho]].
      split; [exact Hnd' |]. destruct (Ho _ Hm) as [Hn|He]; [now left | now rewrite He].
    - now split. }
  destruct Hc' as [Hnd' Hcache'].
  unfold tracked. fold uri. rewrite G1, G2, G3, G4, G5, F1, F4, F5, F6.
  do 5 (split; [assumption |]).
  split.
  - destruct (fst c); [exact Hcls |]. destruct Hcls as [x [Hx Hu]].
    exists x. split; [now apply Hmono | exact Hu].
  - split; [apply Gseen; now rewrite F3 |]. do 2 (split; [assumption |]). exact Hunion.
Qed.

Lemma last_cons {A : Type} (x : A) (l : list A) (a : A) :
  last (x :: l) a = last l x.
Proof.
  destruct l as [|y l]; [reflexivity |].
  change (last (y :: l) a = last (y :: l) x). apply last_cons_default.
Qed.

Lemma tracked_run (L : PyLib) (st : Indexer.t) (c : bool * string) (rows : list Row) :
  forall done sti d msgs st',
    tracked L st c done sti d ->
    Indexer.read_bindings L sti rows = Ok (msgs, st') ->
    Forall2 (answered L st c) rows msgs ->
    exists d',
      tracked L st c (done ++ filter (is_class L c) rows) st' d' /\
      last (entity_docs L c rows msgs) d = d'.
Proof.
  induction rows as [|r rows IH]; intros done sti d msgs st' Ht H Ha.
  - simpl in H. injection H as <- <-. exists d. simpl. rewrite app_nil_r. auto.
  - simpl in H. inv_bind H. destruct a as [m st1]. inv_bind H. destruct a as [ms st2].
    injection H as <- <-.
    inversion Ha as [|? ? ? ? Ham Has]; subst. unfold answered in Ham.
    simpl. destruct (is_class L c r) eqn:Hcls.
    + apply is_class_true in Hcls.
      destruct (tracked_entity_row L st sti st1 c done d r m Ht Hcls Hr Ham)
        as [d1 [-> Ht1]].
      destruct (IH _ _ _ _ _ Ht1 Hr0 Has) as [d' [Ht' Hlast]].
      exists d'. rewrite <- app_assoc in Ht'. split; [exact Ht' |].
      change (last (d1 :: entity_docs L c rows ms) d = d').
      rewrite last_cons. exact Hlast.
    + pose proof (tracked_other_row L st sti st1 c done d r m Ht Hr Ham) as Ht1.
      destruct (IH _ _ _ _ _ Ht1 Hr0 Has) as [d' [Ht' Hlast]].
      exists d'. split; [exact Ht' | exact Hlast].
Qed.

(** In a run in which the entity stays in the cache, the last document
    sent for it has the keys and the values of the documents of its
    rows. *)
Lemma resident_run_union (L : PyLib) (st st' : Indexer.t) (c : bool * string)
    (rows : list Row) (msgs : list Msg) :
  NoDup (PyDict.keys (SlidingWindowDictionary.items (Indexer.cache st))) ->
  Indexer.set_mem (uuid5 L (resolved L st c)) (Indexer.indexed st) = false ->
  resident_run_of L st c rows msgs st' ->
  exists d,
    last (entity_docs L c rows msgs) [] = d /\
    (SlidingWindowDictionary.get (Indexer.cache st') (uuid5 L (resolved L st c)) = None \/
     SlidingWindowDictionary.get (Indexer.cache st') (uuid5 L (resolved L st c)) = Some d) /\
    forall k, String.eqb k "@id" = false ->
      (PyDict.mem d k = true <->
       contributes_key st (resolved L st c) (filter (is_class L c) rows) k) /\
      (forall x, In x (doc_list d k) <->
                 contributes st (resolved L st c) (filter (is_class L c) rows) k x).
Proof.
  intros Hnd Hnew [Hfirst [H Ha]].
  destruct rows as [|r0 rest]; [contradiction |].
  simpl in H. inv_bind H. destruct a as [m st1]. inv_bind H. destruct a as [ms st2].
  injection H as <- <-.
  inversion Ha as [|? ? ? ? _ Has]; subst.
  pose proof Hfirst as Hc. apply is_class_true in Hc.
  destruct (tracked_first L st st1 c r0 m Hnd Hc Hnew Hr) as [b [-> Ht]].
  destruct (tracked_run L st c rest _ _ _ _ _ Ht Hr0 Has) as [d [Ht' Hlast]].
  exists d. cbn [entity_docs filter]. rewrite Hfirst.
  split; [change (last (b :: entity_docs L c rest ms) [] = d);
          rewrite last_cons; exact Hlast |].
  destruct Ht' as [_ [_ [_ [_ [_ [_ [_ [Hcache [_ Hunion]]]]]]]]].
  split; [exact Hcache | exact Hunion].
Qed.

(** C6. Take two runs from one indexer that has not seen the entity E (and
    whose cache, a dictionary, has no key twice), each starting with a row
    of E, each with rows of other entities in between, and in each of which
    E stays in the cache: every row of E is answered by a replacement of
    its document. The document of the last replacement, which the cache
    holds at the end if it holds one for E, has under every key other than
    ["@id"] the values that the documents of the rows of E have under that
    key, and has the keys that they have; when the rows of E of the second
    run are those of the first in another order, its last document has the
    same keys and the same values under each. *)
Theorem resident_entity_union (L : PyLib) (st st1 st2 : Indexer.t)
    (c : bool * string) (rows1 rows2 : list Row) (msgs1 msgs2 : list Msg) :
  NoDup (PyDict.keys (SlidingWindowDictionary.items (Indexer.cache st))) ->
  Indexer.set_mem (uuid5 L (resolved L st c)) (Indexer.indexed st) = false ->
  resident_run_of L st c rows1 msgs1 st1 ->
  resident_run_of L st c rows2 msgs2 st2 ->
  Permutation (filter (is_class L c) rows1) (filter (is_class L c) rows2) ->
  exists d1 d2,
    last (entity_docs L c rows1 msgs1) [] = d1 /\
    last (entity_docs L c rows2 msgs2) [] = d2 /\
    (SlidingWindowDictionary.get (Indexer.cache st1) (uuid5 L (resolved L st c)) = None \/
     SlidingWindowDictionary.get (Indexer.cache st1) (uuid5 L (resolved L st c)) = Some d1) /\
    forall k, String.eqb k "@id" = false ->
      (PyDict.mem d1 k = true <->
       contributes_key st (resolved L st c) (filter (is_class L c) rows1) k) /\
      (forall x, In x (doc_list d1 k) <->
                 contributes st (resolved L st c) (filter (is_class L c) rows1) k x) /\
      PyDict.mem d2 k = PyDict.mem d1 k /\
      (forall x, In x (doc_list d2 k) <-> In x (doc_list d1 k)).
Proof.
  intros Hnd Hnew Hrun1 Hrun2 Hperm.
  destruct (resident_run_union L st st1 c rows1 msgs1 Hnd Hnew Hrun1)
    as [d1 [Hl1 [Hc1 Hu1]]].
  destruct (resident_run_union L st st2 c rows2 msgs2 Hnd Hnew Hrun2)
    as [d2 [Hl2 [_ Hu2]]].
  exists d1, d2. split; [exact Hl1 | split; [exact Hl2 | split; [exact Hc1 |]]].
  intros k Hk. destruct (Hu1 k Hk) as [Hk1 Hv1]. destruct (Hu2 k Hk) as [Hk2 Hv2].
  destruct (contributes_perm st (resolved L st c) _ _ k Hperm) as [Pk Pv].
  split; [exact Hk1 | split; [exact Hv1 | split]].
  - apply Bool.eq_true_iff_eq. rewrite Hk1, Hk2. exact Pk.
  - intros x. rewrite Hv1, Hv2. apply Pv.
Qed.

Lemma resident_entity_union_witness :
  exists d1 d2,
    last (entity_docs SampleLib.lib (true, "http://e/1") Sample.mixed_rows
            (Sample.answers Sample.mixed_rows)) [] = d1 /\
    last (entity_docs SampleLib.lib (true, "http://e/1") Sample.mixed_rows'
            (Sample.answers Sample.mixed_rows')) [] = d2 /\
    d1 = [("@id", VStr "http://e/1"); ("@type", VList ["a:T"]);
          ("name", VList ["1"; "2"]); ("a:label", VList ["L"])] /\
    d2 = [("a:label", VList ["L"]); ("@id", VStr "http://e/1");
          ("@type", VList ["a:T"]); ("name", VList ["2"; "1"])] /\
    forall k, String.eqb k "@id" = false ->
      PyDict.mem d2 k = PyDict.mem d1 k /\
      (forall x, In x (doc_list d2 k) <-> In x (doc_list d1 k)).
Proof.
  destruct (resident_entity_union SampleLib.lib Sample.ready
              (Sample.indexer_after Sample.mixed_rows)
              (Sample.indexer_after Sample.mixed_rows')
              (true, "http://e/1") Sample.mixed_rows Sample.mixed_rows'
              (Sample.answers Sample.mixed_rows) (Sample.answers Sample.mixed_rows'))
    as [d1 [d2 [H1 [H2 [_ H]]]]].
  - vm_compute. constructor.
  - vm_compute. reflexivity.
  - split; [reflexivity | split; [vm_compute; reflexivity |]].
    vm_compute. repeat constructor.
  - split; [reflexivity | split; [vm_compute; reflexivity |]].
    vm_compute. repeat constructor.
  - vm_compute.
    apply Permutation_sym.
    apply (Permutation_cons_app [_; _] [] _ (Permutation_refl _)).
  - exists d1, d2. split; [exact H1 | split; [exact H2 |]].
    split; [rewrite <- H1; vm_compute; reflexivity |].
    split; [rewrite <- H2; vm_compute; reflexivity |].
    intros k Hk. now destruct (H k Hk) as [_ [_ Hs]].
Defined.

(** ** Rows of one blank node *)

Lemma Forall2_In_l {A B : Type} (R : A -> B -> Prop) (l : list A) (l' : list B) (x : A) :
  Forall2 R l l' -> In x l -> exists y, In y l' /\ R x y.
Proof.
  induction 1 as [|a b l l' Hab _ IH]; intros Hin; [contradiction |].
  destruct Hin as [->|Hin].
  - exists b. split; [now left | exact Hab].
  - destruct (IH Hin) as [y [Hy HR]]. exists y. split; [now right | exact HR].
Qed.

Lemma read_bindings_app (L : PyLib) (a b : list Row) :
  forall st msgs st',
    Indexer.read_bindings L st (a ++ b) = Ok (msgs, st') ->
    exists ma sa mb,
      Indexer.read_bindings L st a = Ok (ma, sa) /\
      Indexer.read_bindings L sa b = Ok (mb, st') /\
      msgs = ma ++ mb.
Proof.
  induction a as [|r a IH]; intros st msgs st' H.
  - exists [], st, msgs. auto.
  - cbn [app Indexer.read_bindings] in H. inv_bind H. destruct a0 as [m st1].
    inv_bind H. destruct a0 as [ms st2]. injection H as <- <-.
    destruct (IH _ _ _ Hr0) as [ma [sa [mb [Ha [Hb ->]]]]].
    exists (m :: ma), sa, mb. cbn [Indexer.read_bindings]. rewrite Hr. simpl.
    rewrite Ha. simpl. auto.
Qed.

(** The steps of [binding_as_doc]: the identifier of the row, its
    document, and the answer to it. *)
Lemma binding_as_doc_steps (L : PyLib) (st st1 : Indexer.t) (node : Row) (m : Msg) :
  Indexer.binding_as_doc L st node = Ok (m, st1) ->
  exists st0 body params,
    Indexer.entity_uri L (Indexer.with_count st (Indexer.count st + 1)) node
    = Ok (msg_id m, st0) /\
    Indexer.row_body st (msg_id m) node = Ok (body, params) /\
    Indexer.reconcile L st0 (msg_id m) body params = Ok (m, st1) /\
    Indexer.properties st0 = Indexer.properties st /\
    Indexer.cache st0 = Indexer.cache st /\
    Indexer.indexed st0 = Indexer.indexed st /\
    Indexer.index st0 = Indexer.index st /\
    Indexer.doc_type st0 = Indexer.doc_type st.
Proof.
  unfold Indexer.binding_as_doc. intros H.
  inv_bind H. destruct a as [uri st0]. inv_bind H. destruct a as [body params].
  pose proof (entity_uri_frame _ _ _ _ _ Hr) as [Hp [Hc [Hi [Hconf [Hx Hd]]]]].
  simpl in Hp, Hc, Hi, Hconf, Hx, Hd.
  rewrite (row_body_static st st0 uri node Hconf Hp) in Hr0.
  assert (Hid : msg_id m = uri).
  { unfold Indexer.reconcile in H.
    destruct (negb (Indexer.set_mem (uuid5 L uri) (Indexer.indexed st0))).
    - inv_bind H. now injection H as <- _.
    - destruct (SlidingWindowDictionary.get (Indexer.cache st0) (uuid5 L uri))
        as [[|kv cached]|].
      + inv_bind H. now injection H as <- _.
      + inv_bind H. inv_bind H. now injection H as <- _.
      + inv_bind H. now injection H as <- _. }
  rewrite Hid. exists st0, body, params. repeat split; assumption.
Qed.

Lemma reconcile_seen (L : PyLib) (st st1 : Indexer.t) (uri : string) (body : Doc)
    (params : Params) (m : Msg) :
  Indexer.set_mem (uuid5 L uri) (Indexer.indexed st) = true ->
  Indexer.reconcile L st uri body params = Ok (m, st1) ->
  seen_answer L st uri body params m.
Proof.
  intros Hseen H. split; [exact Hseen |]. unfold Indexer.reconcile in H.
  rewrite Hseen in H. simpl in H. unfold entity_target.
  destruct (SlidingWindowDictionary.get (Indexer.cache st) (uuid5 L uri))
    as [[|kv cached]|].
  - inv_bind H. injection H as <- _. eauto.
  - inv_bind H. inv_bind H. injection H as <- _. eauto.
  - inv_bind H. injection H as <- _. eauto.
Qed.

(** An entity that got a message is marked as indexed, and stays so. *)
Lemma binding_as_doc_seen (L : PyLib) (st st1 : Indexer.t) (node : Row) (m : Msg) :
  Indexer.binding_as_doc L st node = Ok (m, st1) ->
  Indexer.set_mem (uuid5 L (msg_id m)) (Indexer.indexed st1) = true /\
  forall x, Indexer.set_mem x (Indexer.indexed st) = true ->
            Indexer.set_mem x (Indexer.indexed st1) = true.
Proof.
  intros H. apply binding_as_doc_steps in H.
  destruct H as [st0 [body [params [_ [_ [H [_ [_ [Hi _]]]]]]]]].
  apply reconcile_dispatch in H.
  destruct H as [_ [_ [_ [_ [_ [_ [Hmono Hcase]]]]]]]. rewrite Hi in Hmono.
  split; [| exact Hmono].
  destruct Hcase as [[_ [_ [Hs _]]]|[[Hs _]|[Hs _]]]; [exact Hs | |];
    apply Hmono; now rewrite <- Hi.
Qed.

Lemma read_bindings_seen (L : PyLib) (rows : list Row) :
  forall st msgs st',
    Indexer.read_bindings L st rows = Ok (msgs, st') ->
    (forall x, Indexer.set_mem x (Indexer.indexed st) = true ->
               Indexer.set_mem x (Indexer.indexed st') = true) /\
    Forall (fun m => Indexer.set_mem (uuid5 L (msg_id m)) (Indexer.indexed st') = true)
           msgs.
Proof.
  induction rows as [|r rows IH]; intros st msgs st' H; simpl in H.
  - injection H as <- <-. auto.
  - inv_bind H. destruct a as [m st1]. inv_bind H. destruct a as [ms st2].
    injection H as <- <-. apply binding_as_doc_seen in Hr. destruct Hr as [Hm Hmono].
    destruct (IH _ _ _ Hr0) as [Hmono' Hall].
    split; [intros x Hx; now apply Hmono', Hmono |].
    constructor; [now apply Hmono' | exact Hall].
Qed.

(** A row whose blank node was met before in the run is answered as a
    row of the entity of that blank node, which is marked as indexed. *)
Lemma blank_row_seen (L : PyLib) (st : Indexer.t) (before after : list Row)
    (ri rj : Row) (k : string) (msgs : list Msg) (st' : Indexer.t) :
  (forall i j, uuid4 L i = uuid4 L j -> i = j) ->
  blank_inv L st ->
  Indexer.read_bindings L st (before ++ rj :: after) = Ok (msgs, st') ->
  In ri before -> blank_key ri = Some k -> blank_key rj = Some k ->
  exists msgs_b mj msgs_a st_b st_j body params,
    msgs = msgs_b ++ mj :: msgs_a /\
    Indexer.read_bindings L st before = Ok (msgs_b, st_b) /\
    Indexer.binding_as_doc L st_b rj = Ok (mj, st_j) /\
    Indexer.row_body st_b (msg_id mj) rj = Ok (body, params) /\
    seen_answer L st_b (msg_id mj) body params mj.
Proof.
  intros Hinj Hinv H Hin Hki Hkj.
  apply read_bindings_app in H. destruct H as [msgs_b [st_b [mb [Hb [Ha ->]]]]].
  cbn [Indexer.read_bindings] in Ha. inv_bind Ha. destruct a as [mj st_j].
  inv_bind Ha. destruct a as [msgs_a st2]. injection Ha as <- <-.
  destruct (read_bindings_blank L before Hinj _ _ _ Hinv Hb) as [_ [_ Hall]].
  destruct (Forall2_In_l _ _ _ _ Hall Hin) as [mi [Hmi Hx]].
  destruct (Hx k Hki) as [x [Hget Hid]].
  destruct (read_bindings_seen L before _ _ _ Hb) as [_ Hseen].
  rewrite Forall_forall in Hseen. specialize (Hseen mi Hmi).
  pose proof Hr as Hsteps. apply binding_as_doc_steps in Hsteps.
  destruct Hsteps as [st0 [body [params [He [Hbody [Hrec [Hp [Hc [Hi [Hx' Hd]]]]]]]]]].
  assert (Hsame : msg_id mj = msg_id mi).
  { rewrite (entity_uri_blank _ _ _ _ Hkj), skolemize_total in He.
    unfold PyDict.mem in He. simpl in He. rewrite Hget in He.
    injection He as He _. now rewrite Hid. }
  exists msgs_b, mj, msgs_a, st_b, st_j, body, params.
  split; [reflexivity | split; [exact Hb | split; [exact Hr | split; [exact Hbody |]]]].
  assert (Hs0 : Indexer.set_mem (uuid5 L (msg_id mj)) (Indexer.indexed st0) = true)
    by (now rewrite Hi, Hsame).
  pose proof (reconcile_seen _ _ _ _ _ _ _ Hs0 Hrec) as [Hs Hans].
  unfold seen_answer. rewrite <- Hi, <- Hc. split; [exact Hs |].
  unfold entity_target, Indexer.update_script_for in *.
  now rewrite <- Hp, <- Hx', <- Hd.
Qed.

(** C7. In a run that starts with no blank node recorded, and as long as
    [uuid4] never draws the same UUID twice: two rows whose identifier is a
    blank node get the same ["_id"] exactly when their raw keys are equal;
    at the end of the run resolving the raw key of a row still gives the
    ["_id"] of its message, and changes nothing; and a row whose raw key
    was met earlier in the run is reconciled with the entity of the earlier
    row: when it is read that entity is marked as indexed, and the answer
    is the document of the row merged into the document that the cache
    holds for the entity, sent as a replacement, or an update of the stored
    document when the cache holds none, never the document of the row as a
    document of its own. *)
Theorem blank_nodes_resolve_injectively (L : PyLib) (st st' : Indexer.t)
    (rows : list Row) (msgs : list Msg) :
  (forall i j, uuid4 L i = uuid4 L j -> i = j) ->
  Indexer.blanknodes st = [] ->
  Indexer.read_bindings L st rows = Ok (msgs, st') ->
  List.length msgs = List.length rows /\
  (forall i ri ki mi,
      nth_error rows i = Some ri -> nth_error msgs i = Some mi ->
      blank_key ri = Some ki ->
      Indexer.skolemize L st' ki = Ok (msg_id mi, st')) /\
  (forall i j ri rj ki kj mi mj,
      nth_error rows i = Some ri -> nth_error msgs i = Some mi ->
      nth_error rows j = Some rj -> nth_error msgs j = Some mj ->
      blank_key ri = Some ki -> blank_key rj = Some kj ->
      (ki = kj <-> msg_id mi = msg_id mj)) /\
  (forall before rj after ri k,
      rows = before ++ rj :: after -> In ri before ->
      blank_key ri = Some k -> blank_key rj = Some k ->
      exists msgs_b mj msgs_a st_b st_j body params,
        msgs = msgs_b ++ mj :: msgs_a /\
        List.length msgs_b = List.length before /\
        Indexer.read_bindings L st before = Ok (msgs_b, st_b) /\
        Indexer.binding_as_doc L st_b rj = Ok (mj, st_j) /\
        Indexer.row_body st_b (msg_id mj) rj = Ok (body, params) /\
        seen_answer L st_b (msg_id mj) body params mj).
Proof.
  intros Hinj Hempty H.
  assert (Hinv : blank_inv L st).
  { unfold blank_inv. rewrite Hempty. split; intros; discriminate. }
  destruct (read_bindings_blank L rows Hinj _ _ _ Hinv H) as [[Ha Hb] [_ Hall]].
  assert (Hnth : forall i ri ki mi,
             nth_error rows i = Some ri -> nth_error msgs i = Some mi ->
             blank_key ri = Some ki ->
             exists x, PyDict.get (Indexer.blanknodes st') ki = Some x /\
                       msg_id mi = ("urn:uuid:" ++ x)%string).
  { clear -Hall. induction Hall as [|r m rows msgs Hrm Hall IH];
      intros i ri ki mi Hr Hm Hk.
    - destruct i; discriminate.
    - destruct i as [|i]; simpl in Hr, Hm.
      + injection Hr as <-. injection Hm as <-. now apply Hrm.
      + eapply IH; eassumption. }
  split; [symmetry; eapply Forall2_length; eassumption | split; [| split]].
  - intros i ri ki mi Hr Hm Hk.
    destruct (Hnth _ _ _ _ Hr Hm Hk) as [x [Hx ->]].
    rewrite skolemize_total. unfold PyDict.mem. now rewrite Hx.
  - intros i j ri rj ki kj mi mj Hri Hmi Hrj Hmj Hki Hkj.
    destruct (Hnth _ _ _ _ Hri Hmi Hki) as [x [Hx ->]].
    destruct (Hnth _ _ _ _ Hrj Hmj Hkj) as [y [Hy ->]].
    split.
    + intros ->. congruence.
    + intros Heq. simpl in Heq. injection Heq as <-. eapply Hb; eassumption.
  - intros before rj after ri k -> Hin Hki Hkj.
    destruct (blank_row_seen L st before after ri rj k msgs st' Hinj Hinv H Hin Hki Hkj)
      as [msgs_b [mj [msgs_a [st_b [st_j [body [params [Hm [Hrb [Hrj [Hbody Hans]]]]]]]]]]].
    exists msgs_b, mj, msgs_a, st_b, st_j, body, params.
    split; [exact Hm | split; [| auto]].
    destruct (read_bindings_blank L before Hinj _ _ _ Hinv Hrb) as [_ [_ Hall']].
    symmetry. eapply Forall2_length. eassumption.
Qed.

Lemma blank_nodes_resolve_injectively_witness :
  exists msgs st',
    Indexer.read_bindings SampleLib.lib Sample.ready Sample.blank_rows = Ok (msgs, st') /\
    msgs =
    [MsgIndex {| m_index := "idx"; m_type := "doc"; m_id := "urn:uuid:4-0" |}
       [("@id", VStr "urn:uuid:4-0"); ("@type", VList ["a:T"]);
        ("name", VList ["x"]); ("a:label", VList ["L"])];
     MsgIndex {| m_index := "idx"; m_type := "doc"; m_id := "urn:uuid:4-1" |}
       [("@id", VStr "urn:uuid:4-1"); ("@type", VList ["a:T"]);
        ("name", VList ["y"]); ("a:label", VList ["M"])];
     MsgIndex {| m_index := "idx"; m_type := "doc"; m_id := "urn:uuid:4-0" |}
       [("@id", VStr "urn:uuid:4-0"); ("@type", VList ["a:T"]);
        ("name", VList ["x"; "z"]); ("a:label", VList ["L"])]] /\
    List.length msgs = List.length Sample.blank_rows /\
    (forall i ri ki mi,
        nth_error Sample.blank_rows i = Some ri -> nth_error msgs i = Some mi ->
        blank_key ri = Some ki ->
        Indexer.skolemize SampleLib.lib st' ki = Ok (msg_id mi, st')) /\
    (forall i j ri rj ki kj mi mj,
        nth_error Sample.blank_rows i = Some ri -> nth_error msgs i = Some mi ->
        nth_error Sample.blank_rows j = Some rj -> nth_error msgs j = Some mj ->
        blank_key ri = Some ki -> blank_key rj = Some kj ->
        (ki = kj <-> msg_id mi = msg_id mj)) /\
    (forall before rj after ri k,
        Sample.blank_rows = before ++ rj :: after -> In ri before ->
        blank_key ri = Some k -> blank_key rj = Some k ->
        exists msgs_b mj msgs_a st_b st_j body params,
          msgs = msgs_b ++ mj :: msgs_a /\
          List.length msgs_b = List.length before /\
          Indexer.read_bindings SampleLib.lib Sample.ready before = Ok (msgs_b, st_b) /\
          Indexer.binding_as_doc SampleLib.lib st_b rj = Ok (mj, st_j) /\
          Indexer.row_body st_b (msg_id mj) rj = Ok (body, params) /\
          seen_answer SampleLib.lib st_b (msg_id mj) body params mj).
Proof.
  eexists. eexists. split; [vm_compute; reflexivity |].
  split; [reflexivity |].
  apply (blank_nodes_resolve_injectively SampleLib.lib Sample.ready).
  - exact sample_uuid4_inj.
  - vm_compute. reflexivity.
  - vm_compute. reflexivity.
Defined.

(** ** The update of an evicted entity *)


(** A key of the document that does not start with ["@"] and is no
    variable of the table makes the script generator raise. *)
Lemma script_lines_unregistered (props : PyDict.t Property) (keys : list string)
    (k : string) :
  In k keys -> PyStr.startswith k "@" = false -> PyDict.mem props k = false ->
  is_ok (Indexer.script_lines props keys) = false.
Proof.
  intros Hin Hk Hm. induction keys as [|k' keys IH]; [contradiction |].
  cbn [Indexer.script_lines]. destruct (PyStr.startswith k' "@") eqn:E.
  - destruct Hin as [->|Hin]; [congruence | now apply IH].
  - unfold PyDict.getitem.
    destruct (PyDict.get props k') as [p|] eqn:Hg; [| reflexivity].
    destruct Hin as [->|Hin].
    + unfold PyDict.mem in Hm. now rewrite Hg in Hm.
    + simpl. specialize (IH Hin).
      destruct (Indexer.script_lines props keys); [discriminate | reflexivity].
Qed.

(** So a row of an entity that is seen and not in the cache gets no message
    when its document has such a key. *)
Lemma reconcile_unregistered (L : PyLib) (st : Indexer.t) (uri : string)
    (body : Doc) (params : Params) (k : string) :
  Indexer.set_mem (uuid5 L uri) (Indexer.indexed st) = true ->
  SlidingWindowDictionary.get (Indexer.cache st) (uuid5 L uri) = None ->
  PyDict.mem body k = true -> PyStr.startswith k "@" = false ->
  PyDict.mem (Indexer.properties st) k = false ->
  is_ok (Indexer.reconcile L st uri body params) = false.
Proof.
  intros Hseen Hget Hb Hk Hm. unfold Indexer.reconcile.
  rewrite Hseen, Hget. simpl. unfold Indexer.update_script_for.
  apply dict_mem_In in Hb.
  pose proof (script_lines_unregistered _ _ _ Hb Hk Hm) as Hs.
  destruct (Indexer.script_lines (Indexer.properties st) (PyDict.keys body));
    [discriminate | reflexivity].
Qed.

(** C1. An indexer reads the row of an entity with its class, then the
    rows of a thousand other entities, which push the entity out of the
    cache of a thousand entries. A further row that names the entity with a
    configured property is answered with an update; the row with its class
    makes [binding_as_doc] raise instead: the script generator looks the
    key [rdfs:subClassOf] of the document up in the table of properties,
    which is keyed by variable. *)
Theorem evicted_subclass_row_raises :
  ends_with_update
    (Indexer.json_reader SampleLib.lib Sample.indexer
       (Sample.stream ++ [Sample.entity_row 0])) = true /\
  Indexer.json_reader SampleLib.lib Sample.indexer
    (Sample.stream ++ [Sample.subclass_row])
  = Raise (KeyError "rdfs:subClassOf").
Proof.
  refine (conj _ _); vm_compute; reflexivity.
Qed.

(** C8. For a document whose keys are variables of the table (a property
    given by its qualified name), the script has the conditional append for
    each key that does not start with ["@"]. For the document of a row with
    a class, and for the document of a row that binds a property whose key
    differs from its variable, [update_script_for] raises: it looks the key
    of the document up in the table of properties, which is keyed by
    variable. *)
Theorem update_script_for_document_keys :
  Indexer.update_script_for Sample.ready
    [("@id", VStr "e:0"); ("@type", VList ["a:T"]); ("name", VList ["x"])]
  = Ok (PyStr.join (String "010" "")
          ["if (! ctx._source.containsKey('name')) {";
           "  ctx._source['name'] = [name] ";
           "} else ";
           "if (! ctx._source['name'].contains(name)) {";
           "  ctx._source['name'] += name";
           "}"]) /\
  Indexer.row_body Sample.ready "e:0" Sample.subclass_row
  = Ok ([("@id", VStr "e:0"); ("@type", VList ["a:T"]);
         ("rdfs:subClassOf", VList ["http://c/X"])],
        [("subClass", Some "http://c/X")]) /\
  Indexer.update_script_for Sample.ready
    [("@id", VStr "e:0"); ("@type", VList ["a:T"]);
     ("rdfs:subClassOf", VList ["http://c/X"])]
  = Raise (KeyError "rdfs:subClassOf") /\
  Indexer.row_body Sample.ready "http://e/1" Sample.label_row
  = Ok ([("@id", VStr "http://e/1"); ("@type", VList ["a:T"]);
         ("a:label", VList ["L"])],
        [("label", Some "L")]) /\
  Indexer.update_script_for Sample.ready
    [("@id", VStr "http://e/1"); ("@type", VList ["a:T"]); ("a:label", VList ["L"])]
  = Raise (KeyError "a:label").
Proof.
  refine (conj _ (conj _ (conj _ (conj _ _)))); vm_compute; reflexivity.
Qed.

(** * Further properties *)

(** ** Qualified names *)















(** ** The checks of the configuration *)











(** *** Checked configurations and the query *)











(** ** The capacity of the cache *)









(** ** The script of an update *)


(** ** The table of properties *)




(** ** The messages of a run *)






(** ** The cache of an indexer *)





